(** * acertmgr: the ACME client of [acertmgr_ssl.py] and the configuration
    resolution of [acertmgr/configuration.py]

    The Python code talks to a certificate authority over HTTP, writes and
    removes a proof file, sleeps and prints.  It is embedded here as
    functions in a state-and-exception monad over an explicit [World]:
    the file system, the store of mutable dictionaries, the number of
    network calls made so far and the chronological trace of effects.  The
    network is an oracle that gives the outcome of the n-th [urlopen].

    Text and bytes are both [string]: one [ascii] is one character of a
    Python [str] (code point below 256) or one byte of a [bytes]. *)

From Stdlib Require Import ZArith Ascii String List Bool Lia.
From stdpp Require Import base gmap strings pretty.
Import ListNotations.
#[local] Set Warnings "-register-all".
Local Open Scope string_scope.
Local Open Scope Z_scope.

(** ** Characters and strings *)

Definition code (c : ascii) : N := N_of_ascii c.

Definition in_range (lo hi : N) (c : ascii) : bool :=
  ((lo <=? code c) && (code c <=? hi))%N.

Definition is_upper (c : ascii) : bool := in_range 65 90 c.
Definition is_lower (c : ascii) : bool := in_range 97 122 c.
Definition is_digit (c : ascii) : bool := in_range 48 57 c.

(** [str.isspace] on the code points below 256; also the class [\s] of
    [re] on a [str] pattern. *)
Definition is_space (c : ascii) : bool :=
  in_range 9 13 c || in_range 28 32 c || (code c =? 133)%N || (code c =? 160)%N.

Definition dquote : ascii := ascii_of_nat 34.
Definition backslash : ascii := ascii_of_nat 92.

Fixpoint string_map (f : ascii -> ascii) (s : string) : string :=
  match s with
  | EmptyString => EmptyString
  | String c r => String (f c) (string_map f r)
  end.

Fixpoint string_filter (p : ascii -> bool) (s : string) : string :=
  match s with
  | EmptyString => EmptyString
  | String c r => if p c then String c (string_filter p r) else string_filter p r
  end.

Fixpoint string_forallb (p : ascii -> bool) (s : string) : bool :=
  match s with
  | EmptyString => true
  | String c r => p c && string_forallb p r
  end.

Fixpoint string_rev_onto (acc s : string) : string :=
  match s with
  | EmptyString => acc
  | String c r => string_rev_onto (String c acc) r
  end.

Definition string_rev (s : string) : string := string_rev_onto EmptyString s.

Fixpoint lstrip (s : string) : string :=
  match s with
  | EmptyString => EmptyString
  | String c r => if is_space c then lstrip r else s
  end.

(** [s.strip()] *)
Definition strip (s : string) : string :=
  string_rev (lstrip (string_rev (lstrip s))).

Fixpoint string_last (s : string) : option ascii :=
  match s with
  | EmptyString => None
  | String c EmptyString => Some c
  | String _ r => string_last r
  end.

(** [sep.join(l)] *)
Fixpoint join (sep : string) (l : list string) : string :=
  match l with
  | [] => EmptyString
  | [x] => x
  | x :: r => x ++ sep ++ join sep r
  end.

Definition lower_char (c : ascii) : ascii :=
  if is_upper c then ascii_of_N (code c + 32) else c.

(** [os.path.join(a, b)] of [posixpath] *)
Definition os_path_join (a b : string) : string :=
  match b with
  | String "/" _ => b
  | _ =>
    match string_last a with
    | None => b
    | Some "/"%char => a ++ b
    | Some _ => a ++ "/" ++ b
    end
  end.

(** ** JSON values, as [json.loads] returns them and [json.dumps] takes
    them.  A [dict] is an association list in insertion order. *)

Inductive Json : Type :=
| JNull
| JBool (b : bool)
| JNum (z : Z)
| JStr (s : string)
| JArr (l : list Json)
| JObj (kv : list (string * Json)).

Fixpoint assoc {A} (k : string) (kv : list (string * A)) : option A :=
  match kv with
  | [] => None
  | (k', v) :: r => if String.eqb k k' then Some v else assoc k r
  end.

(** [d[k] = v] on a dict: replace in place, or append a new key. *)
Fixpoint dict_set {A} (k : string) (v : A) (kv : list (string * A)) : list (string * A) :=
  match kv with
  | [] => [(k, v)]
  | (k', v') :: r => if String.eqb k k' then (k', v) :: r else (k', v') :: dict_set k v r
  end.

(** *** [json.dumps] (with [ensure_ascii], the default) *)

Definition hex_digit (n : N) : ascii :=
  if (n <? 10)%N then ascii_of_N (48 + n) else ascii_of_N (87 + n).

Definition json_escape_char (c : ascii) : string :=
  if Ascii.eqb c dquote then String backslash (String dquote EmptyString)
  else if Ascii.eqb c backslash then String backslash (String backslash EmptyString)
  else if (code c =? 8)%N then String backslash "b"
  else if (code c =? 12)%N then String backslash "f"
  else if (code c =? 10)%N then String backslash "n"
  else if (code c =? 13)%N then String backslash "r"
  else if (code c =? 9)%N then String backslash "t"
  else if in_range 32 126 c then String c EmptyString
  else String backslash
         (String "u" (String "0" (String "0"
            (String (hex_digit (code c / 16)) (String (hex_digit (code c mod 16)) EmptyString))))).

Fixpoint json_escape (s : string) : string :=
  match s with
  | EmptyString => EmptyString
  | String c r => json_escape_char c ++ json_escape r
  end.

Definition json_quote (s : string) : string :=
  String dquote (json_escape s ++ String dquote EmptyString).

Fixpoint insert_sorted (x : string * string) (l : list (string * string)) : list (string * string) :=
  match l with
  | [] => [x]
  | y :: r => if String.leb (fst x) (fst y) then x :: l else y :: insert_sorted x r
  end.

Definition sort_items (l : list (string * string)) : list (string * string) :=
  fold_right insert_sorted [] l.

(** [json.dumps(j, sort_keys=sort, separators=(item_sep, key_sep))] *)
Fixpoint json_dumps_with (item_sep key_sep : string) (sort : bool) (j : Json) : string :=
  match j with
  | JNull => "null"
  | JBool true => "true"
  | JBool false => "false"
  | JNum z => pretty z
  | JStr s => json_quote s
  | JArr l => "[" ++ join item_sep (map (json_dumps_with item_sep key_sep sort) l) ++ "]"
  | JObj kv =>
    let items := map (fun p => (fst p, json_dumps_with item_sep key_sep sort (snd p))) kv in
    let items := if sort then sort_items items else items in
    "{" ++ join item_sep (map (fun p => json_quote (fst p) ++ key_sep ++ snd p) items) ++ "}"
  end.

Definition json_dumps : Json -> string := json_dumps_with ", " ": " false.

(** ** [base64_enc] and [binascii.unhexlify] *)

Definition b64_alphabet : string :=
  "ABCDEFGHIJKLMNOPQRSTUVWXYZabcdefghijklmnopqrstuvwxyz0123456789-_".

Definition b64_char (n : N) : ascii :=
  match String.get (N.to_nat n) b64_alphabet with
  | Some c => c
  | None => "="%char
  end.

(** [base64.urlsafe_b64encode] *)
Fixpoint urlsafe_b64encode (b : string) : string :=
  match b with
  | EmptyString => EmptyString
  | String x EmptyString =>
    String (b64_char (code x / 4))
      (String (b64_char ((code x mod 4) * 16)) "==")
  | String x (String y EmptyString) =>
    String (b64_char (code x / 4))
      (String (b64_char ((code x mod 4) * 16 + code y / 16))
         (String (b64_char ((code y mod 16) * 4)) "="))
  | String x (String y (String z r)) =>
    String (b64_char (code x / 4))
      (String (b64_char ((code x mod 4) * 16 + code y / 16))
         (String (b64_char ((code y mod 16) * 4 + code z / 64))
            (String (b64_char (code z mod 64)) (urlsafe_b64encode r))))
  end%N.

(** [base64_enc(b)]: [urlsafe_b64encode(b).decode('utf8').replace("=", "")] *)
Definition base64_enc (b : string) : string :=
  string_filter (fun c => negb (Ascii.eqb c "="%char)) (urlsafe_b64encode b).

Definition hex_value (c : ascii) : option N :=
  if is_digit c then Some (code c - 48)%N
  else if in_range 97 102 c then Some (code c - 87)%N
  else if in_range 65 70 c then Some (code c - 55)%N
  else None.

(** [binascii.unhexlify]: [None] is [binascii.Error] *)
Fixpoint unhexlify (s : string) : option string :=
  match s with
  | EmptyString => Some EmptyString
  | String _ EmptyString => None
  | String h (String l r) =>
    match hex_value h, hex_value l, unhexlify r with
    | Some a, Some b, Some t => Some (String (ascii_of_N (a * 16 + b)) t)
    | _, _, _ => None
    end
  end.

Definition string_even_length (s : string) : bool := Nat.even (String.length s).


(** [re.sub(r"[^A-Za-z0-9_\-]", "_", token)] *)
Definition token_char_ok (c : ascii) : bool :=
  is_upper c || is_lower c || is_digit c || Ascii.eqb c "_" || Ascii.eqb c "-".

Definition sanitize_char (c : ascii) : ascii :=
  if token_char_ok c then c else "_"%char.

Definition sanitize_token (token : string) : string := string_map sanitize_char token.

(** ** Python values and exceptions *)

Inductive PyVal : Type :=
| VNone
| VInt (z : Z)
| VStr (s : string)
| VBytes (b : string)
| VJson (j : Json).

(** The exceptions the code can meet.  [ValueError] keeps the format string
    of the [raise] and the arguments of [.format] apart. *)
Inductive PyExc : Type :=
| HTTPError (status : Z) (body : string)
| URLError (text : string)
| FileNotFoundError (path : string)
| IsADirectoryError (path : string)
| ValueError (fmt : string) (args : list PyVal)
| IndexError
| KeyError (key : string)
| TypeError
| AttributeError (attr : string)
| UnicodeDecodeError
| JSONDecodeError
| BinasciiError
| CryptoError.

(** [isinstance(e, IOError)]; in Python 3 [OSError] is [IOError]. *)
Definition is_IOError (e : PyExc) : bool :=
  match e with
  | HTTPError _ _ | URLError _ | FileNotFoundError _ | IsADirectoryError _ => true
  | _ => false
  end.

(** [getattr(e, "code", None)] *)
Definition exc_code (e : PyExc) : option Z :=
  match e with
  | HTTPError c _ => Some c
  | _ => None
  end.

(** [getattr(e, "read", e.__str__)()] on an [IOError] *)
Definition exc_read_or_str (e : PyExc) : string :=
  match e with
  | HTTPError _ b => b
  | URLError t => t
  | FileNotFoundError p => p
  | IsADirectoryError p => p
  | _ => EmptyString
  end.

(** [code == n] *)
Definition code_is (c : option Z) (n : Z) : bool :=
  match c with
  | Some z => (z =? n)%Z
  | None => false
  end.

Definition code_val (c : option Z) : PyVal :=
  match c with
  | Some z => VInt z
  | None => VNone
  end.

(** The [result] that [send_signed] returns beside [code], as a value:
    the [bytes] of [read()] where there is a code (lines 130 and 132, an
    [HTTPError]), and the [str] of [e.__str__()] where there is none (line
    132, an exception without [code] and [read]). *)
Definition result_val (c : option Z) (result : string) : PyVal :=
  match c with
  | Some _ => VBytes result
  | None => VStr result
  end.

(** ** The world *)

(** What [urlopen] does on one call: a response, or an exception. *)
Inductive Reply : Type :=
| Response (status : Z) (headers : list (string * string)) (body : string)
| Throws (e : PyExc).

Inductive Event : Type :=
| EvGet (url : string)
| EvPost (url data : string)
| EvWrite (path content : string)
| EvRemove (path : string)
| EvSleep (seconds : Z)
| EvPrint (line : string).

(** [store] holds the dictionaries that are passed by reference (the ACME
    header and its copies); [next] is the next free reference.  The
    challenge directory is taken to exist and to be writable. *)
Record World : Type := mkWorld {
  fs : gmap string string;
  store : gmap nat (list (string * Json));
  next : nat;
  calls : nat;
  trace : list Event
}.

Inductive Outcome (A : Type) : Type :=
| Ret (a : A)
| Raise (e : PyExc)
| Diverge.
Arguments Ret {A} a.
Arguments Raise {A} e.
Arguments Diverge {A}.

Definition M (A : Type) : Type := World -> Outcome A * World.

Definition ret {A} (a : A) : M A := fun w => (Ret a, w).
Definition raise {A} (e : PyExc) : M A := fun w => (Raise e, w).
Definition lift {A} (o : Outcome A) : M A := fun w => (o, w).

Definition bind {A B} (m : M A) (k : A -> M B) : M B :=
  fun w =>
    match m w with
    | (Ret a, w') => k a w'
    | (Raise e, w') => (Raise e, w')
    | (Diverge, w') => (Diverge, w')
    end.

Notation "x <- m ;; k" := (bind m (fun x => k))
  (at level 100, m at next level, right associativity).
Notation "m ;;; k" := (bind m (fun _ => k))
  (at level 100, right associativity).

(** [try: m except IOError as e: h e] *)
Definition try_IOError {A} (m : M A) (h : PyExc -> M A) : M A :=
  fun w =>
    match m w with
    | (Raise e, w') => if is_IOError e then h e w' else (Raise e, w')
    | r => r
    end.

(** [try: m except (IOError, AssertionError): h]; [m] returns [false]
    where its [assert] fails. *)
Definition try_IOError_Assertion (m : M bool) (h : M unit) : M unit :=
  fun w =>
    match m w with
    | (Ret true, w') => (Ret tt, w')
    | (Ret false, w') => h w'
    | (Raise e, w') => if is_IOError e then h w' else (Raise e, w')
    | (Diverge, w') => (Diverge, w')
    end.

Definition log (ev : Event) (w : World) : World :=
  mkWorld (fs w) (store w) (next w) (calls w) (trace w ++ [ev]).

Definition print (line : string) : M unit := fun w => (Ret tt, log (EvPrint line) w).
Definition sleep (seconds : Z) : M unit := fun w => (Ret tt, log (EvSleep seconds) w).

(** [with open(path, "w") as f: f.write(content)].  The challenge
    directory exists, can be written to and holds regular files only, so
    [open] fails exactly where the path names no file in it: the empty
    path, and a path that ends with a slash, which is a directory. *)
Definition write_file (path content : string) : M unit :=
  fun w =>
    match string_last path with
    | None => (Raise (FileNotFoundError path), w)
    | Some c =>
      if Ascii.eqb c "/" then (Raise (IsADirectoryError path), w)
      else (Ret tt, mkWorld (<[path := content]> (fs w)) (store w) (next w) (calls w)
                            (trace w ++ [EvWrite path content]))
    end.

(** [os.remove(path)] *)
Definition os_remove (path : string) : M unit :=
  fun w =>
    match fs w !! path with
    | Some _ =>
      (Ret tt, mkWorld (delete path (fs w)) (store w) (next w) (calls w)
                       (trace w ++ [EvRemove path]))
    | None => (Raise (FileNotFoundError path), w)
    end.

(** A new dictionary object. *)
Definition alloc (d : list (string * Json)) : M nat :=
  fun w =>
    (Ret (next w), mkWorld (fs w) (<[next w := d]> (store w)) (S (next w)) (calls w) (trace w)).

Definition deref (l : nat) : M (list (string * Json)) :=
  fun w => (Ret (default [] (store w !! l)), w).

(** [copy.deepcopy(d)] *)
Definition deepcopy (l : nat) : M nat := d <- deref l ;; alloc d.

(** [d[k] = v] *)
Definition setitem (l : nat) (k : string) (v : Json) : M unit :=
  fun w =>
    (Ret tt, mkWorld (fs w) (<[l := dict_set k v (default [] (store w !! l))]> (store w))
                     (next w) (calls w) (trace w)).

(** [j[k]] for a string [k] *)
Definition getitem (j : Json) (k : string) : Outcome Json :=
  match j with
  | JObj kv =>
    match assoc k kv with
    | Some v => Ret v
    | None => Raise (KeyError k)
    end
  | _ => Raise TypeError
  end.

(** [j == s] for a string [s] *)
Definition json_is (j : Json) (s : string) : bool :=
  match j with
  | JStr x => String.eqb x s
  | _ => false
  end.

Fixpoint chars (s : string) : list Json :=
  match s with
  | EmptyString => []
  | String c r => JStr (String c EmptyString) :: chars r
  end.

(** What [for c in j] goes through. *)
Definition iterate (j : Json) : Outcome (list Json) :=
  match j with
  | JArr l => Ret l
  | JObj kv => Ret (map (fun p => JStr (fst p)) kv)
  | JStr s => Ret (chars s)
  | _ => Raise TypeError
  end.

(** The value of a header of a response, [None] when it is absent. *)
Definition header_get (name : string) (headers : list (string * string)) : Json :=
  match find (fun p => String.eqb (string_map lower_char (fst p)) (string_map lower_char name)) headers with
  | Some p => JStr (snd p)
  | None => JNull
  end.

(** ** The libraries the code calls: OpenSSL, hashlib, the JSON parser and
    the UTF-8 decoder. *)

Class Lib : Type := {
  Key : Type;
  CSR : Type;
  Cert : Type;
  (** the two groups of the [re.search] of [acme_header] on
      [crypto.dump_privatekey(FILETYPE_TEXT, key)]: modulus and exponent;
      [None] when the pattern does not match *)
  key_text_groups : Key -> option (string * string);
  (** [hashlib.sha256(b).digest()] *)
  sha256_digest : string -> string;
  (** [crypto.sign(key, data, digest)] *)
  crypto_sign : Key -> string -> string -> string;
  (** [crypto.dump_certificate_request(FILETYPE_ASN1, csr)] *)
  dump_certificate_request : CSR -> string;
  (** [crypto.load_certificate(FILETYPE_ASN1, b)]; [None] is [crypto.Error] *)
  load_certificate : string -> option Cert;
  (** [json.loads(s)]; [None] is [JSONDecodeError] *)
  json_loads : string -> option Json;
  (** [b.decode('utf8')]; [None] is [UnicodeDecodeError] *)
  utf8_decode : string -> option string
}.

Section Acme.

Context `{L : Lib}.

(** The outcome of the n-th call of [urlopen] of the run. *)
Variable net : nat -> Reply.

Definition decode (b : string) : Outcome string :=
  match utf8_decode b with
  | Some s => Ret s
  | None => Raise UnicodeDecodeError
  end.

Definition loads (s : string) : Outcome Json :=
  match json_loads s with
  | Some j => Ret j
  | None => Raise JSONDecodeError
  end.

(** [json.loads(b.decode('utf8'))] *)
Definition loads_bytes (b : string) : Outcome Json :=
  match decode b with
  | Ret s => loads s
  | Raise e => Raise e
  | Diverge => Diverge
  end.

(** [urlopen(url)] and [urlopen(url, data)]: the response as
    [(getcode(), headers, read())]. *)
Definition urlopen_event (ev : Event) : M (Z * list (string * string) * string) :=
  fun w =>
    let w' := mkWorld (fs w) (store w) (next w) (S (calls w)) (trace w ++ [ev]) in
    match net (calls w) with
    | Response status headers body => (Ret (status, headers, body), w')
    | Throws e => (Raise e, w')
    end.

Definition urlopen (url : string) : M (Z * list (string * string) * string) :=
  urlopen_event (EvGet url).

Definition urlopen_data (url data : string) : M (Z * list (string * string) * string) :=
  urlopen_event (EvPost url data).

(** [urlopen] on a value that came out of JSON: only a [str] is a URL. *)
Definition urlopen_json (url : Json) (data : option string) : M (Z * list (string * string) * string) :=
  match url, data with
  | JStr u, None => urlopen u
  | JStr u, Some d => urlopen_data u d
  | _, None => raise (AttributeError "timeout")
  | _, Some _ => raise (AttributeError "data")
  end.

(** The dictionary [acme_header(key)] builds (lines 70-83). *)
Definition acme_header_dict (key : Key) : Outcome (list (string * Json)) :=
  match key_text_groups key with
  | None => Raise (AttributeError "groups")
  | Some (pub_mod, pub_exp) =>
    let pub_mod := string_filter (fun c => negb (Ascii.eqb c ":" || is_space c)) pub_mod in
    let pub_exp := if string_even_length pub_exp then pub_exp else "0" ++ pub_exp in
    match unhexlify pub_exp with
    | None => Raise BinasciiError
    | Some e =>
      match unhexlify pub_mod with
      | None => Raise BinasciiError
      | Some n =>
        Ret [("alg", JStr "RS256");
             ("jwk", JObj [("e", JStr (base64_enc e));
                           ("kty", JStr "RSA");
                           ("n", JStr (base64_enc n))])]
      end
    end
  end.

(** [acme_header(key)] (lines 69-84); the header is a new object. *)
Definition acme_header (key : Key) : M nat :=
  d <- lift (acme_header_dict key) ;;
  alloc d.

(** The JSON object that [send_signed] posts, for a header, a nonce and a
    payload (lines 119-127). *)
Definition protected_of (header : list (string * Json)) (nonce : Json) : list (string * Json) :=
  dict_set "nonce" nonce header.

Definition payload64_of (payload : Json) : string := base64_enc (json_dumps payload).

Definition protected64_of (header : list (string * Json)) (nonce : Json) : string :=
  base64_enc (json_dumps (JObj (protected_of header nonce))).

Definition signature_of (key : Key) (header : list (string * Json)) (nonce payload : Json) : string :=
  crypto_sign key (join "." [protected64_of header nonce; payload64_of payload]) "sha256".

Definition envelope (key : Key) (header : list (string * Json)) (nonce payload : Json) : Json :=
  JObj [("header", JObj header);
        ("protected", JStr (protected64_of header nonce));
        ("payload", JStr (payload64_of payload));
        ("signature", JStr (base64_enc (signature_of key header nonce payload)))].

(** [send_signed(account_key, CA, url, header, payload)] (lines 118-132) *)
Definition send_signed (account_key : Key) (CA : string) (url : Json) (header : nat)
    (payload : Json) : M (option Z * string) :=
  let payload64 := base64_enc (json_dumps payload) in
  protected <- deepcopy header ;;
  resp <- urlopen (CA ++ "/directory") ;;
  setitem protected "nonce" (header_get "Replay-Nonce" (snd (fst resp))) ;;;
  p <- deref protected ;;
  let protected64 := base64_enc (json_dumps (JObj p)) in
  let out := crypto_sign account_key (join "." [protected64; payload64]) "sha256" in
  h <- deref header ;;
  let data := json_dumps (JObj [("header", JObj h);
                                ("protected", JStr protected64);
                                ("payload", JStr payload64);
                                ("signature", JStr (base64_enc out))]) in
  try_IOError
    (resp <- urlopen_json url (Some data) ;;
     ret (Some (fst (fst resp)), snd resp))
    (fun e => ret (exc_code e, exc_read_or_str e)).

(** The payloads of the four requests. *)
Definition new_authz_payload (domain : string) : Json :=
  JObj [("resource", JStr "new-authz");
        ("identifier", JObj [("type", JStr "dns"); ("value", JStr domain)])].

Definition challenge_payload (keyauthorization : string) : Json :=
  JObj [("resource", JStr "challenge"); ("keyAuthorization", JStr keyauthorization)].

Definition new_cert_payload (csr_der : string) : Json :=
  JObj [("resource", JStr "new-cert"); ("csr", JStr (base64_enc csr_der))].

Definition agreement_url : string :=
  "https://letsencrypt.org/documents/LE-SA-v1.0.1-July-27-2015.pdf".

Definition new_reg_payload : Json :=
  JObj [("resource", JStr "new-reg"); ("agreement", JStr agreement_url)].

(** [register_account(account_key, CA)] (lines 90-103) *)
Definition register_account (account_key : Key) (CA : string) : M bool :=
  header <- acme_header account_key ;;
  r <- send_signed account_key CA (JStr (CA ++ "/acme/new-reg")) header new_reg_payload ;;
  let '(code, result) := r in
  if code_is code 201 then
    print "Registered!" ;;; ret true
  else if code_is code 409 then
    print "Already registered!" ;;; ret false
  else
    raise (ValueError "Error registering: {0} {1}" [code_val code; result_val code result]).

(** The account thumbprint (lines 144-145) *)
Definition thumbprint_of (jwk : Json) : string :=
  base64_enc (sha256_digest (json_dumps_with "," ":" true jwk)).

(** [[c for c in cs if c['type'] == "http-01"]] *)
Fixpoint select_http01 (cs : list Json) : Outcome (list Json) :=
  match cs with
  | [] => Ret []
  | c :: r =>
    match getitem c "type" with
    | Ret t =>
      match select_http01 r with
      | Ret l => Ret (if json_is t "http-01" then c :: l else l)
      | o => o
      end
    | Raise e => Raise e
    | Diverge => Diverge
    end
  end.

(** Line 160: the first http-01 challenge of the new-authz response. *)
Definition pick_challenge (result : string) : Outcome Json :=
  match loads_bytes result with
  | Ret j =>
    match getitem j "challenges" with
    | Ret cj =>
      match iterate cj with
      | Ret cs =>
        match select_http01 cs with
        | Ret (c :: _) => Ret c
        | Ret [] => Raise IndexError
        | Raise e => Raise e
        | Diverge => Diverge
        end
      | Raise e => Raise e
      | Diverge => Diverge
      end
    | o => o
    end
  | o => o
  end.

(** Line 161: [re.sub] wants a [str]. *)
Definition challenge_token (challenge : Json) : Outcome string :=
  match getitem challenge "token" with
  | Ret (JStr t) => Ret (sanitize_token t)
  | Ret _ => Raise TypeError
  | Raise e => Raise e
  | Diverge => Diverge
  end.

Definition keyauthorization_of (token thumbprint : string) : string :=
  token ++ "." ++ thumbprint.

Definition wellknown_url_of (domain token : string) : string :=
  "http://" ++ domain ++ "/.well-known/acme-challenge/" ++ token.

(** Lines 169-176: the check that the file is in place. *)
Definition self_check (wellknown_path wellknown_url keyauthorization : string) : M unit :=
  try_IOError_Assertion
    (resp <- urlopen wellknown_url ;;
     resp_data <- lift (decode (snd resp)) ;;
     ret (String.eqb (strip resp_data) keyauthorization))
    (os_remove wellknown_path ;;;
     raise (ValueError "Wrote file to {0}, but couldn't download {1}"
                       [VStr wellknown_path; VStr wellknown_url])).

(** Lines 187-202: the loop [while True].  [fuel] bounds the number of
    polls of the model; the loop of the code has no bound. *)
Fixpoint poll (fuel : nat) (domain : string) (uri : Json) (wellknown_path : string) : M unit :=
  match fuel with
  | O => lift Diverge
  | S fuel' =>
    challenge_status <-
      try_IOError
        (resp <- urlopen_json uri None ;;
         lift (loads_bytes (snd resp)))
        (fun e =>
           match e with
           | HTTPError status body =>
             j <- lift (loads_bytes body) ;;
             raise (ValueError "Error checking challenge: {0} {1}" [VInt status; VJson j])
           | _ => raise (AttributeError "code")
           end) ;;
    status <- lift (getitem challenge_status "status") ;;
    if json_is status "pending" then
      sleep 2 ;;; poll fuel' domain uri wellknown_path
    else if json_is status "valid" then
      print (domain ++ " verified!") ;;;
      os_remove wellknown_path
    else
      raise (ValueError "{0} challenge did not pass: {1}" [VStr domain; VJson challenge_status])
  end.

(** Lines 151-160: get new challenge. *)
Definition get_challenge (account_key : Key) (CA : string) (header : nat) (domain : string)
    : M Json :=
  r <- send_signed account_key CA (JStr (CA ++ "/acme/new-authz")) header
         (new_authz_payload domain) ;;
  let '(code, result) := r in
  if negb (code_is code 201) then
    raise (ValueError "Error requesting challenges: {0} {1}"
                      [code_val code; result_val code result])
  else
    lift (pick_challenge result).

(** Lines 161-165: make the challenge file; the sanitized token is returned. *)
Definition make_challenge_file (acme_dir account_thumbprint : string) (challenge : Json)
    : M string :=
  token <- lift (challenge_token challenge) ;;
  let keyauthorization := keyauthorization_of token account_thumbprint in
  let wellknown_path := os_path_join acme_dir token in
  write_file wellknown_path keyauthorization ;;;
  ret token.

(** Lines 178-184: notify challenge are met. *)
Definition notify_challenge (account_key : Key) (CA : string) (header : nat)
    (challenge : Json) (keyauthorization : string) : M unit :=
  uri <- lift (getitem challenge "uri") ;;
  r <- send_signed account_key CA uri header (challenge_payload keyauthorization) ;;
  let '(code, result) := r in
  if negb (code_is code 202) then
    raise (ValueError "Error triggering challenge: {0} {1}"
                      [code_val code; result_val code result])
  else
    ret tt.

(** Lines 186-202: wait for challenge to be verified. *)
Definition wait_verified (fuel : nat) (domain : string) (challenge : Json)
    (wellknown_path : string) : M unit :=
  uri <- lift (getitem challenge "uri") ;;
  poll fuel domain uri wellknown_path.

(** Lines 149-202: the body of [for domain in domains]. *)
Definition verify_domain (fuel : nat) (account_key : Key) (acme_dir CA : string)
    (header : nat) (account_thumbprint : string) (domain : string) : M unit :=
  print ("Verifying " ++ domain ++ "...") ;;;
  challenge <- get_challenge account_key CA header domain ;;
  token <- make_challenge_file acme_dir account_thumbprint challenge ;;
  let keyauthorization := keyauthorization_of token account_thumbprint in
  let wellknown_path := os_path_join acme_dir token in
  let wellknown_url := wellknown_url_of domain token in
  self_check wellknown_path wellknown_url keyauthorization ;;;
  notify_challenge account_key CA header challenge keyauthorization ;;;
  wait_verified fuel domain challenge wellknown_path.

(** [for domain in domains: ...] *)
Fixpoint verify_domains (fuel : nat) (account_key : Key) (acme_dir CA : string)
    (header : nat) (account_thumbprint : string) (domains : list string) : M unit :=
  match domains with
  | [] => ret tt
  | domain :: rest =>
    verify_domain fuel account_key acme_dir CA header account_thumbprint domain ;;;
    verify_domains fuel account_key acme_dir CA header account_thumbprint rest
  end.

(** Lines 204-217: the request for the certificate. *)
Definition sign_certificate (account_key : Key) (csr : CSR) (CA : string) (header : nat) : M Cert :=
  print "Signing certificate..." ;;;
  let csr_der := dump_certificate_request csr in
  r <- send_signed account_key CA (JStr (CA ++ "/acme/new-cert")) header
         (new_cert_payload csr_der) ;;
  let '(code, result) := r in
  if negb (code_is code 201) then
    raise (ValueError "Error signing certificate: {0} {1}"
                      [code_val code; result_val code result])
  else
    print "Certificate signed!" ;;;
    match load_certificate result with
    | Some cert => ret cert
    | None => raise CryptoError
    end.

(** [get_crt_from_csr(account_key, csr, domains, acme_dir, CA)] (lines 142-217) *)
Definition get_crt_from_csr (fuel : nat) (account_key : Key) (csr : CSR)
    (domains : list string) (acme_dir CA : string) : M Cert :=
  header <- acme_header account_key ;;
  h <- deref header ;;
  jwk <- lift (getitem (JObj h) "jwk") ;;
  let account_thumbprint := thumbprint_of jwk in
  verify_domains fuel account_key acme_dir CA header account_thumbprint domains ;;;
  sign_certificate account_key csr CA header.

(** ** Vocabulary of the statements *)

(** What the POST of [send_signed] turns into for the caller. *)
Definition post_outcome (r : Reply) : Outcome (option Z * string) :=
  match r with
  | Response status _ body => Ret (Some status, body)
  | Throws e => if is_IOError e then Ret (exc_code e, exc_read_or_str e) else Raise e
  end.

(** The world after a call of [send_signed] whose nonce fetch succeeded. *)
Definition after_send_signed (key : Key) (CA url : string) (header : nat) (payload : Json)
    (nonce : Json) (w : World) : World :=
  let h := default [] (store w !! header) in
  mkWorld (fs w) (<[next w := protected_of h nonce]> (store w)) (S (next w)) (S (S (calls w)))
          (trace w ++ [EvGet (CA ++ "/directory");
                       EvPost url (json_dumps (envelope key h nonce payload))]).

(** The world in which [verify_domain] has its answer to new-authz. *)
Definition after_get_challenge (key : Key) (CA : string) (header : nat) (domain : string)
    (nonce : Json) (w : World) : World :=
  after_send_signed key CA (CA ++ "/acme/new-authz") header (new_authz_payload domain) nonce
    (log (EvPrint ("Verifying " ++ domain ++ "...")) w).


(** [m] only adds to the trace. *)
Definition extends {A} (m : M A) : Prop :=
  forall w, exists rest, trace (snd (m w)) = (trace w ++ rest)%list.

(** What one poll of the challenge reports: the status document and its
    [status] field. *)
Definition poll_report (r : Reply) : Outcome (Json * Json) :=
  match r with
  | Response _ _ body =>
    match loads_bytes body with
    | Ret j =>
      match getitem j "status" with
      | Ret st => Ret (j, st)
      | Raise e => Raise e
      | Diverge => Diverge
      end
    | Raise e => Raise e
    | Diverge => Diverge
    end
  | Throws e => Raise e
  end.

(** The effects of [n] polls that saw [pending]. *)
Fixpoint pending_polls (u : string) (n : nat) : list Event :=
  match n with
  | O => []
  | S n' => EvGet u :: EvSleep 2 :: pending_polls u n'
  end.

(** [Validated ds w w']: from [w], the domains [ds] were validated one after
    the other, each from the world the one before left, up to [w']. *)
Inductive Validated (fuel : nat) (account_key : Key) (acme_dir CA : string) (header : nat)
    (account_thumbprint : string) : list string -> World -> World -> Prop :=
| Validated_nil w : Validated fuel account_key acme_dir CA header account_thumbprint [] w w
| Validated_cons d ds w w1 w2 :
    verify_domain fuel account_key acme_dir CA header account_thumbprint d w = (Ret tt, w1) ->
    Validated fuel account_key acme_dir CA header account_thumbprint ds w1 w2 ->
    Validated fuel account_key acme_dir CA header account_thumbprint (d :: ds) w w2.

End Acme.

(** ** [acertmgr/configuration.py]: how a configuration value is resolved *)

Definition DEFAULT_AUTHORITY_AGREEMENT : string :=
  "https://letsencrypt.org/documents/LE-SA-v1.2-November-15-2017.pdf".

Fixpoint is_substring (p s : string) : bool :=
  String.prefix p s ||
  match s with
  | EmptyString => false
  | String _ r => is_substring p r
  end.

(** [name in x] *)
Definition contains (name : string) (x : Json) : Outcome bool :=
  match x with
  | JStr s => Ret (is_substring name s)
  | JArr l => Ret (existsb (fun e => json_is e name) l)
  | JObj kv => Ret (bool_decide (is_Some (assoc name kv)))
  | _ => Raise TypeError
  end.

(** [[x for x in localconfig if name in x]] *)
Fixpoint select_containing (name : string) (localconfig : list Json) : Outcome (list Json) :=
  match localconfig with
  | [] => Ret []
  | x :: r =>
    match contains name x with
    | Ret b =>
      match select_containing name r with
      | Ret l => Ret (if b then x :: l else l)
      | o => o
      end
    | Raise e => Raise e
    | Diverge => Diverge
    end
  end.

(** [update_config_value(config, name, localconfig, globalconfig, default)]
    (lines 48-53); the updated [config] is returned. *)
Definition update_config_value (config : list (string * Json)) (name : string)
    (localconfig : list Json) (globalconfig : list (string * Json)) (default_value : Json)
    : Outcome (list (string * Json)) :=
  match select_containing name localconfig with
  | Ret (v :: _) => Ret (dict_set name v config)
  | Ret [] => Ret (dict_set name (default default_value (assoc name globalconfig)) config)
  | Raise e => Raise e
  | Diverge => Diverge
  end.

(** Line 75 of [parse_config_entry]; [entry] is the pair [(domains, data)]. *)
Definition resolve_authority_agreement (config : list (string * Json)) (domains : string)
    (data : Json) (globalconfig : list (string * Json)) : Outcome (list (string * Json)) :=
  update_config_value config "authority_agreement" [JStr domains; data] globalconfig
    (JStr DEFAULT_AUTHORITY_AGREEMENT).

(** ** A concrete setting for the examples *)

Module Demo.

Definition newline : string := String (ascii_of_nat 10) EmptyString.

Definition challenge_of (token : string) : Json :=
  JObj [("challenges",
         JArr [JObj [("type", JStr "dns-01"); ("token", JStr "unused");
                     ("uri", JStr "https://ca.test/acme/challenge/1")];
               JObj [("type", JStr "http-01"); ("token", JStr token);
                     ("uri", JStr "https://ca.test/acme/challenge/2")]])].

Definition only_dns : Json :=
  JObj [("challenges",
         JArr [JObj [("type", JStr "dns-01"); ("token", JStr "unused");
                     ("uri", JStr "https://ca.test/acme/challenge/1")]])].

Definition status_of (s : string) : Json :=
  JObj [("type", JStr "http-01"); ("status", JStr s)].

(** The JSON documents of the examples; [json_loads] of the example
    library reads these back from their [json.dumps] text. *)
Definition documents : list Json :=
  [challenge_of "tok-1"; challenge_of "a/b.c"; only_dns;
   status_of "pending"; status_of "valid"; status_of "invalid";
   challenge_of EmptyString].

Definition is_ascii_text (b : string) : bool := string_forallb (fun c => (code c <? 128)%N) b.

(** Stand-ins for the cryptography; keys are the pairs of text groups. *)
Definition lib : Lib := {|
  Key := string * string;
  CSR := string;
  Cert := string;
  key_text_groups := fun k => Some k;
  sha256_digest := fun b => "sha256:" ++ b;
  crypto_sign := fun k data digest => "signed:" ++ digest ++ ":" ++ data;
  dump_certificate_request := fun c => c;
  load_certificate := fun b => Some b;
  json_loads := fun s => find (fun j => String.eqb (json_dumps j) s) documents;
  utf8_decode := fun b => if is_ascii_text b then Some b else None
|}.

Definition key : @Key lib := ("c1:a5:" ++ newline ++ "    7f:10", "10001").
Definition CA : string := "https://ca.test".
Definition acme_dir : string := "/var/www/acme".
Definition domains : list string := ["example.com"; "www.example.com"].

Definition world0 : World := mkWorld ∅ ∅ 0 0 [].

Definition jwk : Json :=
  JObj [("e", JStr "AQAB"); ("kty", JStr "RSA"); ("n", JStr "waV_EA")].

Definition header : list (string * Json) := [("alg", JStr "RS256"); ("jwk", jwk)].

Definition thumbprint : string := @thumbprint_of lib jwk.

Definition nonce_reply (n : string) : Reply := Response 200 [("Replay-Nonce", n)] EmptyString.

(** The script of a network: reply [i] of the list, connection refused
    once the list is used up. *)
Definition script (l : list Reply) (i : nat) : Reply :=
  nth i l (Throws (URLError "<urlopen error [Errno 111] Connection refused>")).

(** The world once [acme_header(key)] has made the header, object 0. *)
Definition world1 : World := mkWorld ∅ {[0%nat := header]} 1 0 [].

Definition keyauthorization : string := keyauthorization_of "tok-1" thumbprint.

(** The answers of the CA and of the web server of the domain up to the
    first poll, for a challenge with token [tok-1] whose proof is served
    as [served]. *)
Definition until_poll (served : string) : list Reply :=
  [nonce_reply "nonce-1";
   Response 201 [] (json_dumps (challenge_of "tok-1"));
   Response 200 [] served;
   nonce_reply "nonce-2";
   Response 202 [] (json_dumps (status_of "pending"))].

Definition poll_reply (s : string) : Reply := Response 202 [] (json_dumps (status_of s)).

(** The challenge is invalid at the first poll. *)
Definition net_invalid : nat -> Reply :=
  script (until_poll keyauthorization ++ [poll_reply "invalid"]).

(** The challenge is pending twice and then valid. *)
Definition net_valid : nat -> Reply :=
  script (until_poll keyauthorization ++
          [poll_reply "pending"; poll_reply "pending"; poll_reply "valid"]).

(** Both domains are validated, the first after two polls that report
    pending, and the CA signs the certificate. *)
Definition net_issue : nat -> Reply :=
  script (until_poll keyauthorization ++
          [poll_reply "pending"; poll_reply "pending"; poll_reply "valid"] ++
          until_poll keyauthorization ++ [poll_reply "valid"] ++
          [nonce_reply "nonce-3"; Response 201 [] "DER"]).



(** The CA lists no http-01 challenge. *)
Definition net_only_dns : nat -> Reply :=
  script [nonce_reply "nonce-1"; Response 201 [] (json_dumps only_dns)].

(** A CA that registers the key at the first new-reg and knows it at the
    second. *)
Definition net_register : nat -> Reply :=
  script [nonce_reply "nonce-1"; Response 201 [] "{}";
          nonce_reply "nonce-2"; Throws (HTTPError 409 "{}")].

(** The nonce is served; the POST then finds no server. *)
Definition net_refused : nat -> Reply := script [nonce_reply "nonce-1"].

(** The nonce is served; the CA then answers the POST with an error. *)
Definition net_conflict : nat -> Reply :=
  script [nonce_reply "nonce-1"; Throws (HTTPError 409 "conflict")].

(** Two calls of [send_signed], each with its nonce. *)
Definition net_two_calls : nat -> Reply :=
  script [nonce_reply "nonce-1"; Response 201 [] "{}"; nonce_reply "nonce-2"; Response 201 [] "{}"].

(** Three polls: pending, pending, valid. *)
Definition net_polls : nat -> Reply :=
  script [poll_reply "pending"; poll_reply "pending"; poll_reply "valid"].

Definition proof_path : string := "/var/www/acme/tok-1".

(** The proof file is in place and nothing else has happened. *)
Definition world_published : World :=
  mkWorld {[proof_path := keyauthorization]} ∅ 0 0 [].


End Demo.

(** ** Further vocabulary *)

(** [s] between two double quotes, with nothing escaped. *)
Definition quoted (s : string) : string :=
  String dquote (s ++ String dquote EmptyString).

(** [m] keeps [P] true of the world, whatever its outcome. *)
Definition preserves {A} (P : World -> Prop) (m : M A) : Prop :=
  forall w, P w -> P (snd (m w)).

(** A hexadecimal digit, of either case. *)
Definition is_hex (c : ascii) : bool :=
  match hex_value c with
  | Some _ => true
  | None => false
  end.

(** The position of a character in the base64 alphabet, 64 for the others. *)
Fixpoint index_in (c : ascii) (s : string) : N :=
  match s with
  | EmptyString => 0
  | String d r => if Ascii.eqb c d then 0 else N.succ (index_in c r)
  end.

Definition b64_index (c : ascii) : N := index_in c b64_alphabet.

(** The value of a character of the base64url alphabet. *)
Definition b64_value (c : ascii) : option N :=
  if (b64_index c <? 64)%N then Some (b64_index c) else None.

(** Decoding of base64url without padding (RFC 7515), as the receiver of
    a signed request does it: four characters give three bytes, and two
    or three characters at the end give one or two.  A character outside
    the alphabet, or a single character at the end, is refused. *)
Fixpoint base64_dec (s : string) : option string :=
  match s with
  | EmptyString => Some EmptyString
  | String a (String b EmptyString) =>
    match b64_value a, b64_value b with
    | Some va, Some vb => Some (String (ascii_of_N (va * 4 + vb / 16)) EmptyString)
    | _, _ => None
    end
  | String a (String b (String c EmptyString)) =>
    match b64_value a, b64_value b, b64_value c with
    | Some va, Some vb, Some vc =>
      Some (String (ascii_of_N (va * 4 + vb / 16))
              (String (ascii_of_N ((vb mod 16) * 16 + vc / 4)) EmptyString))
    | _, _, _ => None
    end
  | String a (String b (String c (String d r))) =>
    match b64_value a, b64_value b, b64_value c, b64_value d, base64_dec r with
    | Some va, Some vb, Some vc, Some vd, Some rest =>
      Some (String (ascii_of_N (va * 4 + vb / 16))
              (String (ascii_of_N ((vb mod 16) * 16 + vc / 4))
                 (String (ascii_of_N ((vc mod 4) * 64 + vd)) rest)))
    | _, _, _, _, _ => None
    end
  | String _ EmptyString => None
  end%N.

Section AcmeVocabulary.

Context `{L : Lib}.

(** An event of a run in which every request posted satisfies [G]. *)
Definition event_ok (G : string -> string -> Prop) (ev : Event) : Prop :=
  match ev with
  | EvPost url data => G url data
  | _ => True
  end.

(** The invariant of a run of [get_crt_from_csr]: the header object holds
    [h], every request posted so far satisfies [G], and the file [p] holds
    [v]. *)
Definition run_inv (G : string -> string -> Prop) (header : nat) (h : list (string * Json))
    (p : string) (v : option string) (w : World) : Prop :=
  store w !! header = Some h /\
  (header < next w)%nat /\
  Forall (event_ok G) (trace w) /\
  fs w !! p = v.

(** [data] is a request signed under the header [h]. *)
Definition signed_under (key : Key) (h : list (string * Json)) (url data : string) : Prop :=
  exists nonce payload, data = json_dumps (envelope key h nonce payload).

(** The separator [os.path.join] puts after [a]. *)
Definition join_separator (a : string) : string :=
  match string_last a with
  | None => EmptyString
  | Some "/"%char => EmptyString
  | Some _ => "/"
  end.


(** The world in which [sign_certificate] has its answer to new-cert. *)
Definition after_new_cert (key : Key) (csr : CSR) (CA : string) (header : nat) (nonce : Json)
    (w : World) : World :=
  after_send_signed key CA (CA ++ "/acme/new-cert") header
    (new_cert_payload (dump_certificate_request csr)) nonce
    (log (EvPrint "Signing certificate...") w).

End AcmeVocabulary.

(** ** [acertmgr/configuration.py]: the rest of the resolution *)

Definition DEFAULT_CONF_FILE : string := "/etc/acertmgr/acertmgr.conf".
Definition DEFAULT_CONF_DIR : string := "/etc/acertmgr".
Definition LEGACY_WORK_DIR : string := "/etc/acme".
Definition LEGACY_CONF_FILE : string := os_path_join LEGACY_WORK_DIR "acme.conf".
Definition LEGACY_CONF_DIR : string := os_path_join LEGACY_WORK_DIR "domains.d".
Definition DEFAULT_KEY_LENGTH : Z := 4096.
Definition DEFAULT_TTL : Z := 15.
Definition DEFAULT_API : string := "v1".
Definition DEFAULT_AUTHORITY : string := "https://acme-v01.api.letsencrypt.org".

(** Sequencing of computations that may raise. *)
Definition obind {A B} (o : Outcome A) (k : A -> Outcome B) : Outcome B :=
  match o with
  | Ret a => k a
  | Raise e => Raise e
  | Diverge => Diverge
  end.

Notation "x <~ o ;; k" := (obind o (fun x => k))
  (at level 100, o at next level, right associativity).

(** [s.split(sep)] for a separator of one character *)
Fixpoint split_on (sep : ascii) (s : string) : list string :=
  match s with
  | EmptyString => [EmptyString]
  | String c r =>
    if Ascii.eqb c sep then EmptyString :: split_on sep r
    else match split_on sep r with
         | [] => [String c EmptyString]
         | x :: l => String c x :: l
         end
  end.

(** The digits of [int(s)]: one underscore may stand between two digits. *)
Fixpoint int_digits (acc : Z) (after_digit : bool) (s : string) : option Z :=
  match s with
  | EmptyString => if after_digit then Some acc else None
  | String c r =>
    if is_digit c then int_digits (acc * 10 + Z.of_N (code c - 48)) true r
    else if Ascii.eqb c "_" then
      if after_digit then
        match r with
        | String d _ => if is_digit d then int_digits acc false r else None
        | EmptyString => None
        end
      else None
    else None
  end.

(** [int(s)] for a [str]: [None] is [ValueError] *)
Definition int_of_str (s : string) : option Z :=
  match strip s with
  | String "-" r => option_map Z.opp (int_digits 0 false r)
  | String "+" r => int_digits 0 false r
  | r => int_digits 0 false r
  end.

(** [int(v)] *)
Definition py_int (v : Json) : Outcome Z :=
  match v with
  | JNum z => Ret z
  | JBool b => Ret (if b then 1 else 0)
  | JStr s =>
    match int_of_str s with
    | Some z => Ret z
    | None => Raise (ValueError "invalid literal for int() with base 10: {0!r}" [VStr s])
    end
  | _ => Raise TypeError
  end.

(** [os.path.join(a, b)] for a value [a] out of the configuration *)
Definition path_join_json (a : Json) (b : string) : Outcome string :=
  match a with
  | JStr s => Ret (os_path_join s b)
  | _ => Raise TypeError
  end.

(** [[x for x in l if test(x)]] *)
Fixpoint select_by (test : Json -> Outcome bool) (l : list Json) : Outcome (list Json) :=
  match l with
  | [] => Ret []
  | x :: r =>
    b <~ test x ;;
    rest <~ select_by test r ;;
    Ret (if b then x :: rest else rest)
  end.

(** [d.update(other)] for a dictionary [other] *)
Definition dict_merge (d other : list (string * Json)) : list (string * Json) :=
  fold_left (fun acc kv => dict_set (fst kv) (snd kv) acc) other d.

(** One element of the sequence given to [dict.update]: the pair it stands
    for, or the exception.  A pair whose key is no string is [None]. *)
Definition update_pair (i : nat) (x : Json) : Outcome (option (string * Json)) :=
  let wrong n :=
    Raise (ValueError "dictionary update sequence element #{0} has length {1}; 2 is required"
                      [VInt (Z.of_nat i); VInt (Z.of_nat n)]) in
  match x with
  | JStr (String a (String b EmptyString)) =>
    Ret (Some (String a EmptyString, JStr (String b EmptyString)))
  | JStr s => wrong (String.length s)
  | JArr [JStr k; v] => Ret (Some (k, v))
  | JArr [JArr _; _] | JArr [JObj _; _] => Raise TypeError
  | JArr [_; _] => Ret None
  | JArr l => wrong (List.length l)
  | JObj [(k1, _); (k2, _)] => Ret (Some (k1, JStr k2))
  | JObj kv => wrong (List.length kv)
  | _ => Raise TypeError
  end.

Fixpoint update_pairs (i : nat) (d : list (string * Json)) (l : list Json)
    : Outcome (list (string * Json)) :=
  match l with
  | [] => Ret d
  | x :: r =>
    kv <~ update_pair i x ;;
    update_pairs (S i) (match kv with Some (k, v) => dict_set k v d | None => d end) r
  end.

(** [d.update(other)], the updated [d] returned.  A sequence of pairs with
    a key that is no string would give a dictionary that is none of this
    model; a handler configuration is never such a sequence, see
    [update_pairs_raises]. *)
Definition dict_update (d : list (string * Json)) (other : Json)
    : Outcome (list (string * Json)) :=
  match other with
  | JObj kv => Ret (dict_merge d kv)
  | JArr l => update_pairs 0 d l
  | JStr s => update_pairs 0 d (chars s)
  | _ => Raise TypeError
  end.

(** [name not in d] then [d[name] = value], for each item of [defaults] *)
Definition fill_defaults (d defaults : list (string * Json)) : list (string * Json) :=
  fold_left (fun acc kv => match assoc (fst kv) acc with
                           | Some _ => acc
                           | None => dict_set (fst kv) (snd kv) acc
                           end) defaults d.

(** [complete_action_config(domainconfig, config)] (lines 34-44); the
    completed [domainconfig] is returned. *)
Definition complete_action_config (domainconfig : Json) (config : list (string * Json))
    : Outcome (list (string * Json)) :=
  defaults <~ getitem (JObj config) "defaults" ;;
  ca_file <~ getitem (JObj config) "ca_file" ;;
  match domainconfig with
  | JObj d =>
    let d := dict_set "ca_file" ca_file d in
    cert_file <~ getitem (JObj config) "cert_file" ;;
    let d := dict_set "cert_file" cert_file d in
    key_file <~ getitem (JObj config) "key_file" ;;
    let d := dict_set "key_file" key_file d in
    match defaults with
    | JObj dflt =>
      let d := fill_defaults d dflt in
      Ret (match assoc "action" d with
           | Some _ => d
           | None => dict_set "action" JNull d
           end)
    | _ => Raise (AttributeError "items")
    end
  | _ => Raise TypeError
  end.

(** The loop of lines 114-115 on the elements selected: each is completed
    in turn. *)
Fixpoint complete_all (config : list (string * Json)) (l : list Json)
    : Outcome (list (list (string * Json))) :=
  match l with
  | [] => Ret []
  | x :: r =>
    c <~ complete_action_config x config ;;
    rest <~ complete_all config r ;;
    Ret (c :: rest)
  end.

(** The elements of [data] after that loop: [complete_action_config]
    changes the dictionaries it is given in place. *)
Fixpoint completed_in_place (xs : list Json) (selected : list bool)
    (completed : list (list (string * Json))) : list Json :=
  match xs, selected with
  | x :: xr, true :: sr =>
    match completed with
    | c :: cr => JObj c :: completed_in_place xr sr cr
    | [] => x :: completed_in_place xr sr []
    end
  | x :: xr, false :: sr => x :: completed_in_place xr sr completed
  | _, _ => xs
  end.

Fixpoint contains_each (name : string) (xs : list Json) : Outcome (list bool) :=
  match xs with
  | [] => Ret []
  | x :: r =>
    b <~ contains name x ;;
    rest <~ contains_each name r ;;
    Ret (b :: rest)
  end.

(** Lines 122-134: the handler configuration of one domain. *)
Definition handler_config (globalconfig : list (string * Json)) (handlerconfigs : list Json)
    (domain : string) : Outcome (list (string * Json)) :=
  let cfg := globalconfig in
  genericfgs <~ select_by (fun x => b <~ contains "domain" x ;; Ret (negb b)) handlerconfigs ;;
  cfg <~ match genericfgs with
         | g :: _ => dict_update cfg g
         | [] => Ret cfg
         end ;;
  specificcfgs <~ select_by (fun x =>
                    b <~ contains "domain" x ;;
                    if b then (d <~ getitem x "domain" ;; Ret (json_is d domain))
                    else Ret false) handlerconfigs ;;
  match specificcfgs with
  | s :: _ => dict_update cfg s
  | [] => Ret cfg
  end.

(** Lines 118-134: the loop over the domains fills [handlers]. *)
Fixpoint handlers_for (globalconfig : list (string * Json)) (handlerconfigs : list Json)
    (handlers : list (string * Json)) (domainlist : list string)
    : Outcome (list (string * Json)) :=
  match domainlist with
  | [] => Ret handlers
  | domain :: rest =>
    cfg <~ handler_config globalconfig handlerconfigs domain ;;
    handlers_for globalconfig handlerconfigs (dict_set domain (JObj cfg) handlers) rest
  end.

Section Configuration.

(** [hashlib.md5(s.encode('utf-8')).hexdigest()] *)
Variable md5_hexdigest : string -> string.

(** [parse_config_entry(entry, globalconfig, work_dir)] (lines 57-136);
    [entry] is the pair [(domains, data)]. *)
Definition parse_config_entry (domains : string) (data : Json)
    (globalconfig : list (string * Json)) (work_dir : string)
    : Outcome (list (string * Json)) :=
  let entry := [JStr domains; data] in
  let config := [] in
  let config := dict_set "domains" (JStr domains) config in
  let config := dict_set "domainlist" (JArr (map JStr (split_on " " domains))) config in
  let id := md5_hexdigest domains in
  let config := dict_set "id" (JStr id) config in
  let config := dict_set "defaults" (default (JObj []) (assoc "defaults" globalconfig)) config in
  config <~ update_config_value config "api" entry globalconfig (JStr DEFAULT_API) ;;
  config <~ update_config_value config "authority" entry globalconfig (JStr DEFAULT_AUTHORITY) ;;
  config <~ resolve_authority_agreement config domains data globalconfig ;;
  config <~ update_config_value config "account_key" entry globalconfig
              (JStr (os_path_join work_dir "account.key")) ;;
  config <~ update_config_value config "cert_dir" entry globalconfig (JStr work_dir) ;;
  config <~ update_config_value config "ttl_days" entry globalconfig (JNum DEFAULT_TTL) ;;
  cert_dir <~ getitem (JObj config) "cert_dir" ;;
  crt <~ path_join_json cert_dir (id ++ ".crt") ;;
  config <~ update_config_value config "cert_file" entry globalconfig
              (default (JStr crt) (assoc "server_cert" globalconfig)) ;;
  cert_dir <~ getitem (JObj config) "cert_dir" ;;
  key <~ path_join_json cert_dir (id ++ ".key") ;;
  config <~ update_config_value config "key_file" entry globalconfig
              (default (JStr key) (assoc "server_key" globalconfig)) ;;
  config <~ update_config_value config "key_length" entry globalconfig
              (JNum DEFAULT_KEY_LENGTH) ;;
  key_length <~ getitem (JObj config) "key_length" ;;
  n <~ py_int key_length ;;
  let config := dict_set "key_length" (JNum n) config in
  ca_files <~ select_containing "ca_file" entry ;;
  config <~ match ca_files with
            | x :: _ =>
              Ret (dict_set "ca_file" x (dict_set "static_ca" (JBool true) config))
            | [] =>
              match assoc "server_ca" globalconfig with
              | Some ca =>
                Ret (dict_set "ca_file" ca (dict_set "static_ca" (JBool true) config))
              | None =>
                let config := dict_set "static_ca" (JBool false) config in
                cert_dir <~ getitem (JObj config) "cert_dir" ;;
                ca <~ path_join_json cert_dir (id ++ ".ca") ;;
                Ret (dict_set "ca_file" (JStr ca) config)
              end
            end ;;
  let config := dict_set "actions" (JArr []) config in
  xs <~ iterate data ;;
  selected <~ contains_each "path" xs ;;
  actioncfgs <~ select_containing "path" xs ;;
  actions <~ complete_all config actioncfgs ;;
  let config := dict_set "actions" (JArr (map JObj actions)) config in
  let config := dict_set "handlers" (JObj []) config in
  let xs := completed_in_place xs selected actions in
  handlerconfigs <~ select_containing "mode" xs ;;
  domainlist <~ Ret (split_on " " domains) ;;
  handlers <~ handlers_for globalconfig handlerconfigs [] domainlist ;;
  Ret (dict_set "handlers" (JObj handlers) config).

End Configuration.

(** [name.endswith(suffix)] *)
Definition endswith (suffix name : string) : bool :=
  String.prefix (string_rev suffix) (string_rev name).

(** Line 196 of [load]: the files of the configuration directory that are
    read as domain configurations. *)
Definition is_domain_config_file (domain_config_file global_config_file : string) : bool :=
  endswith ".conf" domain_config_file &&
  negb (String.eqb domain_config_file global_config_file).

(** An argument of the command line is used when it is given and not
    empty. *)
Definition given (arg : option string) : option string :=
  match arg with
  | Some EmptyString | None => None
  | Some s => Some s
  end.

(** Lines 150-173 of [load]: the global configuration file, the domain
    configuration directory and the work directory. *)
Definition resolve_paths (config_file config_dir work_dir : option string)
    (isfile isdir : string -> bool) : string * string * string :=
  let global_config_file :=
    match given config_file with
    | Some f => f
    | None => if isfile LEGACY_CONF_FILE then LEGACY_CONF_FILE else DEFAULT_CONF_FILE
    end in
  let domain_config_dir :=
    match given config_dir with
    | Some d => d
    | None => if isdir LEGACY_CONF_DIR then LEGACY_CONF_DIR else DEFAULT_CONF_DIR
    end in
  let work_dir :=
    match given work_dir with
    | Some d => d
    | None => if isdir LEGACY_WORK_DIR then LEGACY_WORK_DIR else domain_config_dir
    end in
  (global_config_file, domain_config_dir, work_dir).

(** Lines 193-196 of [load]: the names of [os.listdir(domain_config_dir)]
    that are read. *)
Definition domain_config_files (names : list string) (global_config_file : string)
    : list string :=
  List.filter (fun name => is_domain_config_file name global_config_file) names.

(** [isinstance(x, dict)] *)
Definition is_dict (x : Json) : bool :=
  match x with
  | JObj _ => true
  | _ => false
  end.

(** [c in s] for a character [c] *)
Definition has_char (c : ascii) (s : string) : bool :=
  negb (string_forallb (fun d => negb (Ascii.eqb d c)) s).

(** The first handler configuration that names no domain, and the first
    that names [domain]. *)
Definition first_generic (hs : list (list (string * Json))) : option (list (string * Json)) :=
  List.find (fun h => match assoc "domain" h with Some _ => false | None => true end) hs.

Definition first_specific (domain : string) (hs : list (list (string * Json)))
    : option (list (string * Json)) :=
  List.find (fun h => match assoc "domain" h with Some d => json_is d domain | None => false end) hs.

(** [o[k]] where [o] may be missing *)
Definition assoc_in (k : string) (o : option (list (string * Json))) : option Json :=
  match o with
  | Some h => assoc k h
  | None => None
  end.

(** The names that [parse_config_entry] looks for in an entry (lines
    69-101). *)
Definition config_names : list string :=
  ["api"; "authority"; "authority_agreement"; "account_key"; "cert_dir"; "ttl_days";
   "cert_file"; "key_file"; "key_length"; "ca_file"].

(** ** Further examples *)

Module Examples.

(** No server answers at all. *)
Definition net_down : nat -> Reply := Demo.script [].


(** The CA issues a challenge whose token is empty. *)
Definition net_empty_token : nat -> Reply :=
  Demo.script [Demo.nonce_reply "nonce-1";
               Response 201 [] (json_dumps (Demo.challenge_of EmptyString))].

(** The challenge is pending once; the next poll gets an HTTP error with
    a JSON body. *)
Definition net_poll_error : nat -> Reply :=
  Demo.script [Demo.poll_reply "pending";
               Throws (HTTPError 403 (json_dumps (Demo.status_of "invalid")))].

(** A stand-in for the MD5 digest in hexadecimal. *)
Definition md5_hexdigest (s : string) : string :=
  "id" ++ base64_enc s.

Definition domains : string := "example.com www.example.com".

(** The data of a domain configuration: an action and two handler
    configurations, one of them for [www.example.com] only. *)
Definition action : list (string * Json) :=
  [("path", JStr "/etc/ssl/private/example.pem"); ("format", JStr "key,crt,ca");
   ("cert_file", JStr "/tmp/other.crt")].

Definition generic_handler : list (string * Json) :=
  [("mode", JStr "webdir"); ("webdir", JStr "/var/www/acme")].

Definition www_handler : list (string * Json) :=
  [("mode", JStr "standalone"); ("domain", JStr "www.example.com"); ("port", JNum 1380)].

Definition data : list (list (string * Json)) := [action; generic_handler; www_handler].

Definition globalconfig : list (string * Json) :=
  [("ttl_days", JNum 30);
   ("key_length", JStr "2048");
   ("defaults", JObj [("user", JStr "root"); ("format", JStr "crt")]);
   ("mode", JStr "webdir")].

Definition work_dir : string := "/etc/acertmgr".

(** The configuration of that entry. *)
Definition config : list (string * Json) :=
  Eval vm_compute in
    match parse_config_entry md5_hexdigest domains (JArr (map JObj data)) globalconfig work_dir with
    | Ret c => c
    | _ => []
    end.

End Examples.

(** * Properties *)

(** ** Strings *)

Lemma string_map_length f s : String.length (string_map f s) = String.length s.
Proof. induction s as [|c r IH]; simpl; [reflexivity | now rewrite IH]. Qed.

Lemma string_map_get f s : forall i, String.get i (string_map f s) = option_map f (String.get i s).
Proof.
  induction s as [|c r IH]; intros i; simpl; [reflexivity|].
  destruct i as [|i]; simpl; [reflexivity | apply IH].
Qed.

Lemma string_map_forallb (p : ascii -> bool) f s :
  (forall c, p (f c) = true) -> string_forallb p (string_map f s) = true.
Proof.
  intros Hp. induction s as [|c r IH]; simpl; [reflexivity|].
  now rewrite Hp, IH.
Qed.

Lemma string_map_fixed f s :
  string_map f s = s -> forall i c, String.get i s = Some c -> f c = c.
Proof.
  induction s as [|a r IH]; simpl; intros Heq i c Hget; [destruct i; discriminate|].
  injection Heq as Ha Hr.
  destruct i as [|i]; simpl in Hget.
  - injection Hget as <-. exact Ha.
  - eapply IH; eauto.
Qed.



Lemma sanitize_char_ok c : token_char_ok (sanitize_char c) = true.
Proof.
  unfold sanitize_char. destruct (token_char_ok c) eqn:E; [exact E | reflexivity].
Qed.

Lemma string_last_app a c r : string_last (a ++ String c r) = string_last (String c r).
Proof.
  induction a as [|x a IH]; [reflexivity|].
  change (String x a ++ String c r) with (String x (a ++ String c r)).
  cbn [string_last]. rewrite IH.
  destruct a as [|y a']; reflexivity.
Qed.




(** ** [base64_enc] *)

Lemma code_lt_256 c : (code c < 256)%N.
Proof. apply N_ascii_bounded. Qed.

Lemma code_inj a b : code a = code b -> a = b.
Proof.
  intros H. rewrite <- (ascii_N_embedding a), <- (ascii_N_embedding b).
  unfold code in H. now rewrite H.
Qed.

Lemma below_64 (P : N -> bool) :
  forallb (fun k => P (N.of_nat k)) (seq 0 64) = true ->
  forall n, (n < 64)%N -> P n = true.
Proof.
  intros Hall n Hn. rewrite forallb_forall in Hall.
  rewrite <- (N2Nat.id n). apply Hall. apply in_seq. lia.
Qed.

Lemma b64_char_ok n : (n < 64)%N -> token_char_ok (b64_char n) = true.
Proof. apply (below_64 (fun n => token_char_ok (b64_char n))). vm_compute. reflexivity. Qed.

Lemma b64_char_not_pad n : (n < 64)%N -> Ascii.eqb (b64_char n) "="%char = false.
Proof.
  intros Hn. apply negb_true_iff.
  revert n Hn. apply (below_64 (fun n => negb (Ascii.eqb (b64_char n) "="%char))).
  vm_compute. reflexivity.
Qed.

Lemma b64_index_char n : (n < 64)%N -> b64_index (b64_char n) = n.
Proof.
  intros Hn. apply N.eqb_eq.
  revert n Hn. apply (below_64 (fun n => N.eqb (b64_index (b64_char n)) n)).
  vm_compute. reflexivity.
Qed.

Lemma b64_char_inj n m : (n < 64)%N -> (m < 64)%N -> b64_char n = b64_char m -> n = m.
Proof.
  intros Hn Hm H. rewrite <- (b64_index_char n Hn), <- (b64_index_char m Hm). now rewrite H.
Qed.

Lemma string_ind3 (P : string -> Prop) :
  P EmptyString ->
  (forall x, P (String x EmptyString)) ->
  (forall x y, P (String x (String y EmptyString))) ->
  (forall x y z r, P r -> P (String x (String y (String z r)))) ->
  forall s, P s.
Proof.
  intros H0 H1 H2 H3 s.
  enough (H : P s /\ (forall x, P (String x s)) /\ (forall x y, P (String x (String y s))))
    by apply H.
  induction s as [|c s (IH0 & IH1 & IH2)]; [now auto|].
  repeat split; auto.
Qed.

Ltac div_lia := zify; Z.to_euclidean_division_equations; lia.

Lemma sextet_bounds x y :
  (code x / 4 < 64 /\ (code x mod 4) * 16 < 64 /\ (code x mod 4) * 16 + code y / 16 < 64 /\
   (code x mod 16) * 4 < 64 /\ (code x mod 16) * 4 + code y / 64 < 64 /\ code x mod 64 < 64)%N.
Proof.
  pose proof (code_lt_256 x). pose proof (code_lt_256 y). repeat split; div_lia.
Qed.

Lemma base64_enc_1 x :
  base64_enc (String x EmptyString) =
    String (b64_char (code x / 4)) (String (b64_char ((code x mod 4) * 16)) EmptyString).
Proof.
  destruct (sextet_bounds x x) as (H1 & H2 & _).
  unfold base64_enc. cbn [urlsafe_b64encode string_filter].
  rewrite (b64_char_not_pad _ H1), (b64_char_not_pad _ H2). reflexivity.
Qed.

Lemma base64_enc_2 x y :
  base64_enc (String x (String y EmptyString)) =
    String (b64_char (code x / 4))
      (String (b64_char ((code x mod 4) * 16 + code y / 16))
         (String (b64_char ((code y mod 16) * 4)) EmptyString)).
Proof.
  destruct (sextet_bounds x y) as (H1 & _ & H2 & _).
  destruct (sextet_bounds y y) as (_ & _ & _ & H3 & _).
  unfold base64_enc. cbn [urlsafe_b64encode string_filter].
  rewrite (b64_char_not_pad _ H1), (b64_char_not_pad _ H2), (b64_char_not_pad _ H3).
  reflexivity.
Qed.

Lemma base64_enc_3 x y z r :
  base64_enc (String x (String y (String z r))) =
    String (b64_char (code x / 4))
      (String (b64_char ((code x mod 4) * 16 + code y / 16))
         (String (b64_char ((code y mod 16) * 4 + code z / 64))
            (String (b64_char (code z mod 64)) (base64_enc r)))).
Proof.
  destruct (sextet_bounds x y) as (H1 & _ & H2 & _).
  destruct (sextet_bounds y z) as (_ & _ & _ & _ & H3 & _).
  destruct (sextet_bounds z z) as (_ & _ & _ & _ & _ & H4).
  unfold base64_enc. cbn [urlsafe_b64encode string_filter].
  rewrite (b64_char_not_pad _ H1), (b64_char_not_pad _ H2), (b64_char_not_pad _ H3),
    (b64_char_not_pad _ H4).
  reflexivity.
Qed.

(** Decoding undoes [base64_enc]. *)
Lemma base64_dec_enc b : base64_dec (base64_enc b) = Some b.
Proof.
  induction b as [|x|x y|x y z r IH] using string_ind3.
  - reflexivity.
  - destruct (sextet_bounds x x) as (H1 & H2 & _).
    rewrite base64_enc_1. cbn [base64_dec]. unfold b64_value.
    rewrite (b64_index_char _ H1), (b64_index_char _ H2).
    apply N.ltb_lt in H1, H2. rewrite H1, H2.
    replace (code x / 4 * 4 + code x mod 4 * 16 / 16)%N with (code x) by div_lia.
    unfold code. now rewrite ascii_N_embedding.
  - destruct (sextet_bounds x y) as (H1 & _ & H2 & _).
    destruct (sextet_bounds y y) as (_ & _ & _ & H3 & _).
    rewrite base64_enc_2. cbn [base64_dec]. unfold b64_value.
    rewrite (b64_index_char _ H1), (b64_index_char _ H2), (b64_index_char _ H3).
    apply N.ltb_lt in H1, H2, H3. rewrite H1, H2, H3.
    pose proof (code_lt_256 x). pose proof (code_lt_256 y).
    replace (code x / 4 * 4 + (code x mod 4 * 16 + code y / 16) / 16)%N with (code x)
      by div_lia.
    replace ((code x mod 4 * 16 + code y / 16) mod 16 * 16 + code y mod 16 * 4 / 4)%N
      with (code y) by div_lia.
    unfold code. now rewrite !ascii_N_embedding.
  - destruct (sextet_bounds x y) as (H1 & _ & H2 & _).
    destruct (sextet_bounds y z) as (_ & _ & _ & _ & H3 & _).
    destruct (sextet_bounds z z) as (_ & _ & _ & _ & _ & H4).
    rewrite base64_enc_3. cbn [base64_dec]. unfold b64_value.
    rewrite (b64_index_char _ H1), (b64_index_char _ H2), (b64_index_char _ H3),
      (b64_index_char _ H4).
    apply N.ltb_lt in H1, H2, H3, H4. rewrite H1, H2, H3, H4, IH.
    pose proof (code_lt_256 x). pose proof (code_lt_256 y). pose proof (code_lt_256 z).
    replace (code x / 4 * 4 + (code x mod 4 * 16 + code y / 16) / 16)%N with (code x)
      by div_lia.
    replace ((code x mod 4 * 16 + code y / 16) mod 16 * 16 +
             (code y mod 16 * 4 + code z / 64) / 4)%N with (code y) by div_lia.
    replace ((code y mod 16 * 4 + code z / 64) mod 4 * 64 + code z mod 64)%N with (code z)
      by div_lia.
    unfold code. now rewrite !ascii_N_embedding.
Qed.

(** ** Dictionaries *)

Lemma assoc_dict_set_eq {A} k (v : A) kv : assoc k (dict_set k v kv) = Some v.
Proof.
  induction kv as [|[k' v'] r IH]; simpl.
  - now rewrite String.eqb_refl.
  - destruct (String.eqb k k') eqn:E; simpl; rewrite E; [reflexivity | exact IH].
Qed.

Lemma assoc_dict_set_ne {A} k k0 (v : A) kv :
  k0 <> k -> assoc k0 (dict_set k v kv) = assoc k0 kv.
Proof.
  intros Hne. induction kv as [|[k' v'] r IH]; simpl.
  - destruct (String.eqb k0 k) eqn:E; [apply String.eqb_eq in E; contradiction | reflexivity].
  - destruct (String.eqb k k') eqn:E; simpl.
    + apply String.eqb_eq in E. subst k'.
      destruct (String.eqb k0 k) eqn:E2; [apply String.eqb_eq in E2; contradiction | reflexivity].
    + now rewrite IH.
Qed.

Lemma dict_set_fresh {A} k (v : A) kv :
  assoc k kv = None -> dict_set k v kv = (kv ++ [(k, v)])%list.
Proof.
  induction kv as [|[k' v'] r IH]; simpl; [reflexivity|].
  destruct (String.eqb k k'); [discriminate|].
  intros H. now rewrite IH.
Qed.

(** ** The monad *)

Section AcmeFacts.

Context `{L : Lib}.
Variable net : nat -> Reply.

Lemma bind_Ret {A B} (m : M A) (k : A -> M B) w a w' :
  m w = (Ret a, w') -> bind m k w = k a w'.
Proof. unfold bind. now intros ->. Qed.

Lemma bind_Raise {A B} (m : M A) (k : A -> M B) w e w' :
  m w = (Raise e, w') -> bind m k w = (Raise e, w').
Proof. unfold bind. now intros ->. Qed.

Lemma bind_Diverge {A B} (m : M A) (k : A -> M B) w w' :
  m w = (Diverge, w') -> bind m k w = (Diverge, w').
Proof. unfold bind. now intros ->. Qed.

Lemma bind_Ret_inv {A B} (m : M A) (k : A -> M B) w b w' :
  bind m k w = (Ret b, w') -> exists a w1, m w = (Ret a, w1) /\ k a w1 = (Ret b, w').
Proof.
  unfold bind. destruct (m w) as [[a|e|] w1]; intros H; try discriminate.
  now exists a, w1.
Qed.

(** ** [send_signed] *)

Lemma send_signed_run key CA url header payload w status hdrs body :
  net (calls w) = Response status hdrs body ->
  header <> next w ->
  send_signed net key CA (JStr url) header payload w =
    (post_outcome (net (S (calls w))),
     after_send_signed key CA url header payload (header_get "Replay-Nonce" hdrs) w).
Proof.
  intros Hnonce Hne.
  unfold send_signed, deepcopy, deref, alloc, urlopen, setitem,
    try_IOError, urlopen_json, urlopen_data, urlopen_event, bind, ret, after_send_signed,
    post_outcome, envelope, signature_of, protected64_of, payload64_of, protected_of.
  cbn [fs store next calls trace fst snd]. rewrite Hnonce.
  cbn [fs store next calls trace fst snd].
  rewrite !lookup_insert_eq, insert_insert_eq. cbn [default from_option]. unfold id.
  rewrite (lookup_insert_ne _ (next w) header) by congruence.
  rewrite <- app_assoc. cbn [app].
  destruct (net (S (calls w))) as [s hs b|e]; cbn [fst snd]; [reflexivity|].
  destruct (is_IOError e); reflexivity.
Qed.

Lemma send_signed_outcome key CA url header payload w status hdrs body :
  net (calls w) = Response status hdrs body ->
  fst (send_signed net key CA (JStr url) header payload w) = post_outcome (net (S (calls w))).
Proof.
  intros Hnonce.
  unfold send_signed, deepcopy, deref, alloc, urlopen, setitem,
    try_IOError, urlopen_json, urlopen_data, urlopen_event, bind, ret, post_outcome.
  cbn [fs store next calls trace fst snd]. rewrite Hnonce.
  cbn [fs store next calls trace fst snd].
  destruct (net (S (calls w))) as [s hs b|e]; cbn [fst snd]; [reflexivity|].
  destruct (is_IOError e); reflexivity.
Qed.

Lemma send_signed_nonce_fails key CA url header payload w e :
  net (calls w) = Throws e ->
  fst (send_signed net key CA url header payload w) = Raise e.
Proof.
  intros Hnonce.
  unfold send_signed, deepcopy, deref, alloc, urlopen, urlopen_event, bind, ret.
  cbn [fs store next calls trace fst snd]. now rewrite Hnonce.
Qed.

(** C3 (amended). Once the nonce is fetched, [send_signed] hands every
    outcome of the POST that is a response or an [IOError] back as a pair:
    a response with a status, success or error, as [(status, body)], and a
    transport failure that carries no status as [(None, text of the
    error)]; it does not raise for it. *)
Theorem send_signed_returns_pair key CA url header payload w status hdrs body :
  net (calls w) = Response status hdrs body ->
  (forall s hs b, net (S (calls w)) = Response s hs b ->
     fst (send_signed net key CA (JStr url) header payload w) = Ret (Some s, b)) /\
  (forall s b, net (S (calls w)) = Throws (HTTPError s b) ->
     fst (send_signed net key CA (JStr url) header payload w) = Ret (Some s, b)) /\
  (forall t, net (S (calls w)) = Throws (URLError t) ->
     fst (send_signed net key CA (JStr url) header payload w) = Ret (None, t)).
Proof.
  intros Hnonce.
  repeat split; intros; rewrite (send_signed_outcome _ _ _ _ _ _ _ _ _ Hnonce), H; reflexivity.
Qed.

Lemma acme_header_dict_no_nonce key h :
  acme_header_dict key = Ret h -> assoc "nonce" h = None.
Proof.
  unfold acme_header_dict. destruct (key_text_groups key) as [[pub_mod pub_exp]|]; [|discriminate].
  destruct (unhexlify _); [|discriminate].
  destruct (unhexlify _); [|discriminate].
  now intros [= <-].
Qed.

(** C8. With the nonce fetched, the object [send_signed] encodes and
    signs is a copy of the header with the field [nonce] set to the nonce
    just fetched: it agrees with the header on every other key, and is the
    header with that one field appended when the header has no [nonce], as
    is every header [acme_header] builds.  The request posted carries the
    header itself, the base64url of that object and of the payload, and the
    base64url of the SHA-256 signature of [protected64 + "." + payload64];
    decoding [protected64] gives back the JSON text of that object, and
    decoding [payload64] that of the payload.  The header object in the
    store is not changed, so a second call with the same header posts a
    [protected64] that decodes to the JSON text of an object that differs
    from the first at most at [nonce]. *)
Theorem send_signed_protected key CA url header payload w status hdrs body h :
  net (calls w) = Response status hdrs body ->
  store w !! header = Some h ->
  (header < next w)%nat ->
  let nonce := header_get "Replay-Nonce" hdrs in
  let protected := protected_of h nonce in
  let protected64 := base64_enc (json_dumps (JObj protected)) in
  let payload64 := base64_enc (json_dumps payload) in
  let w' := snd (send_signed net key CA (JStr url) header payload w) in
  store w' !! next w = Some protected /\
  (forall k, k <> "nonce" -> assoc k protected = assoc k h) /\
  assoc "nonce" protected = Some nonce /\
  (assoc "nonce" h = None -> protected = (h ++ [("nonce", nonce)])%list) /\
  (forall key0, acme_header_dict key0 = Ret h -> protected = (h ++ [("nonce", nonce)])%list) /\
  trace w' =
    (trace w ++
     [EvGet (CA ++ "/directory");
      EvPost url
        (json_dumps
           (JObj [("header", JObj h);
                  ("protected", JStr protected64);
                  ("payload", JStr payload64);
                  ("signature",
                   JStr (base64_enc
                           (crypto_sign key (protected64 ++ "." ++ payload64) "sha256")))]))])%list /\
  base64_dec protected64 = Some (json_dumps (JObj protected)) /\
  base64_dec payload64 = Some (json_dumps payload) /\
  store w' !! header = Some h /\
  (header < next w')%nat /\
  (forall url2 payload2 status2 hdrs2 body2,
     net (calls w') = Response status2 hdrs2 body2 ->
     let w'' := snd (send_signed net key CA (JStr url2) header payload2 w') in
     exists protected2 protected64_2 signature2,
       store w'' !! next w' = Some protected2 /\
       (forall k, k <> "nonce" -> assoc k protected2 = assoc k protected) /\
       assoc "nonce" protected2 = Some (header_get "Replay-Nonce" hdrs2) /\
       base64_dec protected64_2 = Some (json_dumps (JObj protected2)) /\
       trace w'' =
         (trace w' ++
          [EvGet (CA ++ "/directory");
           EvPost url2
             (json_dumps
                (JObj [("header", JObj h);
                       ("protected", JStr protected64_2);
                       ("payload", JStr (base64_enc (json_dumps payload2)));
                       ("signature", JStr signature2)]))])%list).
Proof.
  intros Hnonce Hh Hlt nonce protected protected64 payload64 w'.
  assert (Hne : header <> next w) by lia.
  assert (Hw' : w' = after_send_signed key CA url header payload nonce w).
  { unfold w'. now rewrite (send_signed_run _ _ _ _ _ _ _ _ _ Hnonce Hne). }
  assert (Hstore : store w' !! header = Some h).
  { rewrite Hw'. unfold after_send_signed. cbn [store].
    rewrite lookup_insert_ne by congruence. exact Hh. }
  assert (Hnext : next w' = S (next w)) by now rewrite Hw'.
  split; [|split; [|split; [|split; [|split; [|split; [|split; [|split; [|split; [|split]]]]]]]]].
  - rewrite Hw'. unfold after_send_signed. cbn [store].
    rewrite lookup_insert_eq, Hh. reflexivity.
  - intros k Hk. apply assoc_dict_set_ne. exact Hk.
  - apply assoc_dict_set_eq.
  - apply dict_set_fresh.
  - intros key0 Hkey0. apply dict_set_fresh. eapply acme_header_dict_no_nonce; eauto.
  - rewrite Hw'. unfold after_send_signed, envelope, signature_of, protected64_of, payload64_of.
    cbn [trace]. rewrite Hh. reflexivity.
  - apply base64_dec_enc.
  - apply base64_dec_enc.
  - exact Hstore.
  - lia.
  - intros url2 payload2 status2 hdrs2 body2 Hnonce2 w''.
    assert (Hne2 : header <> next w') by lia.
    exists (protected_of h (header_get "Replay-Nonce" hdrs2)),
           (protected64_of h (header_get "Replay-Nonce" hdrs2)),
           (base64_enc (signature_of key h (header_get "Replay-Nonce" hdrs2) payload2)).
    assert (Hw'' : w'' = after_send_signed key CA url2 header payload2
                           (header_get "Replay-Nonce" hdrs2) w').
    { unfold w''. now rewrite (send_signed_run _ _ _ _ _ _ _ _ _ Hnonce2 Hne2). }
    split; [|split; [|split; [|split]]].
    + rewrite Hw''. unfold after_send_signed. cbn [store].
      rewrite lookup_insert_eq, Hstore. reflexivity.
    + intros k Hk. unfold protected, protected_of.
      now rewrite !assoc_dict_set_ne.
    + apply assoc_dict_set_eq.
    + apply base64_dec_enc.
    + rewrite Hw''. unfold after_send_signed, envelope, payload64_of. cbn [trace].
      rewrite Hstore. reflexivity.
Qed.

(** ** [register_account] *)

Lemma acme_header_run key h w :
  acme_header_dict key = Ret h ->
  acme_header key w =
    (Ret (next w),
     mkWorld (fs w) (<[next w := h]> (store w)) (S (next w)) (calls w) (trace w)).
Proof. intros Hh. unfold acme_header, bind, lift, alloc. now rewrite Hh. Qed.

(** The world in which [register_account] leaves [send_signed]. *)
Lemma register_account_send key CA w h status hdrs body :
  acme_header_dict key = Ret h ->
  net (calls w) = Response status hdrs body ->
  exists w1,
    calls w1 = S (S (calls w)) /\
    trace w1 =
      (trace w ++
       [EvGet (CA ++ "/directory");
        EvPost (CA ++ "/acme/new-reg")
          (json_dumps (envelope key h (header_get "Replay-Nonce" hdrs) new_reg_payload))])%list /\
    register_account net key CA w =
      bind (fun _ => (post_outcome (net (S (calls w))), w1))
        (fun r =>
           if code_is (fst r) 201 then print "Registered!" ;;; ret true
           else if code_is (fst r) 409 then print "Already registered!" ;;; ret false
           else raise (ValueError "Error registering: {0} {1}" [code_val (fst r); result_val (fst r) (snd r)]))
        w.
Proof.
  intros Hh Hnonce.
  set (w0 := mkWorld (fs w) (<[next w := h]> (store w)) (S (next w)) (calls w) (trace w)).
  assert (Hne : next w <> next w0) by (cbn; lia).
  exists (after_send_signed key CA (CA ++ "/acme/new-reg") (next w) new_reg_payload
            (header_get "Replay-Nonce" hdrs) w0).
  split; [reflexivity|]. split.
  - unfold after_send_signed. cbn [trace store w0]. rewrite lookup_insert_eq. reflexivity.
  - unfold register_account.
    rewrite (bind_Ret _ _ _ _ _ (acme_header_run key h w Hh)). fold w0.
    unfold bind at 1.
    rewrite (send_signed_run key CA _ (next w) new_reg_payload w0 status hdrs body Hnonce Hne).
    unfold bind at 3. cbn [calls w0].
    destruct (post_outcome (net (S (calls w)))) as [[code result]|e|]; reflexivity.
Qed.

(** C6. [register_account] returns [True] (registered) when the CA answers
    the new-reg request with 201 and [False] (already registered) when it
    answers 409; for every other status it raises the [ValueError] of
    registration with the status and the body, which is [bytes]; when the
    request fails with no status at all, the error carries [None] and the
    text of the exception, a [str].  Called twice with one key against a CA
    that answers 201 and then 409, it returns [True] and then [False]. *)
Theorem register_account_outcomes key CA w h status hdrs body :
  acme_header_dict key = Ret h ->
  net (calls w) = Response status hdrs body ->
  (forall b, post_outcome (net (S (calls w))) = Ret (Some 201, b) ->
     fst (register_account net key CA w) = Ret true) /\
  (forall b, post_outcome (net (S (calls w))) = Ret (Some 409, b) ->
     fst (register_account net key CA w) = Ret false) /\
  (forall s b, post_outcome (net (S (calls w))) = Ret (Some s, b) ->
     s <> 201%Z -> s <> 409%Z ->
     fst (register_account net key CA w) =
       Raise (ValueError "Error registering: {0} {1}" [VInt s; VBytes b])) /\
  (forall text, post_outcome (net (S (calls w))) = Ret (None, text) ->
     fst (register_account net key CA w) =
       Raise (ValueError "Error registering: {0} {1}" [VNone; VStr text])) /\
  (forall b1 status2 hdrs2 body2 b2,
     post_outcome (net (S (calls w))) = Ret (Some 201, b1) ->
     net (S (S (calls w))) = Response status2 hdrs2 body2 ->
     post_outcome (net (S (S (S (calls w))))) = Ret (Some 409, b2) ->
     exists w1 w2,
       register_account net key CA w = (Ret true, w1) /\
       register_account net key CA w1 = (Ret false, w2)).
Proof.
  intros Hh Hnonce.
  destruct (register_account_send key CA w h status hdrs body Hh Hnonce)
    as (w1 & Hcalls & _ & Hrun).
  split; [|split; [|split; [|split]]].
  - intros b Hpost. rewrite Hrun. unfold bind at 1. rewrite Hpost. reflexivity.
  - intros b Hpost. rewrite Hrun. unfold bind at 1. rewrite Hpost. reflexivity.
  - intros s b Hpost H201 H409. rewrite Hrun. unfold bind at 1. rewrite Hpost.
    cbn [fst snd code_is].
    apply Z.eqb_neq in H201, H409. rewrite H201, H409. reflexivity.
  - intros text Hpost. rewrite Hrun. unfold bind at 1. rewrite Hpost. reflexivity.
  - intros b1 status2 hdrs2 body2 b2 Hpost1 Hnonce2 Hpost2.
    exists (log (EvPrint "Registered!") w1).
    assert (Hnonce2' : net (calls (log (EvPrint "Registered!") w1)) = Response status2 hdrs2 body2).
    { cbn [calls log]. now rewrite Hcalls. }
    destruct (register_account_send key CA _ h status2 hdrs2 body2 Hh Hnonce2')
      as (w2 & _ & _ & Hrun2).
    exists (log (EvPrint "Already registered!") w2). split.
    + rewrite Hrun. unfold bind at 1. rewrite Hpost1. reflexivity.
    + rewrite Hrun2. unfold bind at 1. cbn [calls log]. rewrite Hcalls, Hpost2. reflexivity.
Qed.

(** C10. Whatever the key and the CA, the payload [register_account] signs
    and posts to new-reg holds the agreement URL of LE-SA v1.0.1 written in
    the code.  [register_account] takes no agreement; the value that the
    configuration resolves for [authority_agreement], the configured one or
    else the URL of LE-SA v1.2, is another one. *)
Theorem register_account_agreement key CA w h status hdrs body :
  acme_header_dict key = Ret h ->
  net (calls w) = Response status hdrs body ->
  (exists rest,
     trace (snd (register_account net key CA w)) =
       (trace w ++
        [EvGet (CA ++ "/directory");
         EvPost (CA ++ "/acme/new-reg")
           (json_dumps
              (envelope key h (header_get "Replay-Nonce" hdrs)
                 (JObj [("resource", JStr "new-reg");
                        ("agreement",
                         JStr "https://letsencrypt.org/documents/LE-SA-v1.0.1-July-27-2015.pdf")])))]
        ++ rest)%list) /\
  (forall config domains data globalconfig,
     contains "authority_agreement" (JStr domains) = Ret false ->
     contains "authority_agreement" data = Ret false ->
     resolve_authority_agreement config domains data globalconfig =
       Ret (dict_set "authority_agreement"
              (default (JStr "https://letsencrypt.org/documents/LE-SA-v1.2-November-15-2017.pdf")
                       (assoc "authority_agreement" globalconfig))
              config)) /\
  DEFAULT_AUTHORITY_AGREEMENT <> agreement_url.
Proof.
  intros Hh Hnonce.
  destruct (register_account_send key CA w h status hdrs body Hh Hnonce)
    as (w1 & _ & Htrace & Hrun).
  split; [|split].
  - rewrite Hrun. unfold bind at 1.
    destruct (post_outcome (net (S (calls w)))) as [[c b]|e|]; cbn [fst snd].
    + destruct (code_is c 201); [|destruct (code_is c 409)].
      * exists [EvPrint "Registered!"]. unfold bind, print, ret. cbn [snd trace log].
        rewrite Htrace, <- app_assoc. reflexivity.
      * exists [EvPrint "Already registered!"]. unfold bind, print, ret. cbn [snd trace log].
        rewrite Htrace, <- app_assoc. reflexivity.
      * exists []. unfold raise. cbn [snd]. rewrite Htrace. reflexivity.
    + exists []. cbn [snd]. rewrite Htrace. reflexivity.
    + exists []. cbn [snd]. rewrite Htrace. reflexivity.
  - intros config domains data globalconfig Hd Hdata.
    unfold resolve_authority_agreement, update_config_value, select_containing.
    rewrite Hd, Hdata. reflexivity.
  - discriminate.
Qed.

(** ** The polling loop *)

(** The world after one more [urlopen(url)]. *)
Lemma poll_report_inv r j st :
  poll_report r = Ret (j, st) ->
  exists status hdrs body,
    r = Response status hdrs body /\ loads_bytes body = Ret j /\ getitem j "status" = Ret st.
Proof.
  destruct r as [status hdrs body|e]; cbn; [|discriminate].
  destruct (loads_bytes body) as [j'|e|] eqn:Hl; try discriminate.
  destruct (getitem j' "status") as [st'|e|] eqn:Hg; try discriminate.
  intros [= <- <-]. now exists status, hdrs, body.
Qed.

Lemma poll_step fuel domain u path w j st :
  poll_report (net (calls w)) = Ret (j, st) ->
  poll net (S fuel) domain (JStr u) path w =
    (if json_is st "pending" then
       sleep 2 ;;; poll net fuel domain (JStr u) path
     else if json_is st "valid" then
       print (domain ++ " verified!") ;;; os_remove path
     else
       raise (ValueError "{0} challenge did not pass: {1}" [VStr domain; VJson j]))
      (mkWorld (fs w) (store w) (next w) (S (calls w)) (trace w ++ [EvGet u])).
Proof.
  intros Hr. destruct (poll_report_inv _ _ _ Hr) as (status & hdrs & body & Hn & Hl & Hg).
  cbn [poll]. unfold try_IOError, urlopen_json, urlopen, urlopen_event, lift.
  unfold bind at 1. unfold bind at 1. rewrite Hn. cbn [snd]. rewrite Hl.
  unfold bind at 1. rewrite Hg. reflexivity.
Qed.

Lemma pending_polls_snoc u n :
  (pending_polls u n ++ [EvGet u; EvSleep 2])%list = pending_polls u (S n).
Proof. induction n as [|n IH]; [reflexivity|]. cbn. now rewrite IH. Qed.

(** After [n] polls that report [pending], the loop is where it started,
    [n] polls and [n] sleeps of two seconds later. *)
Lemma poll_pending_prefix domain u path n :
  forall fuel w,
  (forall i, (i < n)%nat ->
     exists ji sti, poll_report (net (calls w + i)) = Ret (ji, sti) /\
                    json_is sti "pending" = true) ->
  poll net (n + fuel) domain (JStr u) path w =
  poll net fuel domain (JStr u) path
    (mkWorld (fs w) (store w) (next w) (calls w + n) (trace w ++ pending_polls u n)).
Proof.
  induction n as [|n IH]; intros fuel w Hpend.
  - cbn [pending_polls Nat.add]. rewrite Nat.add_0_r, app_nil_r. now destruct w.
  - destruct (Hpend 0%nat) as (j0 & st0 & Hr0 & Hp0); [lia|].
    rewrite Nat.add_0_r in Hr0.
    change (S n + fuel)%nat with (S (n + fuel)).
    rewrite (poll_step _ _ _ _ _ _ _ Hr0), Hp0.
    unfold bind, sleep, log. cbn [fs store next calls trace].
    rewrite IH.
    + cbn [fs store next calls trace]. rewrite <- !app_assoc. cbn [app pending_polls].
      replace (S (calls w) + n)%nat with (calls w + S n)%nat by lia. reflexivity.
    + intros i Hi. cbn [calls].
      destruct (Hpend (S i)) as (ji & sti & Hri & Hpi); [lia|].
      exists ji, sti. split; [|exact Hpi].
      replace (S (calls w) + i)%nat with (calls w + S i)%nat by lia. exact Hri.
Qed.

(** C2. The loop polls again after a sleep of two seconds for as long as
    the status is [pending], whatever the number of such answers; on the
    first answer [valid] it removes the proof file and returns; on the
    first answer that is neither it raises the [ValueError] that holds the
    whole status document, and the proof file stays.  Against a CA that
    answers [pending] for ever the loop does not end. *)
Theorem poll_spec domain u path w :
  (forall n fuel j st,
     (forall i, (i < n)%nat ->
        exists ji sti, poll_report (net (calls w + i)) = Ret (ji, sti) /\
                       json_is sti "pending" = true) ->
     poll_report (net (calls w + n)) = Ret (j, st) ->
     json_is st "pending" = false ->
     (n < fuel)%nat ->
     (json_is st "valid" = true -> is_Some (fs w !! path) ->
      poll net fuel domain (JStr u) path w =
        (Ret tt,
         mkWorld (delete path (fs w)) (store w) (next w) (calls w + n + 1)
           (trace w ++ pending_polls u n ++
            [EvGet u; EvPrint (domain ++ " verified!"); EvRemove path]))) /\
     (json_is st "valid" = false ->
      poll net fuel domain (JStr u) path w =
        (Raise (ValueError "{0} challenge did not pass: {1}" [VStr domain; VJson j]),
         mkWorld (fs w) (store w) (next w) (calls w + n + 1)
           (trace w ++ pending_polls u n ++ [EvGet u])))) /\
  ((forall i, exists ji sti, poll_report (net (calls w + i)) = Ret (ji, sti) /\
                             json_is sti "pending" = true) ->
   forall fuel, fst (poll net fuel domain (JStr u) path w) = Diverge).
Proof.
  split.
  - intros n fuel j st Hpend Hlast Hnp Hfuel.
    destruct fuel as [|fuel]; [lia|].
    replace (S fuel) with (n + S (fuel - n))%nat by lia.
    rewrite (poll_pending_prefix domain u path n _ w Hpend).
    rewrite (poll_step (fuel - n) domain u path _ j st) by exact Hlast.
    rewrite Hnp. cbn [fs store next calls trace].
    replace (S (calls w + n)) with (calls w + n + 1)%nat by lia.
    split.
    + intros Hv [content Hfile]. rewrite Hv.
      unfold bind, print, log, os_remove. cbn [fs store next calls trace].
      rewrite Hfile. rewrite <- !app_assoc. reflexivity.
    + intros Hv. rewrite Hv. unfold raise. rewrite <- !app_assoc. reflexivity.
  - intros Hpend fuel.
    replace fuel with (fuel + 0)%nat by lia.
    rewrite (poll_pending_prefix domain u path fuel 0 w).
    + reflexivity.
    + intros i _. apply Hpend.
Qed.

(** ** The token *)

(** C7. The sanitized token has only characters of [A-Za-z0-9_-]: it is
    the token with every character outside that class replaced by [_] and
    every character of the class kept where it is. *)
Theorem sanitize_token_spec token :
  string_forallb token_char_ok (sanitize_token token) = true /\
  String.length (sanitize_token token) = String.length token /\
  (forall i c, String.get i token = Some c ->
     String.get i (sanitize_token token) = Some (if token_char_ok c then c else "_"%char)) /\
  (forall c, token_char_ok c = true <->
     (65 <= code c <= 90 \/ 97 <= code c <= 122 \/ 48 <= code c <= 57 \/
      c = "_"%char \/ c = "-"%char)%N).
Proof.
  split; [|split; [|split]].
  - apply string_map_forallb, sanitize_char_ok.
  - apply string_map_length.
  - intros i c Hget. unfold sanitize_token. rewrite string_map_get, Hget. reflexivity.
  - intros c. unfold token_char_ok, is_upper, is_lower, is_digit, in_range.
    rewrite !orb_true_iff, !andb_true_iff, !N.leb_le, !Ascii.eqb_eq. tauto.
Qed.

(** ** Traces only grow *)

Lemma extends_ret {A} (a : A) : extends (ret a).
Proof. intros w. exists []. cbn. now rewrite app_nil_r. Qed.











(** ** The blocks of [verify_domain] *)

Lemma get_challenge_run key CA header domain w status hdrs body result :
  net (calls w) = Response status hdrs body ->
  header <> next w ->
  post_outcome (net (S (calls w))) = Ret (Some 201, result) ->
  get_challenge net key CA header domain w =
    (pick_challenge result,
     after_send_signed key CA (CA ++ "/acme/new-authz") header (new_authz_payload domain)
       (header_get "Replay-Nonce" hdrs) w).
Proof.
  intros Hnonce Hne Hpost. unfold get_challenge. unfold bind.
  rewrite (send_signed_run _ _ _ _ _ _ _ _ _ Hnonce Hne), Hpost. reflexivity.
Qed.

Lemma verify_domain_get_challenge fuel key acme_dir CA header thumb domain w
    status hdrs body result :
  net (calls w) = Response status hdrs body ->
  header <> next w ->
  post_outcome (net (S (calls w))) = Ret (Some 201, result) ->
  verify_domain net fuel key acme_dir CA header thumb domain w =
    bind (lift (pick_challenge result))
      (fun challenge =>
         token <- make_challenge_file acme_dir thumb challenge ;;
         self_check net (os_path_join acme_dir token) (wellknown_url_of domain token)
           (keyauthorization_of token thumb) ;;;
         notify_challenge net key CA header challenge (keyauthorization_of token thumb) ;;;
         wait_verified net fuel domain challenge (os_path_join acme_dir token))
      (after_get_challenge key CA header domain (header_get "Replay-Nonce" hdrs) w).
Proof.
  intros Hnonce Hne Hpost. unfold verify_domain.
  unfold bind at 1. unfold print at 1. unfold bind at 1.
  rewrite (get_challenge_run key CA header domain (log _ w) status hdrs body result Hnonce Hne Hpost).
  unfold after_get_challenge, bind at 4, lift.
  destruct (pick_challenge result); reflexivity.
Qed.

Lemma getitem_cases c k :
  (exists t, getitem c k = Ret t) \/ getitem c k = Raise (KeyError k) \/
  getitem c k = Raise TypeError.
Proof.
  destruct c; cbn; auto.
  destruct (assoc k kv); eauto.
Qed.

Lemma select_http01_none cs :
  (forall c t, In c cs -> getitem c "type" = Ret t -> json_is t "http-01" = false) ->
  select_http01 cs = Ret [] \/ select_http01 cs = Raise (KeyError "type") \/
  select_http01 cs = Raise TypeError.
Proof.
  induction cs as [|c cs IH]; intros Hno; [now left|].
  cbn [select_http01].
  destruct (getitem_cases c "type") as [[t Ht]|[Ht|Ht]]; rewrite Ht; auto.
  rewrite (Hno c t (or_introl eq_refl) Ht).
  destruct IH as [IH|[IH|IH]]; [intros; eapply Hno; [right|]; eauto | | |]; rewrite IH; auto.
Qed.

Lemma select_http01_none_typed cs :
  (forall c t, In c cs -> getitem c "type" = Ret t -> json_is t "http-01" = false) ->
  (forall c, In c cs -> exists t, getitem c "type" = Ret t) ->
  select_http01 cs = Ret [].
Proof.
  induction cs as [|c cs IH]; intros Hno Hty; [reflexivity|].
  cbn [select_http01].
  destruct (Hty c (or_introl eq_refl)) as [t Ht]. rewrite Ht.
  rewrite (Hno c t (or_introl eq_refl) Ht).
  rewrite IH; [reflexivity | |]; intros; [eapply Hno; [right|]; eauto | apply Hty; now right].
Qed.

(** C4. When the challenge list of the answer to new-authz has no entry
    whose type is [http-01], the validation of the domain fails there: the
    code raises at line 160, before any file is written and with no further
    request; the error is the [IndexError] of [[...][0]] when every entry
    has a type. *)
Theorem no_http01_challenge fuel key acme_dir CA header thumb domain w
    status hdrs body result j cs :
  header <> next w ->
  net (calls w) = Response status hdrs body ->
  post_outcome (net (S (calls w))) = Ret (Some 201, result) ->
  loads_bytes result = Ret j ->
  getitem j "challenges" = Ret (JArr cs) ->
  (forall c t, In c cs -> getitem c "type" = Ret t -> json_is t "http-01" = false) ->
  let w1 := after_get_challenge key CA header domain (header_get "Replay-Nonce" hdrs) w in
  (exists e,
     verify_domain net fuel key acme_dir CA header thumb domain w = (Raise e, w1) /\
     (e = IndexError \/ e = KeyError "type" \/ e = TypeError)) /\
  ((forall c, In c cs -> exists t, getitem c "type" = Ret t) ->
   verify_domain net fuel key acme_dir CA header thumb domain w = (Raise IndexError, w1)) /\
  fs w1 = fs w.
Proof.
  intros Hne Hnonce Hpost Hl Hg Hno w1.
  rewrite (verify_domain_get_challenge _ _ _ _ _ _ _ _ _ _ _ _ Hnonce Hne Hpost).
  fold w1. unfold bind at 1, lift, pick_challenge. rewrite Hl, Hg. cbn [iterate].
  split; [|split].
  - destruct (select_http01_none cs Hno) as [H|[H|H]]; rewrite H; eauto.
  - intros Hty. now rewrite (select_http01_none_typed cs Hno Hty).
  - reflexivity.
Qed.




(** No file can be opened for the empty token: its path is the challenge
    directory itself, or the empty path. *)
Lemma write_file_empty_token acme_dir content w :
  exists e,
    write_file (os_path_join acme_dir EmptyString) content w = (Raise e, w) /\
    (e = IsADirectoryError (os_path_join acme_dir EmptyString) \/
     acme_dir = EmptyString /\ e = FileNotFoundError EmptyString).
Proof.
  unfold write_file, os_path_join.
  destruct (string_last acme_dir) as [l|] eqn:El.
  - assert (Hl : string_last (acme_dir ++ EmptyString) = Some l /\
                 string_last (acme_dir ++ "/" ++ EmptyString) = Some "/"%char).
    { split.
      - clear -El. induction acme_dir as [|x a IH]; [discriminate|].
        change (String x a ++ EmptyString) with (String x (a ++ EmptyString)).
        cbn [string_last] in *. destruct a as [|y a']; [exact El|].
        change (String y a' ++ EmptyString) with (String y (a' ++ EmptyString)) in *.
        apply IH. exact El.
      - change ("/" ++ EmptyString) with (String "/" EmptyString).
        apply string_last_app. }
    destruct Hl as [H1 H2].
    destruct (Ascii.eqb_spec l "/"%char) as [->|Hl].
    + rewrite H1. cbn [Ascii.eqb]. eexists. split; [reflexivity | now left].
    + assert (Hm : forall X (x y : X),
                 match l with
                 | "/"%char => x
                 | _ => y
                 end = y).
      { intros X x y. destruct l as [[] [] [] [] [] [] [] []]; try reflexivity. congruence. }
      rewrite !Hm, H2. eexists. split; [reflexivity | now left].
  - eexists. split; [reflexivity|]. right. split; [|reflexivity].
    clear -El. induction acme_dir as [|x a IH]; [reflexivity|].
    cbn [string_last] in El. destruct a as [|y a']; [discriminate|].
    specialize (IH El). discriminate.
Qed.







Lemma sanitize_token_changes t :
  string_forallb token_char_ok t = false -> sanitize_token t <> t.
Proof.
  intros Hbad Heq.
  pose proof (string_map_forallb token_char_ok sanitize_char t sanitize_char_ok) as Hok.
  fold (sanitize_token t) in Hok. rewrite Heq in Hok. congruence.
Qed.


(** ** The loop over the domains *)

Lemma poll_Ret_inv fuel domain uri path :
  forall w w',
  poll net fuel domain uri path w = (Ret tt, w') ->
  exists t, trace w' = (t ++ [EvPrint (domain ++ " verified!"); EvRemove path])%list.
Proof.
  induction fuel as [|fuel IH]; intros w w' Hrun; [discriminate|].
  cbn [poll] in Hrun.
  apply bind_Ret_inv in Hrun as (cs & w1 & _ & Hrun).
  apply bind_Ret_inv in Hrun as (st & w2 & Hst & Hrun).
  destruct (json_is st "pending").
  - apply bind_Ret_inv in Hrun as ([] & w3 & _ & Hrun). now apply IH in Hrun.
  - destruct (json_is st "valid"); [|discriminate].
    apply bind_Ret_inv in Hrun as ([] & w3 & Hprint & Hrun).
    unfold print in Hprint. injection Hprint as <-.
    unfold os_remove in Hrun. destruct (fs _ !! path); [|discriminate].
    injection Hrun as <-. cbn [trace log]. exists (trace w2).
    now rewrite <- app_assoc.
Qed.

Lemma verify_domain_Ret_inv fuel key acme_dir CA header thumb d w w' :
  verify_domain net fuel key acme_dir CA header thumb d w = (Ret tt, w') ->
  exists t path, trace w' = (t ++ [EvPrint (d ++ " verified!"); EvRemove path])%list.
Proof.
  intros Hrun. unfold verify_domain in Hrun.
  apply bind_Ret_inv in Hrun as (? & ? & _ & Hrun).
  apply bind_Ret_inv in Hrun as (challenge & ? & _ & Hrun).
  apply bind_Ret_inv in Hrun as (token & ? & _ & Hrun).
  apply bind_Ret_inv in Hrun as (? & ? & _ & Hrun).
  apply bind_Ret_inv in Hrun as (? & ? & _ & Hrun).
  unfold wait_verified in Hrun.
  apply bind_Ret_inv in Hrun as (uri & ? & _ & Hrun).
  apply poll_Ret_inv in Hrun as [t Ht]. eauto.
Qed.

Lemma Validated_verify_domains fuel key acme_dir CA header thumb ds :
  forall w w',
  Validated net fuel key acme_dir CA header thumb ds w w' <->
  verify_domains net fuel key acme_dir CA header thumb ds w = (Ret tt, w').
Proof.
  induction ds as [|d ds IH]; intros w w'; cbn [verify_domains].
  - split.
    + inversion 1. reflexivity.
    + unfold ret. intros [= <-]. constructor.
  - split.
    + inversion 1 as [|? ? ? w1 ? Hd Hds]; subst.
      rewrite (bind_Ret _ _ _ _ _ Hd). now apply IH.
    + intros Hrun. apply bind_Ret_inv in Hrun as ([] & w1 & Hd & Hds).
      econstructor; [exact Hd | now apply IH].
Qed.

Lemma verify_domains_abort fuel key acme_dir CA header thumb ds1 d ds2 :
  forall w w1 w2 e,
  Validated net fuel key acme_dir CA header thumb ds1 w w1 ->
  verify_domain net fuel key acme_dir CA header thumb d w1 = (Raise e, w2) ->
  verify_domains net fuel key acme_dir CA header thumb (ds1 ++ d :: ds2) w = (Raise e, w2).
Proof.
  induction ds1 as [|d1 ds1 IH]; intros w w1 w2 e Hval Hd.
  - inversion Hval; subst. cbn [app verify_domains]. now rewrite (bind_Raise _ _ _ _ _ Hd).
  - inversion Hval as [|? ? ? w' ? Hd1 Hds1]; subst.
    cbn [app verify_domains]. rewrite (bind_Ret _ _ _ _ _ Hd1). eapply IH; eauto.
Qed.

Lemma send_signed_Ret_trace key CA url header payload w r w' :
  send_signed net key CA (JStr url) header payload w = (Ret r, w') ->
  exists data, trace w' = (trace w ++ [EvGet (CA ++ "/directory"); EvPost url data])%list.
Proof.
  unfold send_signed, deepcopy, deref, alloc, urlopen, setitem,
    try_IOError, urlopen_json, urlopen_data, urlopen_event, bind, ret.
  cbn [fs store next calls trace fst snd].
  destruct (net (calls w)) as [s0 hs0 b0|e0]; [|discriminate].
  cbn [fs store next calls trace fst snd].
  destruct (net (S (calls w))) as [s1 hs1 b1|e1].
  - intros [= _ <-]. cbn [trace]. rewrite <- app_assoc. eauto.
  - destruct (is_IOError e1); [|discriminate].
    intros [= _ <-]. cbn [trace]. rewrite <- app_assoc. eauto.
Qed.

Lemma sign_certificate_Ret_trace key csr CA header w cert w' :
  sign_certificate net key csr CA header w = (Ret cert, w') ->
  exists data,
    trace w' =
      (trace w ++ [EvPrint "Signing certificate..."; EvGet (CA ++ "/directory");
                   EvPost (CA ++ "/acme/new-cert") data; EvPrint "Certificate signed!"])%list.
Proof.
  intros Hrun. unfold sign_certificate in Hrun.
  apply bind_Ret_inv in Hrun as ([] & w1 & Hp & Hrun).
  unfold print in Hp. injection Hp as <-.
  apply bind_Ret_inv in Hrun as ([c r] & w2 & Hsend & Hrun).
  apply send_signed_Ret_trace in Hsend as [data Hdata].
  destruct (negb (code_is c 201)); [discriminate|].
  apply bind_Ret_inv in Hrun as ([] & w3 & Hp & Hrun).
  unfold print in Hp. injection Hp as <-.
  destruct (load_certificate r); [|discriminate].
  injection Hrun as _ <-. exists data. cbn [trace log].
  rewrite Hdata. cbn [trace log]. rewrite <- !app_assoc. reflexivity.
Qed.

(** C1. [get_crt_from_csr] validates the domains one after the other in
    the order of the list.  When the validation of a domain raises, after
    the domains before it were validated, the whole call raises that error
    in the world of that moment, whatever domains follow: nothing is
    requested for them and [sign_certificate] is not run.  A certificate is
    returned only from [sign_certificate] run after all the domains were
    validated in order: the request to new-cert comes after the trace of the
    validations, and each validation ends with the challenge seen valid and
    the proof file removed. *)
Theorem get_crt_from_csr_in_order fuel key csr acme_dir CA h jwk w :
  acme_header_dict key = Ret h ->
  getitem (JObj h) "jwk" = Ret jwk ->
  let header := next w in
  let thumb := thumbprint_of jwk in
  let w0 := mkWorld (fs w) (<[next w := h]> (store w)) (S (next w)) (calls w) (trace w) in
  (forall ds1 d ds2 w1 w2 e,
     Validated net fuel key acme_dir CA header thumb ds1 w0 w1 ->
     verify_domain net fuel key acme_dir CA header thumb d w1 = (Raise e, w2) ->
     get_crt_from_csr net fuel key csr (ds1 ++ d :: ds2) acme_dir CA w = (Raise e, w2)) /\
  (forall ds cert w',
     get_crt_from_csr net fuel key csr ds acme_dir CA w = (Ret cert, w') ->
     exists w1 data,
       Validated net fuel key acme_dir CA header thumb ds w0 w1 /\
       sign_certificate net key csr CA header w1 = (Ret cert, w') /\
       trace w' =
         (trace w1 ++ [EvPrint "Signing certificate..."; EvGet (CA ++ "/directory");
                       EvPost (CA ++ "/acme/new-cert") data;
                       EvPrint "Certificate signed!"])%list) /\
  (forall d w1 w2,
     verify_domain net fuel key acme_dir CA header thumb d w1 = (Ret tt, w2) ->
     exists t path, trace w2 = (t ++ [EvPrint (d ++ " verified!"); EvRemove path])%list).
Proof.
  intros Hh Hjwk header thumb w0.
  assert (Hsetup : forall ds,
    get_crt_from_csr net fuel key csr ds acme_dir CA w =
    bind (verify_domains net fuel key acme_dir CA header thumb ds)
         (fun _ => sign_certificate net key csr CA header) w0).
  { intros ds. unfold get_crt_from_csr.
    rewrite (bind_Ret _ _ _ _ _ (acme_header_run key h w Hh)). fold w0 header.
    unfold bind at 1, deref. cbn [store w0]. unfold header at 1.
    rewrite lookup_insert_eq. cbn [default from_option]. unfold id.
    unfold bind at 1, lift. rewrite Hjwk. reflexivity. }
  split; [|split].
  - intros ds1 d ds2 w1 w2 e Hval Hd. rewrite Hsetup.
    apply bind_Raise. eapply verify_domains_abort; eauto.
  - intros ds cert w' Hrun. rewrite Hsetup in Hrun.
    apply bind_Ret_inv in Hrun as ([] & w1 & Hds & Hsign).
    destruct (sign_certificate_Ret_trace _ _ _ _ _ _ _ Hsign) as [data Hdata].
    exists w1, data. split; [now apply Validated_verify_domains|]. split; assumption.
  - intros d w1 w2. apply verify_domain_Ret_inv.
Qed.

End AcmeFacts.

(** * The statements on a concrete run *)

(** The first domain is invalid at the first poll: the run ends there.
    Both domains are validated: the certificate is returned. *)
Lemma get_crt_from_csr_in_order_witness :
  acme_header_dict (L := Demo.lib) Demo.key = Ret Demo.header /\
  getitem (JObj Demo.header) "jwk" = Ret Demo.jwk /\
  fst (verify_domain (L := Demo.lib) Demo.net_invalid 5 Demo.key Demo.acme_dir Demo.CA 0
         Demo.thumbprint "example.com" Demo.world1) =
    Raise (ValueError "{0} challenge did not pass: {1}"
             [VStr "example.com"; VJson (Demo.status_of "invalid")]) /\
  get_crt_from_csr (L := Demo.lib) Demo.net_invalid 5 Demo.key "CSR"
      ["example.com"; "www.example.com"] Demo.acme_dir Demo.CA Demo.world0 =
    (Raise (ValueError "{0} challenge did not pass: {1}"
              [VStr "example.com"; VJson (Demo.status_of "invalid")]),
     snd (verify_domain (L := Demo.lib) Demo.net_invalid 5 Demo.key Demo.acme_dir Demo.CA 0
            Demo.thumbprint "example.com" Demo.world1)) /\
  fst (get_crt_from_csr (L := Demo.lib) Demo.net_issue 5 Demo.key "CSR"
         ["example.com"; "www.example.com"] Demo.acme_dir Demo.CA Demo.world0) = Ret "DER" /\
  exists w1 w',
    Validated (L := Demo.lib) Demo.net_issue 5 Demo.key Demo.acme_dir Demo.CA 0 Demo.thumbprint
      ["example.com"; "www.example.com"] Demo.world1 w1 /\
    sign_certificate (L := Demo.lib) Demo.net_issue Demo.key "CSR" Demo.CA 0 w1 = (Ret "DER", w').
Proof.
  pose proof (get_crt_from_csr_in_order (L := Demo.lib) Demo.net_invalid 5 Demo.key "CSR"
                Demo.acme_dir Demo.CA Demo.header Demo.jwk Demo.world0 eq_refl eq_refl)
    as (Habort & _ & _).
  pose proof (get_crt_from_csr_in_order (L := Demo.lib) Demo.net_issue 5 Demo.key "CSR"
                Demo.acme_dir Demo.CA Demo.header Demo.jwk Demo.world0 eq_refl eq_refl)
    as (_ & Hissue & _).
  split; [reflexivity|]. split; [reflexivity|]. split; [vm_compute; reflexivity|].
  split; [|split].
  - apply (Habort [] "example.com" ["www.example.com"] Demo.world1).
    + apply Validated_nil.
    + vm_compute. reflexivity.
  - vm_compute. reflexivity.
  - destruct (Hissue ["example.com"; "www.example.com"] "DER"
                (snd (get_crt_from_csr (L := Demo.lib) Demo.net_issue 5 Demo.key "CSR"
                        ["example.com"; "www.example.com"] Demo.acme_dir Demo.CA Demo.world0)))
      as (w1 & data & Hval & Hsign & _).
    + vm_compute. reflexivity.
    + exists w1. eexists. split; [exact Hval | exact Hsign].
Defined.

(** Pending twice, then valid: three polls, two sleeps. *)
Lemma poll_spec_witness :
  poll (L := Demo.lib) Demo.net_polls 3 "example.com" (JStr "https://ca.test/acme/challenge/2")
       Demo.proof_path Demo.world_published =
    (Ret tt,
     mkWorld ∅ ∅ 0 3
       [EvGet "https://ca.test/acme/challenge/2"; EvSleep 2;
        EvGet "https://ca.test/acme/challenge/2"; EvSleep 2;
        EvGet "https://ca.test/acme/challenge/2";
        EvPrint "example.com verified!"; EvRemove Demo.proof_path]).
Proof.
  refine (eq_trans
    (proj1 (proj1 (poll_spec (L := Demo.lib) Demo.net_polls "example.com"
                     "https://ca.test/acme/challenge/2" Demo.proof_path Demo.world_published)
             2%nat 3%nat (Demo.status_of "valid") (JStr "valid") _ eq_refl eq_refl _) eq_refl _) _).
  - intros i Hi. exists (Demo.status_of "pending"), (JStr "pending").
    destruct i as [|[|i]]; [split; reflexivity | split; reflexivity | lia].
  - lia.
  - exists Demo.keyauthorization. reflexivity.
  - vm_compute. reflexivity.
Defined.

(** The CA answers the POST with the error 409. *)
Lemma send_signed_returns_pair_witness :
  Demo.net_conflict (calls Demo.world1) = Response 200 [("Replay-Nonce", "nonce-1")] EmptyString /\
  fst (send_signed (L := Demo.lib) Demo.net_conflict Demo.key Demo.CA
         (JStr "https://ca.test/acme/new-reg") 0 new_reg_payload Demo.world1) =
    Ret (Some 409, "conflict").
Proof.
  split; [reflexivity|].
  exact (proj1 (proj2 (send_signed_returns_pair (L := Demo.lib) Demo.net_conflict Demo.key
                         Demo.CA "https://ca.test/acme/new-reg" 0 new_reg_payload Demo.world1
                         200 [("Replay-Nonce", "nonce-1")] EmptyString eq_refl))
               409 "conflict" eq_refl).
Defined.

(** C3, as stated, fails: the POST finds no server, an error that carries
    no status, and [send_signed] raises nothing; it returns the pair of
    [None] and the text of the error. *)
Lemma send_signed_returns_transport_failure :
  Demo.net_refused 1%nat = Throws (URLError "<urlopen error [Errno 111] Connection refused>") /\
  fst (send_signed (L := Demo.lib) Demo.net_refused Demo.key Demo.CA
         (JStr "https://ca.test/acme/new-reg") 0 new_reg_payload Demo.world1) =
    Ret (None, "<urlopen error [Errno 111] Connection refused>") /\
  forall e,
    fst (send_signed (L := Demo.lib) Demo.net_refused Demo.key Demo.CA
           (JStr "https://ca.test/acme/new-reg") 0 new_reg_payload Demo.world1) <> Raise e.
Proof.
  split; [reflexivity|]. split; [vm_compute; reflexivity|].
  intros e. vm_compute. discriminate.
Qed.

(** The CA offers a dns-01 challenge only. *)
Lemma no_http01_challenge_witness :
  loads_bytes (L := Demo.lib) (json_dumps Demo.only_dns) = Ret Demo.only_dns /\
  verify_domain (L := Demo.lib) Demo.net_only_dns 5 Demo.key Demo.acme_dir Demo.CA 0
      Demo.thumbprint "example.com" Demo.world1 =
    (Raise IndexError,
     after_get_challenge (L := Demo.lib) Demo.key Demo.CA 0 "example.com" (JStr "nonce-1")
       Demo.world1).
Proof.
  split; [reflexivity|].
  refine (proj1 (proj2 (no_http01_challenge (L := Demo.lib) Demo.net_only_dns 5 Demo.key
                          Demo.acme_dir Demo.CA 0 Demo.thumbprint "example.com" Demo.world1
                          200 [("Replay-Nonce", "nonce-1")] EmptyString
                          (json_dumps Demo.only_dns) Demo.only_dns
                          [JObj [("type", JStr "dns-01"); ("token", JStr "unused");
                                 ("uri", JStr "https://ca.test/acme/challenge/1")]]
                          _ eq_refl eq_refl eq_refl eq_refl _)) _).
  - cbn. lia.
  - intros c t [<-|[]] [= <-]. reflexivity.
  - intros c [<-|[]]. now exists (JStr "dns-01").
Defined.



(** Two registrations of one key. *)
Lemma register_account_outcomes_witness :
  acme_header_dict (L := Demo.lib) Demo.key = Ret Demo.header /\
  fst (register_account (L := Demo.lib) Demo.net_refused Demo.key Demo.CA Demo.world0) =
    Raise (ValueError "Error registering: {0} {1}"
             [VNone; VStr "<urlopen error [Errno 111] Connection refused>"]) /\
  fst (register_account (L := Demo.lib) Demo.net_conflict Demo.key Demo.CA Demo.world0) =
    Ret false /\
  exists w1 w2,
    register_account (L := Demo.lib) Demo.net_register Demo.key Demo.CA Demo.world0 =
      (Ret true, w1) /\
    register_account (L := Demo.lib) Demo.net_register Demo.key Demo.CA w1 = (Ret false, w2).
Proof.
  split; [reflexivity|]. split.
  { exact (proj1 (proj2 (proj2 (proj2
             (register_account_outcomes (L := Demo.lib) Demo.net_refused Demo.key Demo.CA
                Demo.world0 Demo.header 200 [("Replay-Nonce", "nonce-1")] EmptyString
                eq_refl eq_refl))))
             "<urlopen error [Errno 111] Connection refused>" eq_refl). }
  split.
  { exact (proj1 (proj2
             (register_account_outcomes (L := Demo.lib) Demo.net_conflict Demo.key Demo.CA
                Demo.world0 Demo.header 200 [("Replay-Nonce", "nonce-1")] EmptyString
                eq_refl eq_refl))
             "conflict" eq_refl). }
  exact (proj2 (proj2 (proj2 (proj2
           (register_account_outcomes (L := Demo.lib) Demo.net_register Demo.key Demo.CA
              Demo.world0 Demo.header 200 [("Replay-Nonce", "nonce-1")] EmptyString
              eq_refl eq_refl))))
           "{}" 200 [("Replay-Nonce", "nonce-2")] EmptyString "{}" eq_refl eq_refl eq_refl).
Defined.

(** A token with a slash, a dot and a space. *)
Lemma sanitize_token_spec_witness :
  sanitize_token "a/b.c d-e_F9" = "a_b_c_d-e_F9" /\
  string_forallb token_char_ok (sanitize_token "a/b.c d-e_F9") = true /\
  String.get 1 (sanitize_token "a/b.c d-e_F9") = Some "_"%char /\
  String.get 2 (sanitize_token "a/b.c d-e_F9") = Some "b"%char.
Proof.
  split; [reflexivity|]. split; [exact (proj1 (sanitize_token_spec "a/b.c d-e_F9"))|].
  split.
  - exact (proj1 (proj2 (proj2 (sanitize_token_spec "a/b.c d-e_F9"))) 1%nat "/"%char eq_refl).
  - exact (proj1 (proj2 (proj2 (sanitize_token_spec "a/b.c d-e_F9"))) 2%nat "b"%char eq_refl).
Defined.

(** The header of the example key and the object signed in its place. *)
Lemma send_signed_protected_witness :
  let w' := snd (send_signed (L := Demo.lib) Demo.net_two_calls Demo.key Demo.CA
                   (JStr "https://ca.test/acme/new-reg") 0 new_reg_payload Demo.world1) in
  store Demo.world1 !! 0%nat = Some Demo.header /\
  store w' !! 1%nat = Some (Demo.header ++ [("nonce", JStr "nonce-1")])%list /\
  store w' !! 0%nat = Some Demo.header /\
  base64_dec (base64_enc (json_dumps (JObj (protected_of Demo.header (JStr "nonce-1"))))) =
    Some (json_dumps (JObj (protected_of Demo.header (JStr "nonce-1")))).
Proof.
  intros w'. split; [reflexivity|].
  pose proof (send_signed_protected (L := Demo.lib) Demo.net_two_calls Demo.key Demo.CA
                "https://ca.test/acme/new-reg" 0 new_reg_payload Demo.world1
                200 [("Replay-Nonce", "nonce-1")] EmptyString Demo.header
                eq_refl eq_refl (Nat.lt_0_succ 0))
    as (H1 & _ & _ & _ & _ & _ & Hdec & _ & H6 & _).
  split; [exact H1|]. split; [exact H6 | exact Hdec].
Defined.


(** The request of the first registration. *)
Lemma register_account_agreement_witness :
  acme_header_dict (L := Demo.lib) Demo.key = Ret Demo.header /\
  exists rest,
    trace (snd (register_account (L := Demo.lib) Demo.net_register Demo.key Demo.CA Demo.world0)) =
      ([EvGet "https://ca.test/directory";
        EvPost "https://ca.test/acme/new-reg"
          (json_dumps
             (envelope (L := Demo.lib) Demo.key Demo.header (JStr "nonce-1")
                (JObj [("resource", JStr "new-reg");
                       ("agreement",
                        JStr "https://letsencrypt.org/documents/LE-SA-v1.0.1-July-27-2015.pdf")])))]
       ++ rest)%list.
Proof.
  split; [reflexivity|].
  exact (proj1 (register_account_agreement (L := Demo.lib) Demo.net_register Demo.key Demo.CA
                  Demo.world0 Demo.header 200 [("Replay-Nonce", "nonce-1")] EmptyString
                  eq_refl eq_refl)).
Defined.

(** ** Further runs *)

(** The scenario of two polls that report pending and a third that reports
    valid: three requests to the URI of the challenge after the trigger, two
    sleeps of two seconds between them. *)
Example verify_domain_three_polls :
  let run := verify_domain (L := Demo.lib) Demo.net_valid 5 Demo.key Demo.acme_dir Demo.CA 0
               Demo.thumbprint "example.com" Demo.world1 in
  fst run = Ret tt /\
  fs (snd run) = ∅ /\
  skipn 7 (trace (snd run)) =
    [EvGet "https://ca.test/acme/challenge/2"; EvSleep 2;
     EvGet "https://ca.test/acme/challenge/2"; EvSleep 2;
     EvGet "https://ca.test/acme/challenge/2";
     EvPrint "example.com verified!"; EvRemove Demo.proof_path].
Proof. vm_compute. repeat split; reflexivity. Qed.

(** A body that is not UTF-8 makes [decode] raise inside the self check;
    [UnicodeDecodeError] is none of the exceptions the check catches, so it
    leaves [verify_domain] and the proof file stays. *)
Example self_check_undecodable_body :
  let net := Demo.script [Demo.nonce_reply "nonce-1";
                          Response 201 [] (json_dumps (Demo.challenge_of "tok-1"));
                          Response 200 [] (String (ascii_of_nat 255) EmptyString)] in
  let run := verify_domain (L := Demo.lib) net 5 Demo.key Demo.acme_dir Demo.CA 0
               Demo.thumbprint "example.com" Demo.world1 in
  fst run = Raise UnicodeDecodeError /\
  fs (snd run) !! Demo.proof_path = Some Demo.keyauthorization.
Proof. vm_compute. split; reflexivity. Qed.

(** * More of the code *)

(** ** [base64_enc] *)

Lemma base64_enc_ok b : string_forallb token_char_ok (base64_enc b) = true.
Proof.
  induction b as [|x|x y|x y z r IH] using string_ind3.
  - reflexivity.
  - destruct (sextet_bounds x x) as (H1 & H2 & _).
    rewrite base64_enc_1. cbn [string_forallb].
    now rewrite (b64_char_ok _ H1), (b64_char_ok _ H2).
  - destruct (sextet_bounds x y) as (H1 & _ & H2 & _).
    destruct (sextet_bounds y y) as (_ & _ & _ & H3 & _).
    rewrite base64_enc_2. cbn [string_forallb].
    now rewrite (b64_char_ok _ H1), (b64_char_ok _ H2), (b64_char_ok _ H3).
  - destruct (sextet_bounds x y) as (H1 & _ & H2 & _).
    destruct (sextet_bounds y z) as (_ & _ & _ & _ & H3 & _).
    destruct (sextet_bounds z z) as (_ & _ & _ & _ & _ & H4).
    rewrite base64_enc_3. cbn [string_forallb].
    now rewrite (b64_char_ok _ H1), (b64_char_ok _ H2), (b64_char_ok _ H3),
      (b64_char_ok _ H4), IH.
Qed.

Lemma sanitize_token_safe s :
  string_forallb token_char_ok s = true -> sanitize_token s = s.
Proof.
  unfold sanitize_token. induction s as [|c s IH]; [reflexivity|].
  cbn [string_forallb string_map]. intros H. apply andb_true_iff in H as [Hc Hs].
  rewrite (IH Hs). unfold sanitize_char. now rewrite Hc.
Qed.

(** X1. What [base64_enc] returns has no padding and only characters of
    [A-Za-z0-9_-]: the token sanitizer leaves it as it is. *)
Theorem base64_enc_alphabet b :
  string_forallb token_char_ok (base64_enc b) = true /\
  string_forallb (fun c => negb (Ascii.eqb c "="%char)) (base64_enc b) = true /\
  sanitize_token (base64_enc b) = base64_enc b.
Proof.
  pose proof (base64_enc_ok b) as Hok.
  split; [exact Hok|]. split; [|now apply sanitize_token_safe].
  revert Hok. generalize (base64_enc b) as s.
  induction s as [|c s IH]; [reflexivity|]. cbn [string_forallb].
  intros H. apply andb_true_iff in H as [Hc Hs]. rewrite (IH Hs), andb_true_r.
  destruct (Ascii.eqb_spec c "="%char) as [->|]; [discriminate | reflexivity].
Qed.

(** X2. [base64_enc] of [n] bytes has [ceil(4n/3)] characters. *)
Theorem base64_enc_length b :
  String.length (base64_enc b) = ((4 * String.length b + 2) / 3)%nat.
Proof.
  induction b as [|x|x y|x y z r IH] using string_ind3.
  - reflexivity.
  - now rewrite base64_enc_1.
  - now rewrite base64_enc_2.
  - rewrite base64_enc_3. cbn [String.length]. rewrite IH.
    replace (4 * S (S (S (String.length r))) + 2)%nat
      with ((4 * String.length r + 2) + 4 * 3)%nat by lia.
    rewrite Nat.div_add by lia. lia.
Qed.

Lemma sextets_inj x y z x' y' z' :
  (code x / 4 = code x' / 4 ->
   (code x mod 4) * 16 + code y / 16 = (code x' mod 4) * 16 + code y' / 16 ->
   (code y mod 16) * 4 + code z / 64 = (code y' mod 16) * 4 + code z' / 64 ->
   code z mod 64 = code z' mod 64 ->
   code x = code x' /\ code y = code y' /\ code z = code z')%N.
Proof.
  pose proof (N.div_mod' (code x) 4). pose proof (N.mod_upper_bound (code x) 4).
  pose proof (N.div_mod' (code x') 4). pose proof (N.mod_upper_bound (code x') 4).
  pose proof (N.div_mod' (code y) 16). pose proof (N.mod_upper_bound (code y) 16).
  pose proof (N.div_mod' (code y') 16). pose proof (N.mod_upper_bound (code y') 16).
  pose proof (N.div_mod' (code z) 64). pose proof (N.mod_upper_bound (code z) 64).
  pose proof (N.div_mod' (code z') 64). pose proof (N.mod_upper_bound (code z') 64).
  pose proof (code_lt_256 y). pose proof (code_lt_256 y').
  pose proof (code_lt_256 z). pose proof (code_lt_256 z').
  generalize dependent (code x / 4)%N. generalize dependent (code x mod 4)%N.
  generalize dependent (code x' / 4)%N. generalize dependent (code x' mod 4)%N.
  generalize dependent (code y / 16)%N. generalize dependent (code y mod 16)%N.
  generalize dependent (code y' / 16)%N. generalize dependent (code y' mod 16)%N.
  generalize dependent (code z / 64)%N. generalize dependent (code z mod 64)%N.
  generalize dependent (code z' / 64)%N. generalize dependent (code z' mod 64)%N.
  intros. lia.
Qed.

(** X3. [base64_enc] is injective: two byte strings with the same encoding
    are the same. *)
Theorem base64_enc_inj a : forall b, base64_enc a = base64_enc b -> a = b.
Proof.
  induction a as [|x|x y|x y z r IH] using string_ind3; intros b Heq.
  - destruct b as [|x' [|y' [|z' r']]];
      rewrite ?base64_enc_1, ?base64_enc_2, ?base64_enc_3 in Heq; [reflexivity | discriminate..].
  - rewrite base64_enc_1 in Heq.
    destruct b as [|x' [|y' [|z' r']]];
      rewrite ?base64_enc_1, ?base64_enc_2, ?base64_enc_3 in Heq; try discriminate.
    injection Heq as H1 H2.
    destruct (sextet_bounds x x) as (B1 & B2 & _).
    destruct (sextet_bounds x' x') as (B1' & B2' & _).
    apply b64_char_inj in H1; [|assumption..]. apply b64_char_inj in H2; [|assumption..].
    f_equal. apply code_inj. div_lia.
  - rewrite base64_enc_2 in Heq.
    destruct b as [|x' [|y' [|z' r']]];
      rewrite ?base64_enc_1, ?base64_enc_2, ?base64_enc_3 in Heq; try discriminate.
    injection Heq as H1 H2 H3.
    destruct (sextet_bounds x y) as (B1 & _ & B2 & _).
    destruct (sextet_bounds y y) as (_ & _ & _ & B3 & _).
    destruct (sextet_bounds x' y') as (B1' & _ & B2' & _).
    destruct (sextet_bounds y' y') as (_ & _ & _ & B3' & _).
    apply b64_char_inj in H1; [|assumption..]. apply b64_char_inj in H2; [|assumption..].
    apply b64_char_inj in H3; [|assumption..].
    pose proof (code_lt_256 x). pose proof (code_lt_256 y).
    pose proof (code_lt_256 x'). pose proof (code_lt_256 y').
    assert (code x = code x') by div_lia. assert (code y = code y') by div_lia.
    f_equal; [now apply code_inj|]. f_equal. now apply code_inj.
  - rewrite base64_enc_3 in Heq.
    destruct b as [|x' [|y' [|z' r']]];
      rewrite ?base64_enc_1, ?base64_enc_2, ?base64_enc_3 in Heq; try discriminate.
    injection Heq as H1 H2 H3 H4 Hr.
    destruct (sextet_bounds x y) as (B1 & _ & B2 & _).
    destruct (sextet_bounds y z) as (_ & _ & _ & _ & B3 & _).
    destruct (sextet_bounds z z) as (_ & _ & _ & _ & _ & B4).
    destruct (sextet_bounds x' y') as (B1' & _ & B2' & _).
    destruct (sextet_bounds y' z') as (_ & _ & _ & _ & B3' & _).
    destruct (sextet_bounds z' z') as (_ & _ & _ & _ & _ & B4').
    apply b64_char_inj in H1; [|assumption..]. apply b64_char_inj in H2; [|assumption..].
    apply b64_char_inj in H3; [|assumption..]. apply b64_char_inj in H4; [|assumption..].
    destruct (sextets_inj x y z x' y' z' H1 H2 H3 H4) as (Hx & Hy & Hz).
    apply code_inj in Hx, Hy, Hz. subst. f_equal. f_equal. f_equal. now apply IH.
Qed.

(** ** [acme_header] *)

Lemma unhexlify_None s :
  unhexlify s = None <-> string_even_length s = false \/ string_forallb is_hex s = false.
Proof.
  unfold string_even_length.
  enough (H : (unhexlify s = None <->
                 Nat.even (String.length s) = false \/ string_forallb is_hex s = false) /\
              (forall c, unhexlify (String c s) = None <->
                 Nat.even (String.length (String c s)) = false \/
                 string_forallb is_hex (String c s) = false)) by apply H.
  induction s as [|d s [IH0 IH1]].
  - split; [split; [discriminate | now intros [|]]|].
    intros c. cbn. split; auto.
  - split; [apply IH1|].
    intros c. cbn [unhexlify String.length string_forallb]. unfold is_hex at 1 2.
    change (Nat.even (S (S (String.length s)))) with (Nat.even (String.length s)).
    destruct (hex_value c) as [a|]; cbn [andb].
    + destruct (hex_value d) as [b|]; cbn [andb].
      * destruct (unhexlify s) as [t|] eqn:Hs.
        -- split; [discriminate|]. intros H. exfalso.
           destruct IH0 as [_ IH0]. specialize (IH0 H). discriminate.
        -- split; [|reflexivity]. intros _. now apply IH0.
      * split; auto.
    + split; auto.
Qed.

Lemma unhexlify_length s b :
  unhexlify s = Some b -> String.length s = (2 * String.length b)%nat.
Proof.
  revert b.
  enough (H : (forall b, unhexlify s = Some b -> String.length s = (2 * String.length b)%nat) /\
              (forall c b, unhexlify (String c s) = Some b ->
                 String.length (String c s) = (2 * String.length b)%nat)) by apply H.
  induction s as [|d s [IH0 IH1]].
  - split; [now intros b [= <-] | discriminate].
  - split; [apply IH1|].
    intros c b. cbn [unhexlify].
    destruct (hex_value c); [|discriminate]. destruct (hex_value d); [|discriminate].
    destruct (unhexlify s) as [t|]; [|discriminate].
    intros [= <-]. cbn [String.length]. rewrite (IH0 t eq_refl). lia.
Qed.

Lemma string_even_length_pad e :
  string_even_length (if string_even_length e then e else "0" ++ e) = true.
Proof.
  destruct (string_even_length e) eqn:E; [exact E|].
  unfold string_even_length in *. change ("0" ++ e) with (String "0" e).
  cbn [String.length]. rewrite Nat.even_succ, <- Nat.negb_even, E. reflexivity.
Qed.

Lemma json_escape_char_safe c :
  token_char_ok c = true -> json_escape_char c = String c EmptyString.
Proof.
  destruct c as [[] [] [] [] [] [] [] []]; intros H; try discriminate H; reflexivity.
Qed.

Lemma json_escape_safe s :
  string_forallb token_char_ok s = true -> json_escape s = s.
Proof.
  induction s as [|c s IH]; [reflexivity|]. cbn [string_forallb json_escape].
  intros H. apply andb_true_iff in H as [Hc Hs].
  now rewrite (json_escape_char_safe c Hc), (IH Hs).
Qed.

Lemma list_ascii_app a b :
  list_ascii_of_string (a ++ b) = (list_ascii_of_string a ++ list_ascii_of_string b)%list.
Proof.
  induction a as [|c a IH]; [reflexivity|].
  change (String c a ++ b) with (String c (a ++ b)).
  cbn [list_ascii_of_string app]. now rewrite IH.
Qed.

Lemma string_eq_by_list a b : list_ascii_of_string a = list_ascii_of_string b -> a = b.
Proof.
  intros H. rewrite <- (string_of_list_ascii_of_string a), <- (string_of_list_ascii_of_string b).
  now rewrite H.
Qed.

Lemma jwk_dumps e n :
  json_dumps_with "," ":" true (JObj [("e", JStr e); ("kty", JStr "RSA"); ("n", JStr n)]) =
    "{" ++ ((json_quote "e" ++ ":" ++ json_quote e) ++ "," ++
            (json_quote "kty" ++ ":" ++ json_quote "RSA") ++ "," ++
            (json_quote "n" ++ ":" ++ json_quote n)) ++ "}".
Proof. reflexivity. Qed.

Section AcmeMore.

Context `{L : Lib}.
Variable net : nat -> Reply.

(** X4. [acme_header] pads an exponent with an odd number of digits, so it
    builds its header exactly when the key text matches, both groups are
    hexadecimal once the colons and white space are taken out of the
    modulus, and the modulus has an even number of digits; it raises
    [AttributeError] when the text does not match and [binascii.Error]
    otherwise. *)
Theorem acme_header_dict_succeeds key :
  let modulus m := string_filter (fun c => negb (Ascii.eqb c ":" || is_space c)) m in
  ((exists h, acme_header_dict key = Ret h) <->
   exists m e,
     key_text_groups key = Some (m, e) /\
     string_forallb is_hex e = true /\
     string_forallb is_hex (modulus m) = true /\
     string_even_length (modulus m) = true) /\
  (key_text_groups key = None -> acme_header_dict key = Raise (AttributeError "groups")) /\
  (forall m e, key_text_groups key = Some (m, e) ->
     (exists h, acme_header_dict key = Ret h) \/ acme_header_dict key = Raise BinasciiError).
Proof.
  intros modulus. unfold acme_header_dict.
  destruct (key_text_groups key) as [[m e]|].
  - fold (modulus m).
    pose proof (unhexlify_None (if string_even_length e then e else "0" ++ e)) as He.
    rewrite string_even_length_pad in He.
    pose proof (unhexlify_None (modulus m)) as Hm.
    assert (Hpad : string_forallb is_hex (if string_even_length e then e else "0" ++ e) =
                   string_forallb is_hex e).
    { destruct (string_even_length e); reflexivity. }
    rewrite Hpad in He.
    destruct (unhexlify (if string_even_length e then e else "0" ++ e)) as [eb|].
    + destruct (unhexlify (modulus m)) as [mb|].
      * split; [|split; [discriminate | eauto]].
        split; [|eauto]. intros _. exists m, e. split; [reflexivity|].
        destruct (string_forallb is_hex e); [|exfalso; destruct He as [_ He];
          discriminate He; auto].
        destruct (string_forallb is_hex (modulus m)); [|exfalso; destruct Hm as [_ Hm];
          discriminate Hm; auto].
        destruct (string_even_length (modulus m)); [auto|exfalso; destruct Hm as [_ Hm];
          discriminate Hm; auto].
      * split; [|split; [discriminate | auto]].
        split; [intros [h Hh]; discriminate|].
        intros (m' & e' & [= <- <-] & _ & Hx & Hl).
        destruct Hm as [Hm _]. destruct (Hm eq_refl); congruence.
    + split; [|split; [discriminate | auto]].
      split; [intros [h Hh]; discriminate|].
      intros (m' & e' & [= <- <-] & Hx & _).
      destruct He as [He _]. destruct (He eq_refl); congruence.
  - split; [|split; [reflexivity | discriminate]].
    split; [intros [h Hh]; discriminate | intros (m & e & Hk & _); discriminate].
Qed.

Lemma acme_header_thumbprint_shape key h :
  acme_header_dict key = Ret h ->
  exists e n,
    h = [("alg", JStr "RS256");
         ("jwk", JObj [("e", JStr e); ("kty", JStr "RSA"); ("n", JStr n)])].
Proof.
  unfold acme_header_dict.
  destruct (key_text_groups key) as [[m e0]|]; [|discriminate].
  destruct (unhexlify _) as [eb|]; [|discriminate].
  destruct (unhexlify _) as [mb|]; [|discriminate].
  intros [= <-]. eauto.
Qed.

(** X5. The header [acme_header] builds is [{alg: RS256, jwk: {e, kty:
    RSA, n}}] with [e] and [n] in the base64url alphabet, and the account
    thumbprint of [get_crt_from_csr] is the base64url of the SHA-256 of
    the text [{"e":"<e>","kty":"RSA","n":"<n>"}], with no space and the
    keys in this order. *)
Theorem acme_header_thumbprint key h :
  acme_header_dict key = Ret h ->
  exists e n,
    h = [("alg", JStr "RS256");
         ("jwk", JObj [("e", JStr e); ("kty", JStr "RSA"); ("n", JStr n)])] /\
    string_forallb token_char_ok e = true /\
    string_forallb token_char_ok n = true /\
    thumbprint_of (JObj [("e", JStr e); ("kty", JStr "RSA"); ("n", JStr n)]) =
      base64_enc
        (sha256_digest
           ("{" ++ quoted "e" ++ ":" ++ quoted e ++ "," ++
            quoted "kty" ++ ":" ++ quoted "RSA" ++ "," ++
            quoted "n" ++ ":" ++ quoted n ++ "}")).
Proof.
  unfold acme_header_dict.
  destruct (key_text_groups key) as [[m e0]|]; [|discriminate].
  destruct (unhexlify _) as [eb|]; [|discriminate].
  destruct (unhexlify _) as [mb|]; [|discriminate].
  intros [= <-]. exists (base64_enc eb), (base64_enc mb).
  pose proof (base64_enc_ok eb) as He.
  pose proof (base64_enc_ok mb) as Hm.
  repeat split; try assumption.
  unfold thumbprint_of. f_equal. f_equal.
  rewrite jwk_dumps. unfold json_quote, quoted.
  rewrite (json_escape_safe _ He), (json_escape_safe _ Hm).
  apply string_eq_by_list.
  repeat (rewrite list_ascii_app || cbn [list_ascii_of_string json_escape]).
  rewrite <- !app_assoc. reflexivity.
Qed.

End AcmeMore.

(** ** What a run keeps *)

Section AcmeRuns.

Context `{L : Lib}.
Variable net : nat -> Reply.

Lemma preserves_ret {A} P (a : A) : preserves P (ret a).
Proof. intros w H. exact H. Qed.

Lemma preserves_raise {A} P e : preserves P (@raise A e).
Proof. intros w H. exact H. Qed.

Lemma preserves_lift {A} P (o : Outcome A) : preserves P (lift o).
Proof. intros w H. exact H. Qed.

Lemma preserves_bind_post {A B} P (Q : A -> Prop) (m : M A) (k : A -> M B) :
  preserves P m ->
  (forall w a w', m w = (Ret a, w') -> Q a) ->
  (forall a, Q a -> preserves P (k a)) ->
  preserves P (bind m k).
Proof.
  intros Hm HQ Hk w Hw. unfold bind. specialize (Hm w Hw). specialize (HQ w).
  destruct (m w) as [[a|e|] w1]; cbn [snd] in *; try exact Hm.
  apply (Hk a); [eapply HQ; reflexivity | exact Hm].
Qed.

Lemma preserves_bind {A B} P (m : M A) (k : A -> M B) :
  preserves P m -> (forall a, preserves P (k a)) -> preserves P (bind m k).
Proof.
  intros Hm Hk. apply (preserves_bind_post P (fun _ => True)); auto.
Qed.

Lemma preserves_try_IOError {A} P (m : M A) h :
  preserves P m -> (forall e, preserves P (h e)) -> preserves P (try_IOError m h).
Proof.
  intros Hm Hh w Hw. unfold try_IOError. specialize (Hm w Hw).
  destruct (m w) as [[a|e|] w1]; cbn [snd] in *; try exact Hm.
  destruct (is_IOError e); [now apply Hh | exact Hm].
Qed.

Lemma preserves_try_IOError_Assertion P m h :
  preserves P m -> preserves P h -> preserves P (try_IOError_Assertion m h).
Proof.
  intros Hm Hh w Hw. unfold try_IOError_Assertion. specialize (Hm w Hw).
  destruct (m w) as [[[]|e|] w1]; cbn [snd] in *; try exact Hm.
  - now apply Hh.
  - destruct (is_IOError e); [now apply Hh | exact Hm].
Qed.

Section Invariant.

Variable G : string -> string -> Prop.
Variable key : Key.
Variable header : nat.
Variable h : list (string * Json).
Variable p : string.
Variable v : option string.

Hypothesis G_signed : forall url nonce payload, G url (json_dumps (envelope key h nonce payload)).

Lemma inv_log {A} (a : A) ev :
  event_ok G ev -> preserves (run_inv G header h p v) (fun w => (Ret a, log ev w)).
Proof.
  intros Hev w (Hs & Hn & Ht & Hf). repeat split; try assumption.
  cbn [snd log trace]. apply Forall_app. split; [exact Ht | now constructor].
Qed.

Lemma inv_urlopen url : preserves (run_inv G header h p v) (urlopen net url).
Proof.
  intros w (Hs & Hn & Ht & Hf). unfold urlopen, urlopen_event.
  destruct (net (calls w)); cbn [snd]; repeat split; try assumption;
    cbn [trace]; apply Forall_app; (split; [exact Ht | now repeat constructor]).
Qed.

Lemma inv_urlopen_json uri : preserves (run_inv G header h p v) (urlopen_json net uri None).
Proof.
  destruct uri; try apply preserves_raise. apply inv_urlopen.
Qed.

Lemma inv_write_file path content : path <> p -> preserves (run_inv G header h p v) (write_file path content).
Proof.
  intros Hp w (Hs & Hn & Ht & Hf). unfold write_file.
  destruct (string_last path) as [c|]; [|now repeat split].
  destruct (Ascii.eqb c "/"); [now repeat split|]. cbn [snd].
  repeat split; try assumption.
  - cbn [trace]. apply Forall_app. split; [exact Ht | now repeat constructor].
  - cbn [fs]. now rewrite lookup_insert_ne.
Qed.

Lemma inv_os_remove path : path <> p -> preserves (run_inv G header h p v) (os_remove path).
Proof.
  intros Hp w (Hs & Hn & Ht & Hf). unfold os_remove.
  destruct (fs w !! path); cbn [snd]; repeat split; try assumption.
  - cbn [trace]. apply Forall_app. split; [exact Ht | now repeat constructor].
  - cbn [fs]. now rewrite lookup_delete_ne.
Qed.

Lemma inv_send_signed CA url payload :
  preserves (run_inv G header h p v) (send_signed net key CA url header payload).
Proof.
  intros w (Hs & Hn & Ht & Hf).
  assert (Hne : next w <> header) by lia.
  unfold send_signed, deepcopy, deref, alloc, urlopen, setitem,
    try_IOError, urlopen_json, urlopen_data, urlopen_event, bind, ret.
  cbn [fs store next calls trace fst snd]. rewrite Hs. cbn [default from_option]. unfold id.
  destruct (net (calls w)) as [s0 hs0 b0|e0]; cbn [fs store next calls trace fst snd].
  - rewrite !lookup_insert_eq, insert_insert_eq. cbn [default from_option]. unfold id.
    rewrite (lookup_insert_ne _ (next w) header) by exact Hne. rewrite Hs. cbn [default from_option]. unfold id.
    assert (Hget : Forall (event_ok G) (trace w ++ [EvGet (CA ++ "/directory")])).
    { apply Forall_app. split; [exact Ht | now repeat constructor]. }
    destruct url as [|b|z|s|l|kv]; cbn [snd raise is_IOError];
      try (repeat split; cbn [store next trace fs];
           [now rewrite lookup_insert_ne | lia | exact Hget | exact Hf]).
    cbn [fs store next calls trace fst snd].
    assert (Hpost : forall w',
      store w' = <[next w := dict_set "nonce" (header_get "Replay-Nonce" hs0) h]> (store w) ->
      next w' = S (next w) -> fs w' = fs w ->
      trace w' = ((trace w ++ [EvGet (CA ++ "/directory")]) ++
                  [EvPost s (json_dumps (envelope key h (header_get "Replay-Nonce" hs0) payload))])%list ->
      (run_inv G header h p v) w').
    { intros w' Hst Hnx Hfs Htr. repeat split.
      - now rewrite Hst, lookup_insert_ne.
      - lia.
      - rewrite Htr. apply Forall_app. split; [exact Hget|].
        constructor; [apply G_signed | constructor].
      - now rewrite Hfs. }
    destruct (net (S (calls w))) as [s1 hs1 b1|e1]; cbn [snd].
    + now apply Hpost.
    + destruct (is_IOError e1); cbn [snd]; now apply Hpost.
  - repeat split; cbn [store next trace fs].
    + now rewrite lookup_insert_ne.
    + lia.
    + apply Forall_app. split; [exact Ht | now repeat constructor].
    + exact Hf.
Qed.

Lemma inv_print line : preserves (run_inv G header h p v) (print line).
Proof. apply (inv_log tt). exact I. Qed.

Lemma inv_sleep z : preserves (run_inv G header h p v) (sleep z).
Proof. apply (inv_log tt). exact I. Qed.

Lemma inv_poll fuel domain uri path :
  path <> p -> preserves (run_inv G header h p v) (poll net fuel domain uri path).
Proof.
  intros Hp. induction fuel as [|fuel IH]; cbn [poll]; [apply preserves_lift|].
  apply preserves_bind.
  - apply preserves_try_IOError.
    + apply preserves_bind; [apply inv_urlopen_json | intros; apply preserves_lift].
    + intros []; try apply preserves_raise.
      apply preserves_bind; [apply preserves_lift | intros; apply preserves_raise].
  - intros cs. apply preserves_bind; [apply preserves_lift|]. intros st.
    destruct (json_is st "pending").
    + apply preserves_bind; [apply inv_sleep | intros; apply IH].
    + destruct (json_is st "valid").
      * apply preserves_bind; [apply inv_print | intros; now apply inv_os_remove].
      * apply preserves_raise.
Qed.

Lemma inv_self_check path url ka :
  path <> p -> preserves (run_inv G header h p v) (self_check net path url ka).
Proof.
  intros Hp. unfold self_check. apply preserves_try_IOError_Assertion.
  - apply preserves_bind; [apply inv_urlopen|]. intros resp.
    apply preserves_bind; [apply preserves_lift | intros; apply preserves_ret].
  - apply preserves_bind; [now apply inv_os_remove | intros; apply preserves_raise].
Qed.

Lemma inv_get_challenge CA domain :
  preserves (run_inv G header h p v) (get_challenge net key CA header domain).
Proof.
  unfold get_challenge. apply preserves_bind; [apply inv_send_signed|].
  intros [c r]. destruct (negb (code_is c 201)); [apply preserves_raise | apply preserves_lift].
Qed.

Lemma challenge_token_sanitized challenge token :
  challenge_token challenge = Ret token -> exists t, token = sanitize_token t.
Proof.
  unfold challenge_token. destruct (getitem challenge "token") as [[]|e|]; try discriminate.
  intros [= <-]. eauto.
Qed.

Lemma make_challenge_file_token acme_dir thumb challenge w token w' :
  make_challenge_file acme_dir thumb challenge w = (Ret token, w') ->
  exists t, token = sanitize_token t.
Proof.
  unfold make_challenge_file, bind, lift.
  destruct (challenge_token challenge) as [tok|e|] eqn:Ht; try discriminate.
  destruct (write_file _ _ w) as [[[]|e|] w1]; try discriminate.
  unfold ret. intros [= <- _]. eapply challenge_token_sanitized; eauto.
Qed.

Variable acme_dir : string.
Hypothesis p_outside : forall t, os_path_join acme_dir (sanitize_token t) <> p.

Lemma inv_make_challenge_file thumb challenge :
  preserves (run_inv G header h p v) (make_challenge_file acme_dir thumb challenge).
Proof.
  unfold make_challenge_file.
  apply (preserves_bind_post _ (fun token => exists t, token = sanitize_token t)).
  - apply preserves_lift.
  - unfold lift. intros w a w' [= Ht _]. eapply challenge_token_sanitized; eauto.
  - intros token [t ->]. apply preserves_bind; [|intros; apply preserves_ret].
    apply inv_write_file. apply p_outside.
Qed.

Lemma inv_notify_challenge CA challenge ka :
  preserves (run_inv G header h p v) (notify_challenge net key CA header challenge ka).
Proof.
  unfold notify_challenge. apply preserves_bind; [apply preserves_lift|]. intros uri.
  apply preserves_bind; [apply inv_send_signed|].
  intros [c r]. destruct (negb (code_is c 202)); [apply preserves_raise | apply preserves_ret].
Qed.

Lemma inv_verify_domain fuel CA thumb domain :
  preserves (run_inv G header h p v)
    (verify_domain net fuel key acme_dir CA header thumb domain).
Proof.
  unfold verify_domain.
  apply preserves_bind; [apply inv_print|]. intros _.
  apply preserves_bind; [apply inv_get_challenge|]. intros challenge.
  apply (preserves_bind_post _ (fun token => exists t, token = sanitize_token t)).
  - apply inv_make_challenge_file.
  - intros w a w'. apply make_challenge_file_token.
  - intros token [t ->].
    apply preserves_bind; [apply inv_self_check, p_outside|]. intros _.
    apply preserves_bind; [apply inv_notify_challenge|]. intros _.
    unfold wait_verified. apply preserves_bind; [apply preserves_lift|]. intros uri.
    apply inv_poll, p_outside.
Qed.

Lemma inv_verify_domains fuel CA thumb domains :
  preserves (run_inv G header h p v)
    (verify_domains net fuel key acme_dir CA header thumb domains).
Proof.
  induction domains as [|d ds IH]; cbn [verify_domains]; [apply preserves_ret|].
  apply preserves_bind; [apply inv_verify_domain | intros; apply IH].
Qed.

Lemma inv_sign_certificate csr CA :
  preserves (run_inv G header h p v) (sign_certificate net key csr CA header).
Proof.
  unfold sign_certificate.
  apply preserves_bind; [apply inv_print|]. intros _.
  apply preserves_bind; [apply inv_send_signed|]. intros [c r].
  destruct (negb (code_is c 201)); [apply preserves_raise|].
  apply preserves_bind; [apply inv_print|]. intros _.
  destruct (load_certificate r); [apply preserves_ret | apply preserves_raise].
Qed.

End Invariant.

(** The invariant holds through [get_crt_from_csr] from the moment the
    header is made. *)
Lemma get_crt_from_csr_inv G fuel key csr domains acme_dir CA h w p :
  acme_header_dict key = Ret h ->
  (forall url nonce payload, G url (json_dumps (envelope key h nonce payload))) ->
  (forall t, os_path_join acme_dir (sanitize_token t) <> p) ->
  Forall (event_ok G) (trace w) ->
  run_inv G (next w) h p (fs w !! p)
    (snd (get_crt_from_csr net fuel key csr domains acme_dir CA w)).
Proof.
  intros Hh HG Hp Ht. unfold get_crt_from_csr.
  rewrite (bind_Ret _ _ _ _ _ (acme_header_run key h w Hh)).
  set (w0 := mkWorld _ _ _ _ _).
  assert (H0 : run_inv G (next w) h p (fs w !! p) w0).
  { repeat split; [apply lookup_insert_eq | cbn; lia | exact Ht]. }
  revert H0. generalize w0. clear w0.
  change (preserves (run_inv G (next w) h p (fs w !! p))
    (h0 <- deref (next w);;
     jwk <- lift (getitem (JObj h0) "jwk");;
     verify_domains net fuel key acme_dir CA (next w) (thumbprint_of jwk) domains;;;
     sign_certificate net key csr CA (next w))).
  apply preserves_bind; [intros w1 H1; exact H1|]. intros h0.
  apply preserves_bind; [apply preserves_lift|]. intros jwk.
  apply preserves_bind; [now apply inv_verify_domains|]. intros _.
  now apply inv_sign_certificate.
Qed.

Lemma sanitize_char_not c d : token_char_ok d = false -> sanitize_char c <> d.
Proof. intros Hd Heq. pose proof (sanitize_char_ok c) as H. rewrite Heq in H. congruence. Qed.

Lemma string_last_None a : string_last a = None -> a = EmptyString.
Proof.
  induction a as [|x a IH]; [reflexivity|]. cbn [string_last].
  destruct a as [|y a']; [discriminate|]. intros H. specialize (IH H). discriminate.
Qed.

Lemma os_path_join_relative a c r :
  c <> "/"%char ->
  os_path_join a (String c r) = a ++ join_separator a ++ String c r.
Proof.
  intros Hc. unfold os_path_join, join_separator.
  assert (Hm : forall X (x y : X),
             match c with
             | "/"%char => x
             | _ => y
             end = y).
  { intros X x y. destruct c as [[] [] [] [] [] [] [] []]; try reflexivity. congruence. }
  rewrite Hm.
  destruct (string_last a) as [l|] eqn:El.
  - destruct (Ascii.eqb_spec l "/"%char) as [->|Hl]; [reflexivity|].
    destruct l as [[] [] [] [] [] [] [] []]; try reflexivity; congruence.
  - now rewrite (string_last_None _ El).
Qed.

Lemma os_path_join_sanitized acme_dir t :
  os_path_join acme_dir (sanitize_token t) =
    acme_dir ++ join_separator acme_dir ++ sanitize_token t.
Proof.
  destruct t as [|c r].
  - unfold os_path_join, join_separator. cbn [sanitize_token string_map].
    destruct (string_last acme_dir) as [l|] eqn:El.
    + destruct (Ascii.eqb_spec l "/"%char) as [->|Hl]; [reflexivity|].
      destruct l as [[] [] [] [] [] [] [] []]; try reflexivity; congruence.
    + now rewrite (string_last_None _ El).
  - cbn [sanitize_token string_map]. apply os_path_join_relative.
    now apply sanitize_char_not.
Qed.

Lemma string_app_inv_head (a x y : string) : a ++ x = a ++ y -> x = y.
Proof.
  induction a as [|c a IH]; [trivial|].
  change (String c a ++ x) with (String c (a ++ x)).
  change (String c a ++ y) with (String c (a ++ y)).
  intros [= H]. now apply IH.
Qed.

Lemma sanitize_token_no_char t d :
  token_char_ok d = false ->
  string_forallb (fun c => negb (Ascii.eqb c d)) (sanitize_token t) = true.
Proof.
  intros Hd. unfold sanitize_token. induction t as [|c r IH]; [reflexivity|].
  cbn [string_map string_forallb]. rewrite IH, andb_true_r.
  destruct (Ascii.eqb_spec (sanitize_char c) d) as [E|]; [|reflexivity].
  now apply sanitize_char_not in E.
Qed.

(** A path that is no proof file of the directory. *)
Lemma not_a_proof_path acme_dir t :
  os_path_join acme_dir (sanitize_token t) <> acme_dir ++ "/.".
Proof.
  rewrite os_path_join_sanitized. intros Heq. apply string_app_inv_head in Heq.
  pose proof (sanitize_token_no_char t "/"%char eq_refl) as Hslash.
  pose proof (sanitize_token_no_char t "."%char eq_refl) as Hdot.
  unfold join_separator in Heq.
  destruct (string_last acme_dir) as [l|].
  - destruct (Ascii.eqb_spec l "/"%char) as [->|Hl].
    + change (sanitize_token t = "/.") in Heq. rewrite Heq in Hslash. discriminate.
    + assert (Hsep : String "/" (sanitize_token t) = "/.").
      { destruct l as [[] [] [] [] [] [] [] []]; try exact Heq. congruence. }
      injection Hsep as Hsep. rewrite Hsep in Hdot. discriminate.
  - change (sanitize_token t = "/.") in Heq. rewrite Heq in Hslash. discriminate.
Qed.

(** X6. Every request [get_crt_from_csr] posts is an envelope signed under
    one header, the one [acme_header] made at the start, and that object is
    the same at the end, however the run ends. *)
Theorem get_crt_from_csr_one_header fuel key csr domains acme_dir CA h w :
  acme_header_dict key = Ret h ->
  Forall (event_ok (signed_under key h)) (trace w) ->
  let w' := snd (get_crt_from_csr net fuel key csr domains acme_dir CA w) in
  store w' !! next w = Some h /\
  forall url data, In (EvPost url data) (trace w') ->
    exists nonce payload, data = json_dumps (envelope key h nonce payload).
Proof.
  intros Hh Ht w'.
  destruct (get_crt_from_csr_inv (signed_under key h) fuel key csr domains acme_dir CA h w
              (acme_dir ++ "/.") Hh) as (Hs & _ & Hall & _); try assumption.
  - intros url nonce payload. now exists nonce, payload.
  - intros t. apply not_a_proof_path.
  - split; [exact Hs|]. intros url data Hin.
    rewrite List.Forall_forall in Hall. exact (Hall _ Hin).
Qed.

(** X7. [get_crt_from_csr] writes and removes nothing but proof files: a
    path that is not the challenge directory followed by a sanitized token
    holds at the end what it held at the start, however the run ends. *)
Theorem get_crt_from_csr_files fuel key csr domains acme_dir CA w p :
  (forall t, p <> acme_dir ++ join_separator acme_dir ++ sanitize_token t) ->
  fs (snd (get_crt_from_csr net fuel key csr domains acme_dir CA w)) !! p = fs w !! p.
Proof.
  intros Hp.
  destruct (acme_header_dict key) as [h|e|] eqn:Hh.
  - destruct (get_crt_from_csr_inv (fun _ _ => True) fuel key csr domains acme_dir CA h w p Hh)
      as (_ & _ & _ & Hf); try exact Hf; auto.
    + intros t Heq. apply (Hp t). now rewrite <- os_path_join_sanitized.
    + apply List.Forall_forall. intros ev _. destruct ev; exact I.
  - unfold get_crt_from_csr, acme_header, bind, lift. now rewrite Hh.
  - unfold get_crt_from_csr, acme_header, bind, lift. now rewrite Hh.
Qed.

End AcmeRuns.

(** X8. The proof file lies in the challenge directory itself: its path is
    the directory, a slash unless the directory is empty or ends with one,
    and the sanitized token, which has no slash and no dot. *)
Theorem wellknown_path_in_acme_dir acme_dir token :
  os_path_join acme_dir (sanitize_token token) =
    acme_dir ++ join_separator acme_dir ++ sanitize_token token /\
  (join_separator acme_dir = "/" \/ join_separator acme_dir = EmptyString) /\
  string_forallb (fun c => negb (Ascii.eqb c "/"%char)) (sanitize_token token) = true /\
  string_forallb (fun c => negb (Ascii.eqb c "."%char)) (sanitize_token token) = true.
Proof.
  split; [apply os_path_join_sanitized|]. split; [|split].
  - unfold join_separator. destruct (string_last acme_dir) as [l|]; [|now right].
    destruct l as [[] [] [] [] [] [] [] []]; auto.
  - now apply sanitize_token_no_char.
  - now apply sanitize_token_no_char.
Qed.

(** ** How a validation and the issuance end *)

Section AcmeBlocks.

Context `{L : Lib}.
Variable net : nat -> Reply.

Lemma code_is_false c n : c <> Some n -> code_is c n = false.
Proof.
  destruct c as [z|]; [|reflexivity]. intros H. cbn. apply Z.eqb_neq. congruence.
Qed.

(** X9. When the fetch of the nonce raises, whatever the exception,
    [send_signed] raises it: nothing is posted, and an error answer of the
    directory that carries a status escapes like any other. *)
Theorem send_signed_nonce_failure key CA url header payload w e :
  net (calls w) = Throws e ->
  send_signed net key CA url header payload w =
    (Raise e,
     mkWorld (fs w) (<[next w := default [] (store w !! header)]> (store w)) (S (next w))
             (S (calls w)) (trace w ++ [EvGet (CA ++ "/directory")])).
Proof.
  intros Hnonce.
  unfold send_signed, deepcopy, deref, alloc, urlopen, urlopen_event, bind, ret.
  cbn [fs store next calls trace fst snd]. now rewrite Hnonce.
Qed.

(** X10. When the CA answers new-authz with anything but 201, a failed
    connection included, the validation of the domain raises the
    [ValueError] of the request with what [send_signed] returned: the
    status and the body, which is [bytes], or [None] and the text of the
    exception, a [str], when there is no status.  No file is written and
    nothing else is requested. *)
Theorem verify_domain_authz_refused fuel key acme_dir CA header thumb domain w
    status hdrs body c b :
  header <> next w ->
  net (calls w) = Response status hdrs body ->
  post_outcome (net (S (calls w))) = Ret (c, b) ->
  c <> Some 201 ->
  let w1 := after_get_challenge key CA header domain (header_get "Replay-Nonce" hdrs) w in
  verify_domain net fuel key acme_dir CA header thumb domain w =
    (Raise (ValueError "Error requesting challenges: {0} {1}" [code_val c; result_val c b]), w1) /\
  fs w1 = fs w /\ calls w1 = S (S (calls w)).
Proof.
  intros Hne Hnonce Hpost Hc w1. split; [|split; reflexivity].
  unfold verify_domain. unfold bind at 1. unfold print at 1.
  unfold bind at 1, get_challenge. unfold bind at 1.
  rewrite (send_signed_run net key CA _ header _ (log _ w) status hdrs body Hnonce Hne).
  cbn [calls log]. rewrite Hpost. rewrite (code_is_false c 201 Hc). reflexivity.
Qed.

(** X25. A challenge whose token is empty cannot be published.  The path
    of its proof file is the challenge directory itself, or the empty path
    when the directory is given as the empty string; [open] raises
    [IsADirectoryError], or [FileNotFoundError], outside every [try], and
    the validation ends there: nothing is written, the proof is not
    fetched and the challenge is not triggered. *)
Theorem verify_domain_empty_token fuel key acme_dir CA header thumb domain w
    status hdrs body result challenge :
  header <> next w ->
  net (calls w) = Response status hdrs body ->
  post_outcome (net (S (calls w))) = Ret (Some 201, result) ->
  pick_challenge result = Ret challenge ->
  getitem challenge "token" = Ret (JStr EmptyString) ->
  let w1 := after_get_challenge key CA header domain (header_get "Replay-Nonce" hdrs) w in
  exists e,
    verify_domain net fuel key acme_dir CA header thumb domain w = (Raise e, w1) /\
    (e = IsADirectoryError (os_path_join acme_dir EmptyString) \/
     acme_dir = EmptyString /\ e = FileNotFoundError EmptyString) /\
    fs w1 = fs w /\
    calls w1 = S (S (calls w)).
Proof.
  intros Hne Hnonce Hpost Hpick Htok w1.
  destruct (write_file_empty_token acme_dir (keyauthorization_of EmptyString thumb) w1)
    as (e & Hwrite & He).
  exists e. split; [|split; [exact He | split; reflexivity]].
  rewrite (verify_domain_get_challenge net _ _ _ _ _ _ _ _ _ _ _ _ Hnonce Hne Hpost).
  fold w1. unfold bind at 1, lift. rewrite Hpick.
  unfold bind at 1, make_challenge_file. unfold bind at 1, lift, challenge_token.
  rewrite Htok. cbn [sanitize_token string_map]. unfold bind at 1.
  rewrite Hwrite. reflexivity.
Qed.




(** X13. A poll that fails.  An HTTP error whose body is a JSON document
    raises the [ValueError] of the check with the status and the document;
    any other [IOError] has no [code], so the handler itself raises
    [AttributeError]; an exception that is no [IOError] passes through; a
    document with no [status] raises [KeyError].  In every case the proof
    file stays. *)
Theorem poll_failures fuel domain u path w n :
  (forall i, (i < n)%nat ->
     exists ji sti, poll_report (net (calls w + i)) = Ret (ji, sti) /\
                    json_is sti "pending" = true) ->
  (n < fuel)%nat ->
  let w_n := mkWorld (fs w) (store w) (next w) (S (calls w + n))
               (trace w ++ pending_polls u n ++ [EvGet u]) in
  (forall s b j, net (calls w + n) = Throws (HTTPError s b) -> loads_bytes b = Ret j ->
     poll net fuel domain (JStr u) path w =
       (Raise (ValueError "Error checking challenge: {0} {1}" [VInt s; VJson j]), w_n)) /\
  (forall e, net (calls w + n) = Throws e -> is_IOError e = true -> exc_code e = None ->
     poll net fuel domain (JStr u) path w = (Raise (AttributeError "code"), w_n)) /\
  (forall e, net (calls w + n) = Throws e -> is_IOError e = false ->
     poll net fuel domain (JStr u) path w = (Raise e, w_n)) /\
  (forall s hs b j, net (calls w + n) = Response s hs b -> loads_bytes b = Ret j ->
     getitem j "status" = Raise (KeyError "status") ->
     poll net fuel domain (JStr u) path w = (Raise (KeyError "status"), w_n)).
Proof.
  intros Hpend Hfuel w_n.
  destruct fuel as [|fuel]; [lia|].
  replace (S fuel) with (n + S (fuel - n))%nat by lia.
  rewrite (poll_pending_prefix net domain u path n _ w Hpend).
  assert (Htr : ((trace w ++ pending_polls u n) ++ [EvGet u])%list =
                (trace w ++ pending_polls u n ++ [EvGet u])%list)
    by now rewrite <- app_assoc.
  repeat split.
  - intros s b j Hn Hl. cbn [poll].
    unfold try_IOError, urlopen_json, urlopen, urlopen_event, lift, bind, raise.
    cbn [fs store next calls trace]. rewrite Hn. cbn [is_IOError]. rewrite Hl, Htr.
    reflexivity.
  - intros e Hn Hio Hc. cbn [poll].
    unfold try_IOError, urlopen_json, urlopen, urlopen_event, lift, bind, raise.
    cbn [fs store next calls trace]. rewrite Hn, Hio, Htr.
    destruct e; try discriminate; reflexivity.
  - intros e Hn Hio. cbn [poll].
    unfold try_IOError, urlopen_json, urlopen, urlopen_event, lift, bind, raise.
    cbn [fs store next calls trace]. rewrite Hn, Hio, Htr. reflexivity.
  - intros s hs b j Hn Hl Hg. cbn [poll].
    unfold try_IOError, urlopen_json, urlopen, urlopen_event, lift, bind, raise.
    cbn [fs store next calls trace]. rewrite Hn. cbn [snd]. rewrite Hl, Hg, Htr.
    reflexivity.
Qed.

Lemma sign_certificate_run key csr CA header w status hdrs body :
  net (calls w) = Response status hdrs body ->
  header <> next w ->
  let w1 := after_new_cert key csr CA header (header_get "Replay-Nonce" hdrs) w in
  sign_certificate net key csr CA header w =
    match post_outcome (net (S (calls w))) with
    | Ret (c, b) =>
      if negb (code_is c 201)
      then (Raise (ValueError "Error signing certificate: {0} {1}" [code_val c; result_val c b]), w1)
      else match load_certificate b with
           | Some cert => (Ret cert, log (EvPrint "Certificate signed!") w1)
           | None => (Raise CryptoError, log (EvPrint "Certificate signed!") w1)
           end
    | Raise e => (Raise e, w1)
    | Diverge => (Diverge, w1)
    end.
Proof.
  intros Hnonce Hne w1. unfold sign_certificate.
  unfold bind at 1. unfold print at 1. unfold bind at 1.
  rewrite (send_signed_run net key CA _ header _ (log _ w) status hdrs body Hnonce Hne).
  fold (after_new_cert key csr CA header (header_get "Replay-Nonce" hdrs) w). fold w1.
  cbn [calls log].
  destruct (post_outcome (net (S (calls w)))) as [[c b]|e|]; try reflexivity.
  destruct (negb (code_is c 201)); [reflexivity|].
  unfold bind, print. destruct (load_certificate b); reflexivity.
Qed.

(** X14. The request for the certificate.  Anything but 201 raises the
    [ValueError] of the signing with what [send_signed] returned: the
    status and the body, which is [bytes], or [None] and the text of the
    exception, a [str], when the request failed with no status.  On 201 the
    body is parsed as the certificate; "Certificate signed!" is printed
    before that, also when the body is no certificate and the parser
    raises. *)
Theorem sign_certificate_outcomes key csr CA header w status hdrs body :
  net (calls w) = Response status hdrs body ->
  header <> next w ->
  let w1 := after_new_cert key csr CA header (header_get "Replay-Nonce" hdrs) w in
  (forall c b, post_outcome (net (S (calls w))) = Ret (c, b) -> c <> Some 201 ->
     sign_certificate net key csr CA header w =
       (Raise (ValueError "Error signing certificate: {0} {1}" [code_val c; result_val c b]), w1)) /\
  (forall b cert, post_outcome (net (S (calls w))) = Ret (Some 201, b) ->
     load_certificate b = Some cert ->
     sign_certificate net key csr CA header w =
       (Ret cert, log (EvPrint "Certificate signed!") w1)) /\
  (forall b, post_outcome (net (S (calls w))) = Ret (Some 201, b) ->
     load_certificate b = None ->
     sign_certificate net key csr CA header w =
       (Raise CryptoError, log (EvPrint "Certificate signed!") w1)).
Proof.
  intros Hnonce Hne w1.
  pose proof (sign_certificate_run key csr CA header w status hdrs body Hnonce Hne) as Hrun.
  cbv zeta in Hrun. fold w1 in Hrun.
  repeat split.
  - intros c b Hpost Hc. rewrite Hrun, Hpost, (code_is_false c 201 Hc). reflexivity.
  - intros b cert Hpost Hload. rewrite Hrun, Hpost. cbn [code_is Z.eqb Pos.eqb negb].
    now rewrite Hload.
  - intros b Hpost Hload. rewrite Hrun, Hpost. cbn [code_is Z.eqb Pos.eqb negb].
    now rewrite Hload.
Qed.

(** X15. With an empty list of domains [get_crt_from_csr] validates
    nothing and still asks for the certificate: its only requests are the
    nonce and new-cert, and it returns what the CA sends back. *)
Theorem get_crt_from_csr_no_domains fuel key csr acme_dir CA w h status hdrs body b cert :
  acme_header_dict key = Ret h ->
  net (calls w) = Response status hdrs body ->
  post_outcome (net (S (calls w))) = Ret (Some 201, b) ->
  load_certificate b = Some cert ->
  let run := get_crt_from_csr net fuel key csr [] acme_dir CA w in
  fst run = Ret cert /\
  fs (snd run) = fs w /\
  trace (snd run) =
    (trace w ++
     [EvPrint "Signing certificate...";
      EvGet (CA ++ "/directory");
      EvPost (CA ++ "/acme/new-cert")
        (json_dumps (envelope key h (header_get "Replay-Nonce" hdrs)
                       (new_cert_payload (dump_certificate_request csr))));
      EvPrint "Certificate signed!"])%list.
Proof.
  intros Hh Hnonce Hpost Hload run.
  set (w0 := mkWorld (fs w) (<[next w := h]> (store w)) (S (next w)) (calls w) (trace w)).
  assert (Hne : next w <> next w0) by (cbn; lia).
  assert (Hrun : run = (Ret cert,
                        log (EvPrint "Certificate signed!")
                          (after_new_cert key csr CA (next w)
                             (header_get "Replay-Nonce" hdrs) w0))).
  { unfold run, get_crt_from_csr.
    rewrite (bind_Ret _ _ _ _ _ (acme_header_run key h w Hh)). fold w0.
    unfold bind at 1, deref. cbn [store w0]. rewrite lookup_insert_eq.
    cbn [default from_option]. unfold id.
    destruct (acme_header_thumbprint_shape key h Hh) as (e & n & ->).
    unfold bind at 1, lift. cbn [getitem assoc String.eqb Ascii.eqb Bool.eqb].
    cbn [verify_domains]. unfold bind at 1, ret.
    rewrite (sign_certificate_run key csr CA (next w) w0 status hdrs body Hnonce Hne).
    cbn [calls w0]. rewrite Hpost. cbn [code_is Z.eqb Pos.eqb negb]. now rewrite Hload. }
  rewrite Hrun. repeat split.
  unfold after_new_cert, after_send_signed, log. cbn [snd trace store w0].
  rewrite lookup_insert_eq. cbn [default from_option]. unfold id.
  rewrite <- !app_assoc. reflexivity.
Qed.

End AcmeBlocks.

(** ** More on the token *)

(** X16. Sanitizing is idempotent and changes exactly the tokens that have
    a character outside [A-Za-z0-9_-]; each of those shares its file name
    with another token, its own sanitized form. *)
Theorem sanitize_token_idempotent t :
  sanitize_token (sanitize_token t) = sanitize_token t /\
  (sanitize_token t = t <-> string_forallb token_char_ok t = true) /\
  (string_forallb token_char_ok t = false ->
   exists t', t' <> t /\ sanitize_token t' = sanitize_token t).
Proof.
  assert (Hok : string_forallb token_char_ok (sanitize_token t) = true)
    by apply string_map_forallb, sanitize_char_ok.
  assert (Hidem : sanitize_token (sanitize_token t) = sanitize_token t)
    by now apply sanitize_token_safe.
  split; [exact Hidem|]. split.
  - split; [intros H; now rewrite <- H | apply sanitize_token_safe].
  - intros Hbad. exists (sanitize_token t). split; [|exact Hidem].
    now apply sanitize_token_changes.
Qed.

(** * [acertmgr/configuration.py] *)

(** ** The list of domains *)

Lemma split_on_nonempty sep s : split_on sep s <> [].
Proof.
  destruct s as [|c r]; cbn [split_on]; [discriminate|].
  destruct (Ascii.eqb c sep); [discriminate|].
  destruct (split_on sep r); discriminate.
Qed.

Lemma join_cons sep x y l : join sep (x :: y :: l) = x ++ sep ++ join sep (y :: l).
Proof. reflexivity. Qed.

Lemma join_cons_char sep c x l :
  join sep (String c x :: l) = String c (join sep (x :: l)).
Proof. destruct l; reflexivity. Qed.

Lemma join_split sep s : join (String sep EmptyString) (split_on sep s) = s.
Proof.
  induction s as [|c r IH]; [reflexivity|]. cbn [split_on].
  destruct (Ascii.eqb_spec c sep) as [->|Hc].
  - pose proof (split_on_nonempty sep r) as Hne.
    destruct (split_on sep r) as [|y l]; [contradiction|].
    rewrite join_cons, IH. reflexivity.
  - pose proof (split_on_nonempty sep r) as Hne.
    destruct (split_on sep r) as [|y l]; [contradiction|].
    now rewrite join_cons_char, IH.
Qed.

Lemma split_on_pieces sep s :
  Forall (fun x => string_forallb (fun c => negb (Ascii.eqb c sep)) x = true) (split_on sep s).
Proof.
  induction s as [|c r IH]; [repeat constructor|]. cbn [split_on].
  destruct (Ascii.eqb c sep) eqn:E; [constructor; [reflexivity | exact IH]|].
  pose proof (split_on_nonempty sep r) as Hne.
  destruct (split_on sep r) as [|y l]; [contradiction|].
  inversion IH as [|? ? Hy Hl]; subst. constructor; [|exact Hl].
  cbn [string_forallb]. now rewrite E, Hy.
Qed.

Lemma split_join sep l :
  l <> [] ->
  Forall (fun x => string_forallb (fun c => negb (Ascii.eqb c sep)) x = true) l ->
  split_on sep (join (String sep EmptyString) l) = l.
Proof.
  induction l as [|x l IH]; [congruence|]. intros _ Hall.
  inversion Hall as [|? ? Hx Hl]; subst.
  destruct l as [|y l].
  - clear IH Hl Hall. cbn [join]. induction x as [|c x IHx]; [reflexivity|].
    cbn [string_forallb] in Hx. apply andb_true_iff in Hx as [Hc Hx].
    cbn [split_on]. apply negb_true_iff in Hc. rewrite Hc, (IHx Hx). reflexivity.
  - specialize (IH ltac:(discriminate) Hl). rewrite join_cons. clear Hall.
    induction x as [|c x IHx].
    + change (EmptyString ++ String sep EmptyString ++ join (String sep EmptyString) (y :: l))
        with (String sep (join (String sep EmptyString) (y :: l))).
      cbn [split_on]. rewrite Ascii.eqb_refl, IH. reflexivity.
    + cbn [string_forallb] in Hx. apply andb_true_iff in Hx as [Hc Hx].
      change (String c x ++ String sep EmptyString ++ join (String sep EmptyString) (y :: l))
        with (String c (x ++ String sep EmptyString ++ join (String sep EmptyString) (y :: l))).
      cbn [split_on]. apply negb_true_iff in Hc. rewrite Hc, (IHx Hx). reflexivity.
Qed.

Lemma split_on_app sep a b :
  split_on sep (a ++ String sep b) = (split_on sep a ++ split_on sep b)%list.
Proof.
  induction a as [|c r IH]; cbn [split_on].
  - change (EmptyString ++ String sep b) with (String sep b). cbn [split_on].
    now rewrite Ascii.eqb_refl.
  - change (String c r ++ String sep b) with (String c (r ++ String sep b)).
    cbn [split_on]. rewrite IH.
    destruct (Ascii.eqb c sep); [reflexivity|].
    pose proof (split_on_nonempty sep r) as Hne.
    destruct (split_on sep r) as [|y l]; [contradiction|]. reflexivity.
Qed.

(** X17. The list of domains of an entry (line 62): splitting the domains
    string at the spaces gives at least one name, none with a space in it,
    and joining the names with spaces gives the string back; a list of
    names without spaces that is joined with spaces is split into itself;
    and the names of [a + ' ' + b] are those of [a] followed by those of
    [b], so that two spaces in a row, or a space at an end, give an empty
    name. *)
Theorem domainlist_round_trip :
  (forall domains,
     split_on " " domains <> [] /\
     Forall (fun x => string_forallb (fun c => negb (Ascii.eqb c " ")) x = true)
            (split_on " " domains) /\
     join " " (split_on " " domains) = domains) /\
  (forall l, l <> [] ->
     Forall (fun x => string_forallb (fun c => negb (Ascii.eqb c " ")) x = true) l ->
     split_on " " (join " " l) = l) /\
  (forall a b, split_on " " (a ++ " " ++ b) =
               (split_on " " a ++ split_on " " b)%list).
Proof.
  split; [|split].
  - intros domains. split; [apply split_on_nonempty|]. split; [apply split_on_pieces|].
    apply (join_split " "%char).
  - intros l. apply (split_join " "%char).
  - intros a b. apply (split_on_app " "%char).
Qed.

(** ** Values of the configuration *)

Lemma existsb_json_is_dicts name l :
  Forall (fun x => is_dict x = true) l -> existsb (fun e => json_is e name) l = false.
Proof.
  induction 1 as [|x l Hx _ IH]; [reflexivity|]. cbn [existsb]. rewrite IH.
  destruct x; try discriminate. reflexivity.
Qed.

Lemma update_config_value_dicts config name domains l globalconfig dflt :
  Forall (fun x => is_dict x = true) l ->
  update_config_value config name [JStr domains; JArr l] globalconfig dflt =
    Ret (dict_set name
           (if is_substring name domains then JStr domains
            else default dflt (assoc name globalconfig)) config).
Proof.
  intros Hl. unfold update_config_value. cbn [select_containing contains].
  rewrite (existsb_json_is_dicts name l Hl).
  destruct (is_substring name domains); reflexivity.
Qed.

(** X18. [update_config_value] on an entry whose data is a list of
    dictionaries (lines 48-53): the dictionaries of the data are never
    looked into.  The value stored under [name] is the whole domains
    string when [name] occurs in it as a substring, and the value of the
    global configuration, or else the default, otherwise; every other key
    of [config] keeps its value. *)
Theorem update_config_value_entry config name domains l globalconfig dflt :
  Forall (fun x => is_dict x = true) l ->
  exists config',
    update_config_value config name [JStr domains; JArr l] globalconfig dflt = Ret config' /\
    assoc name config' =
      Some (if is_substring name domains then JStr domains
            else match assoc name globalconfig with
                 | Some v => v
                 | None => dflt
                 end) /\
    forall k, k <> name -> assoc k config' = assoc k config.
Proof.
  intros Hl. eexists. split; [apply (update_config_value_dicts _ _ _ _ _ _ Hl)|]. split.
  - rewrite assoc_dict_set_eq. destruct (is_substring name domains); [reflexivity|].
    destruct (assoc name globalconfig); reflexivity.
  - intros k Hk. now apply assoc_dict_set_ne.
Qed.

(** ** Actions *)

Lemma assoc_fill_defaults k defaults : forall d,
  assoc k (fill_defaults d defaults) =
    match assoc k d with
    | Some v => Some v
    | None => assoc k defaults
    end.
Proof.
  unfold fill_defaults.
  induction defaults as [|[k' v'] r IH]; intros d; cbn [fold_left fst snd].
  - destruct (assoc k d); reflexivity.
  - rewrite IH. cbn [assoc].
    destruct (assoc k' d) eqn:Ek'.
    + destruct (assoc k d) eqn:Ek; [reflexivity|].
      destruct (String.eqb_spec k k') as [->|Hne]; [congruence | reflexivity].
    + destruct (String.eqb_spec k k') as [->|Hne].
      * rewrite assoc_dict_set_eq, Ek'. reflexivity.
      * rewrite assoc_dict_set_ne by exact Hne. reflexivity.
Qed.

Lemma complete_action_config_Ret d config defaults ca cert key :
  assoc "defaults" config = Some (JObj defaults) ->
  assoc "ca_file" config = Some ca ->
  assoc "cert_file" config = Some cert ->
  assoc "key_file" config = Some key ->
  complete_action_config (JObj d) config =
    Ret (let d' := fill_defaults
                     (dict_set "key_file" key
                        (dict_set "cert_file" cert (dict_set "ca_file" ca d))) defaults in
         match assoc "action" d' with
         | Some _ => d'
         | None => dict_set "action" JNull d'
         end).
Proof.
  intros Hd Hca Hcert Hkey. unfold complete_action_config, getitem, obind.
  rewrite Hd, Hca, Hcert, Hkey. reflexivity.
Qed.

(** X19. [complete_action_config] (lines 34-44), given a dictionary and a
    configuration that holds [defaults] (a dictionary), [ca_file],
    [cert_file] and [key_file]: the three files of the result are those of
    the configuration, whatever the action said; any other key the action
    had keeps its value; a key it had not takes the value of [defaults];
    and [action] is [None] when neither gave it.  No other key appears. *)
Theorem complete_action_config_lookup d config defaults ca cert key :
  assoc "defaults" config = Some (JObj defaults) ->
  assoc "ca_file" config = Some ca ->
  assoc "cert_file" config = Some cert ->
  assoc "key_file" config = Some key ->
  exists r,
    complete_action_config (JObj d) config = Ret r /\
    assoc "ca_file" r = Some ca /\
    assoc "cert_file" r = Some cert /\
    assoc "key_file" r = Some key /\
    forall k, k <> "ca_file" -> k <> "cert_file" -> k <> "key_file" ->
      assoc k r =
        match assoc k d with
        | Some v => Some v
        | None =>
          match assoc k defaults with
          | Some v => Some v
          | None => if String.eqb k "action" then Some JNull else None
          end
        end.
Proof.
  intros Hd Hca Hcert Hkey. eexists.
  split; [apply (complete_action_config_Ret _ _ _ _ _ _ Hd Hca Hcert Hkey)|].
  cbv zeta.
  set (d3 := dict_set "key_file" key (dict_set "cert_file" cert (dict_set "ca_file" ca d))).
  assert (Hfile : forall k, assoc k (fill_defaults d3 defaults) =
                            match assoc k d3 with
                            | Some v => Some v
                            | None => assoc k defaults
                            end) by (intros k; apply assoc_fill_defaults).
  assert (Hfinal : forall k,
            assoc k (match assoc "action" (fill_defaults d3 defaults) with
                     | Some _ => fill_defaults d3 defaults
                     | None => dict_set "action" JNull (fill_defaults d3 defaults)
                     end) =
            match assoc k (fill_defaults d3 defaults) with
            | Some v => Some v
            | None => if String.eqb k "action" then Some JNull else None
            end).
  { intros k. destruct (assoc "action" (fill_defaults d3 defaults)) eqn:Ea.
    - destruct (assoc k (fill_defaults d3 defaults)) eqn:Ek; [reflexivity|].
      destruct (String.eqb_spec k "action") as [->|]; [congruence | reflexivity].
    - destruct (String.eqb_spec k "action") as [->|Hne].
      + now rewrite assoc_dict_set_eq, Ea.
      + rewrite assoc_dict_set_ne by exact Hne.
        destruct (assoc k (fill_defaults d3 defaults)); reflexivity. }
  assert (Hca3 : assoc "ca_file" d3 = Some ca).
  { unfold d3. rewrite !assoc_dict_set_ne by discriminate. apply assoc_dict_set_eq. }
  assert (Hcert3 : assoc "cert_file" d3 = Some cert).
  { unfold d3. rewrite assoc_dict_set_ne by discriminate. apply assoc_dict_set_eq. }
  assert (Hkey3 : assoc "key_file" d3 = Some key) by apply assoc_dict_set_eq.
  repeat split.
  - now rewrite Hfinal, Hfile, Hca3.
  - now rewrite Hfinal, Hfile, Hcert3.
  - now rewrite Hfinal, Hfile, Hkey3.
  - intros k H1 H2 H3. rewrite Hfinal, Hfile. unfold d3.
    rewrite !assoc_dict_set_ne by assumption.
    destruct (assoc k d); [reflexivity|]. destruct (assoc k defaults); reflexivity.
Qed.

(** ** Challenge handlers *)

Lemma assoc_not_in {A} k (kv : list (string * A)) : ~ In k (map fst kv) -> assoc k kv = None.
Proof.
  induction kv as [|[k' v'] r IH]; [reflexivity|]. cbn [map fst In assoc]. intros Hn.
  destruct (String.eqb_spec k k') as [->|Hne]; [exfalso; apply Hn; now left|].
  apply IH. intros Hin. apply Hn. now right.
Qed.

Lemma assoc_dict_merge k other : forall d,
  List.NoDup (map fst other) ->
  assoc k (dict_merge d other) =
    match assoc k other with
    | Some v => Some v
    | None => assoc k d
    end.
Proof.
  unfold dict_merge.
  induction other as [|[k' v'] r IH]; intros d Hnd; cbn [fold_left fst snd map] in *.
  - reflexivity.
  - inversion Hnd as [|? ? Hnotin Hnd']; subst. rewrite (IH _ Hnd'). cbn [assoc].
    destruct (String.eqb_spec k k') as [->|Hne].
    + rewrite (assoc_not_in _ _ Hnotin). apply assoc_dict_set_eq.
    + rewrite assoc_dict_set_ne by exact Hne. reflexivity.
Qed.

Lemma select_by_dicts (test : Json -> Outcome bool) (p : list (string * Json) -> bool) hs :
  (forall h, test (JObj h) = Ret (p h)) ->
  select_by test (map JObj hs) = Ret (map JObj (List.filter p hs)).
Proof.
  intros Ht. induction hs as [|h r IH]; [reflexivity|].
  cbn [map select_by List.filter]. rewrite Ht, IH. cbn [obind].
  destruct (p h); reflexivity.
Qed.

Lemma filter_head_find {A} (p : A -> bool) l :
  match List.filter p l with
  | x :: _ => List.find p l = Some x
  | [] => List.find p l = None
  end.
Proof.
  induction l as [|a r IH]; [reflexivity|]. cbn [List.filter List.find].
  destruct (p a); [reflexivity | exact IH].
Qed.

Lemma handler_config_dicts globalconfig hs domain :
  handler_config globalconfig (map JObj hs) domain =
    Ret (dict_merge (dict_merge globalconfig (default [] (first_generic hs)))
                    (default [] (first_specific domain hs))).
Proof.
  unfold handler_config.
  rewrite (select_by_dicts _
             (fun h => match assoc "domain" h with Some _ => false | None => true end)).
  2:{ intros h. cbn [contains obind]. destruct (assoc "domain" h) eqn:E.
      - rewrite bool_decide_eq_true_2 by eauto. reflexivity.
      - rewrite bool_decide_eq_false_2 by (intros [? ?]; discriminate). reflexivity. }
  cbn [obind].
  rewrite (select_by_dicts _
             (fun h => match assoc "domain" h with
                       | Some d => json_is d domain
                       | None => false
                       end)).
  2:{ intros h. cbn [contains obind getitem]. destruct (assoc "domain" h) eqn:E.
      - rewrite bool_decide_eq_true_2 by eauto. reflexivity.
      - rewrite bool_decide_eq_false_2 by (intros [? ?]; discriminate). reflexivity. }
  unfold first_generic, first_specific.
  pose proof (filter_head_find
                (fun h : list (string * Json) =>
                   match assoc "domain" h with Some _ => false | None => true end) hs) as Hg.
  pose proof (filter_head_find
                (fun h : list (string * Json) =>
                   match assoc "domain" h with
                   | Some d => json_is d domain
                   | None => false
                   end) hs) as Hs.
  destruct (List.filter _ hs) as [|g gs] in Hg |- *; rewrite Hg; cbn [map dict_update obind default from_option];
    destruct (List.filter _ hs) as [|s ss] in Hs |- *; rewrite Hs; reflexivity.
Qed.

(** X20. The handler configuration of a domain (lines 120-134), when the
    handler configurations are dictionaries with distinct keys: a key is
    looked up first in the first handler configuration whose [domain] is
    this domain, then in the first one that has no [domain], then in the
    global configuration.  Handler configurations after the first of each
    kind, and those of other domains, are not used at all. *)
Theorem handler_config_precedence globalconfig hs domain :
  Forall (fun h => List.NoDup (map fst h)) hs ->
  exists cfg,
    handler_config globalconfig (map JObj hs) domain = Ret cfg /\
    forall k,
      assoc k cfg =
        match assoc_in k (first_specific domain hs) with
        | Some v => Some v
        | None =>
          match assoc_in k (first_generic hs) with
          | Some v => Some v
          | None => assoc k globalconfig
          end
        end.
Proof.
  intros Hnd. eexists. split; [apply handler_config_dicts|]. intros k.
  assert (Hfind : forall p h, List.find p hs = Some h -> List.NoDup (map fst h)).
  { intros p h Hf. apply List.find_some in Hf as [Hin _].
    rewrite List.Forall_forall in Hnd. now apply Hnd. }
  rewrite assoc_dict_merge.
  2:{ unfold first_specific. destruct (List.find _ hs) eqn:E; [eapply Hfind; eauto | constructor]. }
  rewrite assoc_dict_merge.
  2:{ unfold first_generic. destruct (List.find _ hs) eqn:E; [eapply Hfind; eauto | constructor]. }
  destruct (first_specific domain hs), (first_generic hs); reflexivity.
Qed.

Lemma contains_not_Diverge name x : contains name x <> Diverge.
Proof. destruct x; discriminate. Qed.

Lemma select_by_not_Diverge test l :
  (forall x, test x <> Diverge) -> select_by test l <> Diverge.
Proof.
  intros Ht. induction l as [|x r IH]; [discriminate|]. cbn [select_by].
  pose proof (Ht x) as Hx. destruct (test x); cbn [obind]; [|discriminate|contradiction].
  destruct (select_by test r); cbn [obind]; [discriminate|discriminate|contradiction].
Qed.

Lemma update_pair_not_Diverge i x : update_pair i x <> Diverge.
Proof.
  destruct x as [| | |s|l|kv]; cbn [update_pair]; try discriminate.
  - destruct s as [|a [|b [|c s]]]; discriminate.
  - destruct l as [|a [|b [|c l]]]; try discriminate; destruct a; discriminate.
  - destruct kv as [|[k1 v1] [|[k2 v2] [|c kv]]]; discriminate.
Qed.

Lemma update_pairs_not_Diverge l : forall i d, update_pairs i d l <> Diverge.
Proof.
  induction l as [|x r IH]; intros i d; [discriminate|]. cbn [update_pairs].
  pose proof (update_pair_not_Diverge i x) as Hx.
  destruct (update_pair i x); cbn [obind]; [apply IH|discriminate|contradiction].
Qed.

Lemma dict_update_not_Diverge d x : dict_update d x <> Diverge.
Proof. destruct x; try discriminate; apply update_pairs_not_Diverge. Qed.

Lemma update_pairs_raises l : forall i d,
  In (JStr "mode") l -> exists e, update_pairs i d l = Raise e.
Proof.
  induction l as [|x r IH]; intros i d Hin; [destruct Hin|].
  cbn [update_pairs]. destruct Hin as [->|Hin].
  - cbn [update_pair obind]. eauto.
  - pose proof (update_pair_not_Diverge i x) as Hx.
    destruct (update_pair i x) as [kv|e|] eqn:E; cbn [obind]; eauto. contradiction.
Qed.

Lemma existsb_json_is_In name l :
  existsb (fun e => json_is e name) l = true -> In (JStr name) l.
Proof.
  induction l as [|x r IH]; [discriminate|]. cbn [existsb]. intros H.
  apply orb_true_iff in H as [H|H]; [left | right; auto].
  destruct x; try discriminate. cbn [json_is] in H. apply String.eqb_eq in H. now subst.
Qed.

Lemma dict_update_refuses d x :
  is_dict x = false -> contains "mode" x = Ret true -> exists e, dict_update d x = Raise e.
Proof.
  intros Hd Hc. destruct x as [| | |s|l|kv]; try discriminate.
  - cbn [dict_update]. destruct s as [|c s]; [discriminate|]. cbn [chars update_pairs].
    destruct s; cbn [update_pair obind]; eauto.
  - cbn [dict_update]. apply update_pairs_raises, existsb_json_is_In.
    cbn [contains] in Hc. congruence.
Qed.

(** X21. A handler configuration that is no dictionary is refused: when
    the first element kept for its ['mode'] is a string or a list,
    [handler_config] (lines 122-134) raises for every domain, whatever
    follows it, in the update of the dictionary or in the look-up of its
    [domain]. *)
Theorem handler_config_refuses globalconfig x rest domain :
  is_dict x = false ->
  contains "mode" x = Ret true ->
  exists e, handler_config globalconfig (x :: rest) domain = Raise e.
Proof.
  intros Hd Hc. unfold handler_config. cbn [select_by].
  assert (Hdom : exists b, contains "domain" x = Ret b /\ getitem x "domain" = Raise TypeError).
  { destruct x; try discriminate; cbn [contains getitem]; eauto. }
  destruct Hdom as (b & Hb & Hget). rewrite Hb. cbn [obind].
  set (test1 := fun x0 : Json => obind (contains "domain" x0) (fun b0 => Ret (negb b0))).
  assert (H1 : select_by test1 rest <> Diverge).
  { apply select_by_not_Diverge. intros y. unfold test1.
    pose proof (contains_not_Diverge "domain" y). destruct (contains "domain" y);
      cbn [obind]; [discriminate|discriminate|contradiction]. }
  destruct (select_by test1 rest) as [gs|e|]; cbn [obind]; [|eauto|contradiction].
  destruct b; cbn [negb].
  - assert (H2 : match gs with
                 | g :: _ => dict_update globalconfig g
                 | [] => Ret globalconfig
                 end <> Diverge)
      by (destruct gs; [discriminate | apply dict_update_not_Diverge]).
    destruct (match gs with g :: _ => dict_update globalconfig g | [] => Ret globalconfig end)
      as [cfg|e|]; cbn [obind]; [|eauto|contradiction].
    rewrite Hget. cbn [obind]. eauto.
  - destruct (dict_update_refuses globalconfig x Hd Hc) as [e He]. rewrite He. cbn [obind]. eauto.
Qed.

(** ** [load]: the files that are read *)

Lemma has_char_neq c a b : has_char c a = false -> has_char c b = true -> String.eqb a b = false.
Proof.
  intros Ha Hb. destruct (String.eqb_spec a b) as [->|]; [congruence | reflexivity].
Qed.

(** X22. The files of the domain configuration directory that [load]
    reads (lines 150-156 and 193-196).  [os.listdir] gives names without a
    slash, so the comparison with the path of the global configuration
    file holds for every name as soon as that path has a slash: every name
    that ends in [.conf] is read as a domain configuration.  Without [-c]
    the path is [/etc/acme/acme.conf] or [/etc/acertmgr/acertmgr.conf] and
    has one; so [acertmgr.conf], which lies in the default directory, is
    not skipped. *)
Theorem domain_config_files_global names :
  Forall (fun name => has_char "/" name = false) names ->
  (forall global_config_file,
     has_char "/" global_config_file = true ->
     domain_config_files names global_config_file = List.filter (endswith ".conf") names) /\
  (forall config_dir work_dir isfile isdir,
     domain_config_files names
       (fst (fst (resolve_paths None config_dir work_dir isfile isdir))) =
     List.filter (endswith ".conf") names) /\
  (In "acertmgr.conf" names ->
   In "acertmgr.conf" (domain_config_files names DEFAULT_CONF_FILE)).
Proof.
  intros Hnames.
  assert (Hgen : forall g, has_char "/" g = true ->
                 domain_config_files names g = List.filter (endswith ".conf") names).
  { intros g Hg. unfold domain_config_files. apply List.filter_ext_in. intros name Hin.
    rewrite List.Forall_forall in Hnames. unfold is_domain_config_file.
    rewrite (has_char_neq "/" name g (Hnames name Hin) Hg). apply andb_true_r. }
  split; [exact Hgen|]. split.
  - intros config_dir work_dir isfile isdir. apply Hgen.
    unfold resolve_paths. cbn [given fst]. destruct (isfile LEGACY_CONF_FILE); reflexivity.
  - intros Hin. rewrite Hgen by reflexivity. apply List.filter_In. split; [exact Hin | reflexivity].
Qed.

(** ** [parse_config_entry] *)

Lemma obind_Ret_inv {A B} (o : Outcome A) (k : A -> Outcome B) b :
  obind o k = Ret b -> exists a, o = Ret a /\ k a = Ret b.
Proof. destruct o; cbn [obind]; intros H; [eauto | discriminate | discriminate]. Qed.

Ltac obind_inv H x :=
  let E := fresh "E" x in
  apply obind_Ret_inv in H as (x & E & H).

Lemma update_config_value_Ret_inv config name localconfig globalconfig dflt config' :
  update_config_value config name localconfig globalconfig dflt = Ret config' ->
  exists v, config' = dict_set name v config.
Proof.
  unfold update_config_value.
  destruct (select_containing name localconfig) as [[|v l]| |]; intros H;
    try discriminate; injection H as <-; eauto.
Qed.

Lemma select_containing_Forall name xs : forall l,
  select_containing name xs = Ret l -> Forall (fun x => contains name x = Ret true) l.
Proof.
  induction xs as [|x r IH]; intros l; cbn [select_containing].
  - intros H. injection H as <-. constructor.
  - destruct (contains name x) as [b| |] eqn:Eb; try discriminate.
    destruct (select_containing name r) as [l'| |]; try discriminate.
    intros H. injection H as <-. specialize (IH _ eq_refl).
    destruct b; [constructor; assumption | assumption].
Qed.

Lemma completed_lookup d3 defaults k :
  assoc k (match assoc "action" (fill_defaults d3 defaults) with
           | Some _ => fill_defaults d3 defaults
           | None => dict_set "action" JNull (fill_defaults d3 defaults)
           end) =
  match assoc k d3 with
  | Some v => Some v
  | None =>
    match assoc k defaults with
    | Some v => Some v
    | None => if String.eqb k "action" then Some JNull else None
    end
  end.
Proof.
  destruct (assoc "action" (fill_defaults d3 defaults)) eqn:Ea.
  - rewrite assoc_fill_defaults in *. destruct (assoc k d3) eqn:Ek; [reflexivity|].
    destruct (assoc k defaults) eqn:Ed; [reflexivity|].
    destruct (String.eqb_spec k "action") as [->|]; [|reflexivity].
    rewrite Ek, Ed in Ea. discriminate.
  - destruct (String.eqb_spec k "action") as [->|Hne].
    + rewrite assoc_dict_set_eq. rewrite assoc_fill_defaults in Ea.
      destruct (assoc "action" d3); [discriminate|]. now rewrite Ea.
    + rewrite assoc_dict_set_ne by exact Hne. rewrite assoc_fill_defaults.
      destruct (assoc k d3); [reflexivity|]. destruct (assoc k defaults); reflexivity.
Qed.

Lemma complete_action_config_Ret_inv x config r :
  complete_action_config x config = Ret r ->
  exists d defaults ca cert key,
    x = JObj d /\
    assoc "defaults" config = Some (JObj defaults) /\
    assoc "ca_file" config = Some ca /\
    assoc "cert_file" config = Some cert /\
    assoc "key_file" config = Some key.
Proof.
  unfold complete_action_config, getitem. intros H.
  destruct (assoc "defaults" config) as [defaults|]; [|discriminate]. cbn [obind] in H.
  destruct (assoc "ca_file" config) as [ca|]; [|discriminate]. cbn [obind] in H.
  destruct x as [| | | | |d]; try discriminate.
  destruct (assoc "cert_file" config) as [cert|]; [|discriminate]. cbn [obind] in H.
  destruct (assoc "key_file" config) as [key|]; [|discriminate]. cbn [obind] in H.
  destruct defaults as [| | | | |dflt]; try discriminate.
  eauto 10.
Qed.

(** What a completed action holds, relative to the configuration. *)
Lemma complete_action_config_action x config r :
  contains "path" x = Ret true ->
  complete_action_config x config = Ret r ->
  assoc "ca_file" r = assoc "ca_file" config /\
  assoc "cert_file" r = assoc "cert_file" config /\
  assoc "key_file" r = assoc "key_file" config /\
  is_Some (assoc "action" r) /\
  is_Some (assoc "path" r).
Proof.
  intros Hpath H.
  destruct (complete_action_config_Ret_inv _ _ _ H)
    as (d & defaults & ca & cert & key & -> & Hd & Hca & Hcert & Hkey).
  rewrite (complete_action_config_Ret _ _ _ _ _ _ Hd Hca Hcert Hkey) in H.
  injection H as <-. cbv zeta. rewrite !completed_lookup, Hca, Hcert, Hkey.
  rewrite assoc_dict_set_eq.
  rewrite (assoc_dict_set_ne "key_file" "cert_file") by discriminate.
  rewrite assoc_dict_set_eq.
  rewrite !(assoc_dict_set_ne _ "ca_file") by discriminate.
  rewrite assoc_dict_set_eq.
  rewrite !(assoc_dict_set_ne _ "action") by discriminate.
  rewrite !(assoc_dict_set_ne _ "path") by discriminate.
  repeat split.
  - destruct (assoc "action" d); [eauto|]. destruct (assoc "action" defaults); cbn; eauto.
  - cbn [contains] in Hpath. injection Hpath as Hp. apply bool_decide_eq_true_1 in Hp.
    destruct Hp as [v ->]. eauto.
Qed.

Lemma complete_all_actions config : forall l actions,
  Forall (fun x => contains "path" x = Ret true) l ->
  complete_all config l = Ret actions ->
  Forall (fun a => assoc "ca_file" a = assoc "ca_file" config /\
                   assoc "cert_file" a = assoc "cert_file" config /\
                   assoc "key_file" a = assoc "key_file" config /\
                   is_Some (assoc "action" a) /\
                   is_Some (assoc "path" a)) actions /\
  List.length actions = List.length l.
Proof.
  induction l as [|x r IH]; intros actions Hl H; cbn [complete_all] in H.
  - injection H as <-. split; [constructor | reflexivity].
  - inversion Hl as [|? ? Hx Hr]; subst.
    obind_inv H c. obind_inv H rest. injection H as <-.
    destruct (IH _ Hr Erest) as [IH1 IH2]. split.
    + constructor; [eapply complete_action_config_action; eauto | exact IH1].
    + cbn [List.length]. now rewrite IH2.
Qed.

Lemma handlers_for_domains globalconfig handlerconfigs : forall domainlist acc handlers,
  handlers_for globalconfig handlerconfigs acc domainlist = Ret handlers ->
  (forall d, In d domainlist ->
     exists cfg, handler_config globalconfig handlerconfigs d = Ret cfg /\
                 assoc d handlers = Some (JObj cfg)) /\
  (forall d, ~ In d domainlist -> assoc d handlers = assoc d acc).
Proof.
  induction domainlist as [|domain rest IH]; intros acc handlers H; cbn [handlers_for] in H.
  - injection H as <-. split; [intros d [] | reflexivity].
  - obind_inv H cfg. destruct (IH _ _ H) as [IHin IHout]. split.
    + intros d Hd. destruct (in_dec string_dec d rest) as [Hin|Hnotin]; [now apply IHin|].
      destruct Hd as [<-|Hin]; [|contradiction].
      exists cfg. split; [exact Ecfg|]. rewrite (IHout _ Hnotin). apply assoc_dict_set_eq.
    + intros d Hd. rewrite IHout by (intros Hin; apply Hd; now right).
      apply assoc_dict_set_ne. intros ->. apply Hd. now left.
Qed.

Ltac lookup_dict :=
  repeat first [ rewrite assoc_dict_set_eq
               | rewrite assoc_dict_set_ne by discriminate ];
  try reflexivity.

(** X23. What every configuration returned by [parse_config_entry] (lines
    57-136) holds: the domains string, its list of names and its id; a
    key length that is a number and a static-CA flag that is a boolean;
    under [actions] a list of dictionaries, each with a [path] and an
    [action] and with the [ca_file], [cert_file] and [key_file] of the
    configuration itself; and under [handlers] a dictionary whose keys are
    exactly the names of the domain list, each with a dictionary. *)
Theorem parse_config_entry_shape md5 domains data globalconfig work_dir config :
  parse_config_entry md5 domains data globalconfig work_dir = Ret config ->
  assoc "domains" config = Some (JStr domains) /\
  assoc "domainlist" config = Some (JArr (map JStr (split_on " " domains))) /\
  assoc "id" config = Some (JStr (md5 domains)) /\
  (exists n, assoc "key_length" config = Some (JNum n)) /\
  (exists b, assoc "static_ca" config = Some (JBool b)) /\
  (exists actions,
     assoc "actions" config = Some (JArr (map JObj actions)) /\
     Forall (fun a => assoc "ca_file" a = assoc "ca_file" config /\
                      assoc "cert_file" a = assoc "cert_file" config /\
                      assoc "key_file" a = assoc "key_file" config /\
                      is_Some (assoc "action" a) /\
                      is_Some (assoc "path" a)) actions) /\
  (exists handlers,
     assoc "handlers" config = Some (JObj handlers) /\
     forall d, In d (split_on " " domains) <-> exists cfg, assoc d handlers = Some (JObj cfg)).
Proof.
  unfold parse_config_entry, resolve_authority_agreement. intros H.
  obind_inv H c1. obind_inv H c2. obind_inv H c3. obind_inv H c4. obind_inv H c5.
  obind_inv H c6. obind_inv H cert_dir. obind_inv H crt. obind_inv H c7.
  obind_inv H cert_dir'. obind_inv H key. obind_inv H c8. obind_inv H c9.
  obind_inv H key_length. obind_inv H n. obind_inv H ca_files. obind_inv H c10.
  obind_inv H xs. obind_inv H selected. obind_inv H actioncfgs. obind_inv H actions.
  obind_inv H handlerconfigs. obind_inv H domainlist. obind_inv H handlers.
  injection H as <-. injection Edomainlist as <-.
  apply update_config_value_Ret_inv in Ec1 as [v1 ->].
  apply update_config_value_Ret_inv in Ec2 as [v2 ->].
  apply update_config_value_Ret_inv in Ec3 as [v3 ->].
  apply update_config_value_Ret_inv in Ec4 as [v4 ->].
  apply update_config_value_Ret_inv in Ec5 as [v5 ->].
  apply update_config_value_Ret_inv in Ec6 as [v6 ->].
  apply update_config_value_Ret_inv in Ec7 as [v7 ->].
  apply update_config_value_Ret_inv in Ec8 as [v8 ->].
  apply update_config_value_Ret_inv in Ec9 as [v9 ->].
  set (c9 := dict_set "key_length" (JNum n) _) in *.
  assert (Hc10 : exists b ca, c10 = dict_set "ca_file" ca (dict_set "static_ca" (JBool b) c9)).
  { destruct ca_files as [|x l]; [|injection Ec10 as <-; eauto].
    destruct (assoc "server_ca" globalconfig) as [ca|]; [injection Ec10 as <-; eauto|].
    obind_inv Ec10 cert_dir0. obind_inv Ec10 ca. injection Ec10 as <-. eauto. }
  destruct Hc10 as (b & ca & ->).
  apply select_containing_Forall in Eactioncfgs.
  destruct (complete_all_actions _ _ _ Eactioncfgs Eactions) as [Hactions _].
  destruct (handlers_for_domains _ _ _ _ _ Ehandlers) as [Hin Hout].
  unfold c9 in *. clear c9.
  split; [lookup_dict|]. split; [lookup_dict|]. split; [lookup_dict|].
  split; [exists n; lookup_dict|]. split; [exists b; lookup_dict|]. split.
  - exists actions. split; [lookup_dict|].
    eapply List.Forall_impl; [|exact Hactions]. cbv beta.
    intros a (H1 & H2 & H3 & H4 & H5).
    split; [rewrite H1; lookup_dict|]. split; [rewrite H2; lookup_dict|].
    split; [rewrite H3; lookup_dict|]. split; assumption.
  - exists handlers. split; [lookup_dict|]. intros d. split.
    + intros Hd. destruct (Hin d Hd) as (cfg & _ & Hcfg). eauto.
    + intros [cfg Hcfg]. destruct (in_dec string_dec d (split_on " " domains)) as [|Hn]; [assumption|].
      rewrite (Hout d Hn) in Hcfg. discriminate.
Qed.

Lemma Forall_is_dict_map ds : Forall (fun x => is_dict x = true) (map JObj ds).
Proof. induction ds; constructor; [reflexivity | assumption]. Qed.

Lemma select_containing_dicts name ds :
  select_containing name (map JObj ds) =
    Ret (map JObj (List.filter (fun d => bool_decide (is_Some (assoc name d))) ds)).
Proof.
  induction ds as [|d r IH]; [reflexivity|].
  cbn [map select_containing contains List.filter]. rewrite IH.
  destruct (bool_decide (is_Some (assoc name d))); reflexivity.
Qed.

Lemma contains_each_dicts name ds :
  contains_each name (map JObj ds) =
    Ret (map (fun d => bool_decide (is_Some (assoc name d))) ds).
Proof.
  induction ds as [|d r IH]; [reflexivity|].
  cbn [map contains_each contains obind]. rewrite IH. reflexivity.
Qed.

Lemma complete_all_dicts config defaults ca cert key ds :
  assoc "defaults" config = Some (JObj defaults) ->
  assoc "ca_file" config = Some ca ->
  assoc "cert_file" config = Some cert ->
  assoc "key_file" config = Some key ->
  exists actions, complete_all config (map JObj ds) = Ret actions.
Proof.
  intros Hd Hca Hcert Hkey. induction ds as [|d r [actions IH]]; [now eexists|].
  cbn [map complete_all].
  rewrite (complete_action_config_Ret _ _ _ _ _ _ Hd Hca Hcert Hkey), IH. cbn [obind]. eauto.
Qed.

Lemma completed_in_place_dicts ds : forall selected completed,
  exists ds', completed_in_place (map JObj ds) selected completed = map JObj ds'.
Proof.
  induction ds as [|d r IH]; intros selected completed.
  - exists []. destruct selected as [|[] ?]; reflexivity.
  - destruct selected as [|[] sr]; cbn [map completed_in_place].
    + now exists (d :: r).
    + destruct completed as [|c cr].
      * destruct (IH sr []) as [ds' ->]. now exists (d :: ds').
      * destruct (IH sr cr) as [ds' ->]. now exists (c :: ds').
    + destruct (IH sr completed) as [ds' ->]. now exists (d :: ds').
Qed.

Lemma handlers_for_dicts globalconfig hs : forall domainlist acc,
  exists handlers, handlers_for globalconfig (map JObj hs) acc domainlist = Ret handlers.
Proof.
  induction domainlist as [|domain rest IH]; intros acc; cbn [handlers_for]; [eauto|].
  rewrite handler_config_dicts. cbn [obind]. apply IH.
Qed.

Ltac resolve_step Hds Hs :=
  rewrite (update_config_value_dicts _ _ _ _ _ _ Hds);
  rewrite Hs by (cbn [In config_names]; auto 20);
  cbn [obind].

(** X24. [parse_config_entry] (lines 57-136) returns a configuration for
    every entry whose data is a list of dictionaries, provided that none
    of the names it looks for occurs in the domains string, that the
    certificate directory it resolves is a string, the key length a
    number and the [defaults] of the global configuration a dictionary.
    Each value is then that of the global configuration or else the
    default of the code: [cert_file] and [key_file] fall back on
    [server_cert] and [server_key] and then on a file named after the id
    in the certificate directory; [ca_file] is [server_ca], which also
    sets [static_ca], or such a file; the dictionaries of the entry give
    none of these values. *)
Theorem parse_config_entry_defaults md5 domains ds globalconfig work_dir cert_dir n defaults :
  Forall (fun name => is_substring name domains = false) config_names ->
  default (JStr work_dir) (assoc "cert_dir" globalconfig) = JStr cert_dir ->
  py_int (default (JNum DEFAULT_KEY_LENGTH) (assoc "key_length" globalconfig)) = Ret n ->
  default (JObj []) (assoc "defaults" globalconfig) = JObj defaults ->
  exists config,
    parse_config_entry md5 domains (JArr (map JObj ds)) globalconfig work_dir = Ret config /\
    assoc "api" config = Some (default (JStr DEFAULT_API) (assoc "api" globalconfig)) /\
    assoc "authority" config =
      Some (default (JStr DEFAULT_AUTHORITY) (assoc "authority" globalconfig)) /\
    assoc "authority_agreement" config =
      Some (default (JStr DEFAULT_AUTHORITY_AGREEMENT)
                    (assoc "authority_agreement" globalconfig)) /\
    assoc "account_key" config =
      Some (default (JStr (os_path_join work_dir "account.key"))
                    (assoc "account_key" globalconfig)) /\
    assoc "cert_dir" config = Some (JStr cert_dir) /\
    assoc "ttl_days" config = Some (default (JNum DEFAULT_TTL) (assoc "ttl_days" globalconfig)) /\
    assoc "cert_file" config =
      Some (default (default (JStr (os_path_join cert_dir (md5 domains ++ ".crt")))
                             (assoc "server_cert" globalconfig))
                    (assoc "cert_file" globalconfig)) /\
    assoc "key_file" config =
      Some (default (default (JStr (os_path_join cert_dir (md5 domains ++ ".key")))
                             (assoc "server_key" globalconfig))
                    (assoc "key_file" globalconfig)) /\
    assoc "key_length" config = Some (JNum n) /\
    assoc "static_ca" config =
      Some (JBool match assoc "server_ca" globalconfig with Some _ => true | None => false end) /\
    assoc "ca_file" config =
      Some (default (JStr (os_path_join cert_dir (md5 domains ++ ".ca")))
                    (assoc "server_ca" globalconfig)) /\
    assoc "defaults" config = Some (JObj defaults).
Proof.
  intros Hnames Hcert_dir Hn Hdefaults.
  assert (Hs : forall name, In name config_names -> is_substring name domains = false)
    by (now apply List.Forall_forall).
  unfold parse_config_entry, resolve_authority_agreement. rewrite Hdefaults.
  pose proof (Forall_is_dict_map ds) as Hds.
  resolve_step Hds Hs. resolve_step Hds Hs. resolve_step Hds Hs.
  resolve_step Hds Hs. resolve_step Hds Hs. resolve_step Hds Hs.
  cbn [getitem]. lookup_dict. rewrite Hcert_dir. cbn [obind path_join_json].
  resolve_step Hds Hs.
  cbn [getitem]. lookup_dict. cbn [obind path_join_json].
  resolve_step Hds Hs. resolve_step Hds Hs.
  cbn [getitem]. lookup_dict. cbn [obind]. rewrite Hn. cbn [obind].
  cbn [select_containing contains].
  rewrite Hs by (cbn [In config_names]; auto 20).
  rewrite (existsb_json_is_dicts _ _ Hds). cbn [obind].
  destruct (assoc "server_ca" globalconfig) as [server_ca|] eqn:Eca;
    cbn [getitem]; lookup_dict; cbn [obind path_join_json iterate]; cbv zeta;
    rewrite contains_each_dicts, select_containing_dicts; cbn [obind];
    (match goal with
     | |- context [complete_all ?c (map JObj ?l)] =>
       let H := fresh in
       eassert (H : exists actions, complete_all c (map JObj l) = Ret actions)
         by (eapply complete_all_dicts; lookup_dict);
       destruct H as [actions ->]
     end);
    cbn [obind];
    (match goal with
     | |- context [completed_in_place (map JObj ?l) ?s ?a] =>
       destruct (completed_in_place_dicts l s a) as [ds' ->]
     end);
    rewrite select_containing_dicts; cbn [obind];
    (match goal with
     | |- context [handlers_for ?g (map JObj ?hs) ?acc ?dl] =>
       destruct (handlers_for_dicts g hs dl acc) as [handlers ->]
     end);
    cbn [obind]; eexists; (split; [reflexivity|]);
    repeat (split; [lookup_dict|]); lookup_dict.
Qed.

(** * Examples of the properties above *)

Lemma base64_enc_inj_witness :
  base64_enc "any carnal pleas" = base64_enc ("any carnal" ++ " pleas") /\
  "any carnal pleas" = "any carnal" ++ " pleas".
Proof.
  assert (H : base64_enc "any carnal pleas" = base64_enc ("any carnal" ++ " pleas"))
    by (vm_compute; reflexivity).
  split; [exact H|].
  exact (base64_enc_inj "any carnal pleas" ("any carnal" ++ " pleas") H).
Defined.

Lemma acme_header_thumbprint_witness :
  exists e n,
    Demo.header = [("alg", JStr "RS256");
                   ("jwk", JObj [("e", JStr e); ("kty", JStr "RSA"); ("n", JStr n)])] /\
    string_forallb token_char_ok e = true /\
    string_forallb token_char_ok n = true /\
    thumbprint_of (L := Demo.lib) (JObj [("e", JStr e); ("kty", JStr "RSA"); ("n", JStr n)]) =
      base64_enc
        (sha256_digest (Lib := Demo.lib)
           ("{" ++ quoted "e" ++ ":" ++ quoted e ++ "," ++
            quoted "kty" ++ ":" ++ quoted "RSA" ++ "," ++
            quoted "n" ++ ":" ++ quoted n ++ "}")).
Proof.
  exact (acme_header_thumbprint (L := Demo.lib) Demo.key Demo.header eq_refl).
Defined.

Lemma get_crt_from_csr_one_header_witness :
  let w' := snd (get_crt_from_csr (L := Demo.lib) Demo.net_issue 5 Demo.key "CSR"
                   Demo.domains Demo.acme_dir Demo.CA Demo.world0) in
  store w' !! 0%nat = Some Demo.header /\
  forall url data, In (EvPost url data) (trace w') ->
    exists nonce payload,
      data = json_dumps (envelope (L := Demo.lib) Demo.key Demo.header nonce payload).
Proof.
  exact (get_crt_from_csr_one_header (L := Demo.lib) Demo.net_issue 5 Demo.key "CSR"
           Demo.domains Demo.acme_dir Demo.CA Demo.header Demo.world0 eq_refl
           (List.Forall_nil _)).
Defined.

Lemma get_crt_from_csr_files_witness :
  fs (snd (get_crt_from_csr (L := Demo.lib) Demo.net_issue 5 Demo.key "CSR"
             Demo.domains Demo.acme_dir Demo.CA Demo.world_published)) !! "/var/www/index.html" =
  fs Demo.world_published !! "/var/www/index.html".
Proof.
  apply (get_crt_from_csr_files (L := Demo.lib) Demo.net_issue 5 Demo.key "CSR"
           Demo.domains Demo.acme_dir Demo.CA Demo.world_published "/var/www/index.html").
  intros t H. vm_compute in H. discriminate H.
Defined.

Lemma send_signed_nonce_failure_witness :
  send_signed (L := Demo.lib) Examples.net_down Demo.key Demo.CA
      (JStr "https://ca.test/acme/new-reg") 0 new_reg_payload Demo.world1 =
    (Raise (URLError "<urlopen error [Errno 111] Connection refused>"),
     mkWorld ∅ (<[1%nat := Demo.header]> {[0%nat := Demo.header]}) 2 1
             [EvGet "https://ca.test/directory"]).
Proof.
  refine (eq_trans
    (send_signed_nonce_failure (L := Demo.lib) Examples.net_down Demo.key Demo.CA
       (JStr "https://ca.test/acme/new-reg") 0 new_reg_payload Demo.world1
       (URLError "<urlopen error [Errno 111] Connection refused>") eq_refl) _).
  vm_compute. reflexivity.
Defined.

Lemma verify_domain_authz_refused_witness :
  let w1 := after_get_challenge (L := Demo.lib) Demo.key Demo.CA 0 "example.com"
              (JStr "nonce-1") Demo.world1 in
  verify_domain (L := Demo.lib) Demo.net_refused 5 Demo.key Demo.acme_dir Demo.CA 0
      Demo.thumbprint "example.com" Demo.world1 =
    (Raise (ValueError "Error requesting challenges: {0} {1}"
              [VNone; VStr "<urlopen error [Errno 111] Connection refused>"]),
     w1) /\
  fs w1 = fs Demo.world1 /\ calls w1 = 2%nat.
Proof.
  refine (verify_domain_authz_refused (L := Demo.lib) Demo.net_refused 5 Demo.key
            Demo.acme_dir Demo.CA 0 Demo.thumbprint "example.com" Demo.world1
            200 [("Replay-Nonce", "nonce-1")] EmptyString None
            "<urlopen error [Errno 111] Connection refused>"
            _ eq_refl eq_refl _).
  - cbn. lia.
  - discriminate.
Defined.



Lemma poll_failures_witness :
  poll (L := Demo.lib) Examples.net_poll_error 5 "example.com"
       (JStr "https://ca.test/acme/challenge/2") Demo.proof_path Demo.world_published =
    (Raise (ValueError "Error checking challenge: {0} {1}"
              [VInt 403; VJson (Demo.status_of "invalid")]),
     mkWorld {[Demo.proof_path := Demo.keyauthorization]} ∅ 0 2
       [EvGet "https://ca.test/acme/challenge/2"; EvSleep 2;
        EvGet "https://ca.test/acme/challenge/2"]).
Proof.
  assert (Hbody : loads_bytes (L := Demo.lib) (json_dumps (Demo.status_of "invalid")) =
                  Ret (Demo.status_of "invalid")) by (vm_compute; reflexivity).
  refine (eq_trans
    (proj1 (poll_failures (L := Demo.lib) Examples.net_poll_error 5 "example.com"
              "https://ca.test/acme/challenge/2" Demo.proof_path Demo.world_published 1%nat
              _ _)
       403 (json_dumps (Demo.status_of "invalid")) (Demo.status_of "invalid") eq_refl Hbody) _).
  - intros i Hi. exists (Demo.status_of "pending"), (JStr "pending").
    destruct i as [|i]; [split; vm_compute; reflexivity | lia].
  - lia.
  - vm_compute. reflexivity.
Defined.

Lemma sign_certificate_outcomes_witness :
  sign_certificate (L := Demo.lib) Demo.net_two_calls Demo.key "CSR" Demo.CA 0 Demo.world1 =
    (Ret "{}",
     log (EvPrint "Certificate signed!")
       (after_new_cert (L := Demo.lib) Demo.key "CSR" Demo.CA 0 (JStr "nonce-1") Demo.world1)).
Proof.
  refine (proj1 (proj2
    (sign_certificate_outcomes (L := Demo.lib) Demo.net_two_calls Demo.key "CSR" Demo.CA 0
       Demo.world1 200 [("Replay-Nonce", "nonce-1")] EmptyString eq_refl _))
    "{}" "{}" eq_refl eq_refl).
  cbn. lia.
Defined.

Lemma get_crt_from_csr_no_domains_witness :
  let run := get_crt_from_csr (L := Demo.lib) Demo.net_two_calls 5 Demo.key "CSR" []
               Demo.acme_dir Demo.CA Demo.world0 in
  fst run = Ret "{}" /\
  fs (snd run) = fs Demo.world0 /\
  trace (snd run) =
    (trace Demo.world0 ++
     [EvPrint "Signing certificate...";
      EvGet (Demo.CA ++ "/directory");
      EvPost (Demo.CA ++ "/acme/new-cert")
        (json_dumps (envelope (L := Demo.lib) Demo.key Demo.header
                       (header_get "Replay-Nonce" [("Replay-Nonce", "nonce-1")])
                       (new_cert_payload (dump_certificate_request (Lib := Demo.lib) "CSR"))));
      EvPrint "Certificate signed!"])%list.
Proof.
  exact (get_crt_from_csr_no_domains (L := Demo.lib) Demo.net_two_calls 5 Demo.key "CSR"
           Demo.acme_dir Demo.CA Demo.world0 Demo.header
           200 [("Replay-Nonce", "nonce-1")] EmptyString "{}" "{}"
           eq_refl eq_refl eq_refl eq_refl).
Defined.

Lemma update_config_value_entry_witness :
  exists config',
    update_config_value [] "api" [JStr "api.example.com"; JArr [JObj [("api", JStr "v2")]]]
      [("api", JStr "v2")] (JStr DEFAULT_API) = Ret config' /\
    assoc "api" config' =
      Some (if is_substring "api" "api.example.com" then JStr "api.example.com"
            else match assoc "api" [("api", JStr "v2")] with
                 | Some v => v
                 | None => JStr DEFAULT_API
                 end) /\
    forall k, k <> "api" -> assoc k config' = assoc k [].
Proof.
  apply (update_config_value_entry [] "api" "api.example.com" [JObj [("api", JStr "v2")]]
           [("api", JStr "v2")] (JStr DEFAULT_API)).
  repeat constructor.
Defined.

Lemma complete_action_config_lookup_witness :
  exists r,
    complete_action_config (JObj Examples.action) Examples.config = Ret r /\
    assoc "ca_file" r = Some (JStr "/etc/acertmgr/idZXhhbXBsZS5jb20gd3d3LmV4YW1wbGUuY29t.ca") /\
    assoc "cert_file" r = Some (JStr "/etc/acertmgr/idZXhhbXBsZS5jb20gd3d3LmV4YW1wbGUuY29t.crt") /\
    assoc "key_file" r = Some (JStr "/etc/acertmgr/idZXhhbXBsZS5jb20gd3d3LmV4YW1wbGUuY29t.key") /\
    forall k, k <> "ca_file" -> k <> "cert_file" -> k <> "key_file" ->
      assoc k r =
        match assoc k Examples.action with
        | Some v => Some v
        | None =>
          match assoc k [("user", JStr "root"); ("format", JStr "crt")] with
          | Some v => Some v
          | None => if String.eqb k "action" then Some JNull else None
          end
        end.
Proof.
  apply (complete_action_config_lookup Examples.action Examples.config
           [("user", JStr "root"); ("format", JStr "crt")]); vm_compute; reflexivity.
Defined.

Lemma handler_config_precedence_witness :
  exists cfg,
    handler_config Examples.globalconfig
      (map JObj [Examples.generic_handler; Examples.www_handler]) "www.example.com" = Ret cfg /\
    forall k,
      assoc k cfg =
        match assoc_in k (first_specific "www.example.com"
                            [Examples.generic_handler; Examples.www_handler]) with
        | Some v => Some v
        | None =>
          match assoc_in k (first_generic [Examples.generic_handler; Examples.www_handler]) with
          | Some v => Some v
          | None => assoc k Examples.globalconfig
          end
        end.
Proof.
  apply (handler_config_precedence Examples.globalconfig
           [Examples.generic_handler; Examples.www_handler] "www.example.com").
  repeat constructor; cbn; intuition discriminate.
Defined.

Lemma handler_config_refuses_witness :
  exists e, handler_config Examples.globalconfig [JStr "mode: standalone"] "example.com" = Raise e.
Proof.
  apply (handler_config_refuses Examples.globalconfig (JStr "mode: standalone") [] "example.com");
    vm_compute; reflexivity.
Defined.

Lemma domain_config_files_global_witness :
  (forall global_config_file,
     has_char "/" global_config_file = true ->
     domain_config_files ["acertmgr.conf"; "example.conf"; "README"] global_config_file =
       List.filter (endswith ".conf") ["acertmgr.conf"; "example.conf"; "README"]) /\
  (forall config_dir work_dir isfile isdir,
     domain_config_files ["acertmgr.conf"; "example.conf"; "README"]
       (fst (fst (resolve_paths None config_dir work_dir isfile isdir))) =
     List.filter (endswith ".conf") ["acertmgr.conf"; "example.conf"; "README"]) /\
  (In "acertmgr.conf" ["acertmgr.conf"; "example.conf"; "README"] ->
   In "acertmgr.conf"
      (domain_config_files ["acertmgr.conf"; "example.conf"; "README"] DEFAULT_CONF_FILE)).
Proof.
  apply (domain_config_files_global ["acertmgr.conf"; "example.conf"; "README"]).
  repeat constructor.
Defined.

Lemma parse_config_entry_shape_witness :
  parse_config_entry Examples.md5_hexdigest Examples.domains (JArr (map JObj Examples.data))
    Examples.globalconfig Examples.work_dir = Ret Examples.config /\
  assoc "domains" Examples.config = Some (JStr Examples.domains) /\
  assoc "domainlist" Examples.config =
    Some (JArr (map JStr (split_on " " Examples.domains))) /\
  assoc "id" Examples.config = Some (JStr (Examples.md5_hexdigest Examples.domains)) /\
  (exists n, assoc "key_length" Examples.config = Some (JNum n)) /\
  (exists b, assoc "static_ca" Examples.config = Some (JBool b)) /\
  (exists actions,
     assoc "actions" Examples.config = Some (JArr (map JObj actions)) /\
     Forall (fun a => assoc "ca_file" a = assoc "ca_file" Examples.config /\
                      assoc "cert_file" a = assoc "cert_file" Examples.config /\
                      assoc "key_file" a = assoc "key_file" Examples.config /\
                      is_Some (assoc "action" a) /\
                      is_Some (assoc "path" a)) actions) /\
  (exists handlers,
     assoc "handlers" Examples.config = Some (JObj handlers) /\
     forall d, In d (split_on " " Examples.domains) <->
               exists cfg, assoc d handlers = Some (JObj cfg)).
Proof.
  assert (H : parse_config_entry Examples.md5_hexdigest Examples.domains
                (JArr (map JObj Examples.data)) Examples.globalconfig Examples.work_dir =
              Ret Examples.config) by (vm_compute; reflexivity).
  split; [exact H|].
  exact (parse_config_entry_shape Examples.md5_hexdigest Examples.domains
           (JArr (map JObj Examples.data)) Examples.globalconfig Examples.work_dir
           Examples.config H).
Defined.

Lemma parse_config_entry_defaults_witness :
  exists config,
    parse_config_entry Examples.md5_hexdigest Examples.domains (JArr (map JObj Examples.data))
      Examples.globalconfig Examples.work_dir = Ret config /\
    assoc "api" config =
      Some (default (JStr DEFAULT_API) (assoc "api" Examples.globalconfig)) /\
    assoc "authority" config =
      Some (default (JStr DEFAULT_AUTHORITY) (assoc "authority" Examples.globalconfig)) /\
    assoc "authority_agreement" config =
      Some (default (JStr DEFAULT_AUTHORITY_AGREEMENT)
                    (assoc "authority_agreement" Examples.globalconfig)) /\
    assoc "account_key" config =
      Some (default (JStr (os_path_join Examples.work_dir "account.key"))
                    (assoc "account_key" Examples.globalconfig)) /\
    assoc "cert_dir" config = Some (JStr Examples.work_dir) /\
    assoc "ttl_days" config =
      Some (default (JNum DEFAULT_TTL) (assoc "ttl_days" Examples.globalconfig)) /\
    assoc "cert_file" config =
      Some (default (default (JStr (os_path_join Examples.work_dir
                                      (Examples.md5_hexdigest Examples.domains ++ ".crt")))
                             (assoc "server_cert" Examples.globalconfig))
                    (assoc "cert_file" Examples.globalconfig)) /\
    assoc "key_file" config =
      Some (default (default (JStr (os_path_join Examples.work_dir
                                      (Examples.md5_hexdigest Examples.domains ++ ".key")))
                             (assoc "server_key" Examples.globalconfig))
                    (assoc "key_file" Examples.globalconfig)) /\
    assoc "key_length" config = Some (JNum 2048) /\
    assoc "static_ca" config =
      Some (JBool match assoc "server_ca" Examples.globalconfig with
                  | Some _ => true
                  | None => false
                  end) /\
    assoc "ca_file" config =
      Some (default (JStr (os_path_join Examples.work_dir
                             (Examples.md5_hexdigest Examples.domains ++ ".ca")))
                    (assoc "server_ca" Examples.globalconfig)) /\
    assoc "defaults" config = Some (JObj [("user", JStr "root"); ("format", JStr "crt")]).
Proof.
  apply (parse_config_entry_defaults Examples.md5_hexdigest Examples.domains Examples.data
           Examples.globalconfig Examples.work_dir Examples.work_dir 2048
           [("user", JStr "root"); ("format", JStr "crt")]).
  - repeat constructor.
  - reflexivity.
  - vm_compute. reflexivity.
  - reflexivity.
Defined.

Lemma verify_domain_empty_token_witness :
  verify_domain (L := Demo.lib) Examples.net_empty_token 5 Demo.key Demo.acme_dir Demo.CA 0
      Demo.thumbprint "example.com" Demo.world1 =
    (Raise (IsADirectoryError "/var/www/acme/"),
     after_get_challenge (L := Demo.lib) Demo.key Demo.CA 0 "example.com"
       (header_get "Replay-Nonce" [("Replay-Nonce", "nonce-1")]) Demo.world1).
Proof.
  assert (Hpick : pick_challenge (L := Demo.lib) (json_dumps (Demo.challenge_of EmptyString)) =
                  Ret (JObj [("type", JStr "http-01"); ("token", JStr EmptyString);
                             ("uri", JStr "https://ca.test/acme/challenge/2")]))
    by (vm_compute; reflexivity).
  destruct (verify_domain_empty_token (L := Demo.lib) Examples.net_empty_token 5 Demo.key
              Demo.acme_dir Demo.CA 0 Demo.thumbprint "example.com" Demo.world1
              200 [("Replay-Nonce", "nonce-1")] EmptyString
              (json_dumps (Demo.challenge_of EmptyString))
              (JObj [("type", JStr "http-01"); ("token", JStr EmptyString);
                     ("uri", JStr "https://ca.test/acme/challenge/2")])
              (Nat.neq_0_succ 0) eq_refl eq_refl Hpick eq_refl)
    as (e & Hrun & [->|[Hdir _]] & _).
  - exact Hrun.
  - discriminate Hdir.
Defined.
